(** * The protocol engine of device-os: dispatch, handshake and describe posting

    A shallow embedding of [Protocol] (communication/src/protocol.cpp):
    [handle_received_message], [notify_message_complete], [handle_key_change],
    [handle_time_response], [begin], [hello], the two [event_loop]s,
    [build_describe_message], [generate_and_send_description],
    [post_description] and [send_description_response].

    The engine is single threaded and talks to its collaborators (channel,
    descriptor callbacks, ack-handler registry, pinger, time sync, chunked
    transfer, subscriptions, functions, variables) through calls.  Every such
    call is recorded in the [trace] of the protocol state; what a call answers
    is given by a [World], as a function of the calls made before it. *)

From Stdlib Require Import ZArith List Bool Lia String.
From Stdlib Require Import Strings.Byte.
Import ListNotations.
Local Open Scope Z_scope.

(** ** Enumerations *)

Inductive ProtocolError :=
| NO_ERROR
| SESSION_RESUMED
| MESSAGE_TIMEOUT
| MISSING_REQUEST_TOKEN
| CHANNEL_ERROR (code : positive).

Definition ProtocolError_eqb (a b : ProtocolError) : bool :=
  match a, b with
  | NO_ERROR, NO_ERROR => true
  | SESSION_RESUMED, SESSION_RESUMED => true
  | MESSAGE_TIMEOUT, MESSAGE_TIMEOUT => true
  | MISSING_REQUEST_TOKEN, MISSING_REQUEST_TOKEN => true
  | CHANNEL_ERROR x, CHANNEL_ERROR y => Pos.eqb x y
  | _, _ => false
  end.

(** [if (error)] on a [ProtocolError]: [NO_ERROR] is the zero of the enum. *)
Definition is_error (e : ProtocolError) : bool := negb (ProtocolError_eqb e NO_ERROR).

Module CoAPMessageType.
Inductive Enum :=
| DESCRIBE | FUNCTION_CALL | VARIABLE_REQUEST | SAVE_BEGIN | UPDATE_BEGIN
| CHUNK | UPDATE_DONE | EVENT | KEY_CHANGE | SIGNAL_START | SIGNAL_STOP
| HELLO | TIME | PING | ERROR | NONE.

Definition eqb (a b : Enum) : bool :=
  match a, b with
  | DESCRIBE, DESCRIBE | FUNCTION_CALL, FUNCTION_CALL
  | VARIABLE_REQUEST, VARIABLE_REQUEST | SAVE_BEGIN, SAVE_BEGIN
  | UPDATE_BEGIN, UPDATE_BEGIN | CHUNK, CHUNK | UPDATE_DONE, UPDATE_DONE
  | EVENT, EVENT | KEY_CHANGE, KEY_CHANGE | SIGNAL_START, SIGNAL_START
  | SIGNAL_STOP, SIGNAL_STOP | HELLO, HELLO | TIME, TIME | PING, PING
  | ERROR, ERROR | NONE, NONE => true
  | _, _ => false
  end.
End CoAPMessageType.

Module CoAPType.
Inductive Enum := CON | NON | ACK | RESET.

Definition eqb (a b : Enum) : bool :=
  match a, b with
  | CON, CON | NON, NON | ACK, ACK | RESET, RESET => true
  | _, _ => false
  end.

(** Modelled from the spec: [CoAPType::is_reply] is declared in coap.h, which
    is not among the sources; the spec gives it as true for ACK and RESET. *)
Definition is_reply (t : Enum) : bool :=
  match t with
  | ACK | RESET => true
  | CON | NON => false
  end.
End CoAPType.

Module Channel.
Inductive Command := SAVE_SESSION | LOAD_SESSION | MOVE_SESSION | DISCARD_SESSION.
End Channel.

Module SparkAppStateSelector.
Inductive Enum := DESCRIBE_APP | DESCRIBE_SYSTEM | SUBSCRIPTIONS | PROTOCOL_FLAGS.
End SparkAppStateSelector.

Module SparkAppStateUpdate.
Inductive Enum := COMPUTE | PERSIST | COMPUTE_AND_PERSIST.
End SparkAppStateUpdate.

(** The three errors [notify_message_complete] hands to the registry. *)
Inductive SystemError :=
| SYSTEM_ERROR_COAP
| SYSTEM_ERROR_COAP_4XX
| SYSTEM_ERROR_COAP_5XX.

(** ** Bytes, words and messages *)

Definition u8 (b : byte) : Z := Z.of_N (Byte.to_N b).

Definition to_uint32 (z : Z) : Z := z mod 2 ^ 32.

Definition to_uint8 (z : Z) : byte :=
  match Byte.of_N (Z.to_N (z mod 256)) with
  | Some b => b
  | None => x00
  end.

(** [Message]: the buffer the channel lent ([m_buf], whose size is the
    capacity), the number of bytes in use, the id and the confirm flag. *)
Record Message := {
  m_buf : list byte;
  m_length : nat;
  m_id : Z;
  m_confirm_received : bool
}.

Definition capacity (m : Message) : nat := List.length (m_buf m).

Definition set_length (m : Message) (n : nat) : Message :=
  {| m_buf := m_buf m; m_length := n; m_id := m_id m;
     m_confirm_received := m_confirm_received m |}.

Definition set_id (m : Message) (i : Z) : Message :=
  {| m_buf := m_buf m; m_length := m_length m; m_id := i;
     m_confirm_received := m_confirm_received m |}.

Definition set_buf (m : Message) (b : list byte) : Message :=
  {| m_buf := b; m_length := m_length m; m_id := m_id m;
     m_confirm_received := m_confirm_received m |}.

Definition set_confirm_received (m : Message) (c : bool) : Message :=
  {| m_buf := m_buf m; m_length := m_length m; m_id := m_id m;
     m_confirm_received := c |}.

(** ** AppStateDescriptor *)

Module AppStateDescriptor.
(** Modelled from the spec: the class is declared outside the sources.  The
    spec describes a record of four optional fields with a masked equality;
    a mask selects fields, and masks are joined with [|]. *)
Record t := {
  systemDescribeCrc : option Z;
  appDescribeCrc : option Z;
  subscriptionsCrc : option Z;
  protocolFlags : option Z
}.

Record Mask := {
  sel_system : bool;
  sel_app : bool;
  sel_subscriptions : bool;
  sel_flags : bool
}.

Definition SYSTEM_DESCRIBE_CRC : Mask := Build_Mask true false false false.
Definition APP_DESCRIBE_CRC : Mask := Build_Mask false true false false.
Definition SUBSCRIPTIONS_CRC : Mask := Build_Mask false false true false.
Definition PROTOCOL_FLAGS : Mask := Build_Mask false false false true.
Definition ALL : Mask := Build_Mask true true true true.

Definition mask_or (a b : Mask) : Mask :=
  Build_Mask (sel_system a || sel_system b) (sel_app a || sel_app b)
             (sel_subscriptions a || sel_subscriptions b)
             (sel_flags a || sel_flags b).

Definition empty : t := Build_t None None None None.

Definition field_eq (a b : option Z) : bool :=
  match a, b with
  | Some x, Some y => Z.eqb x y
  | _, _ => false
  end.

(** Modelled from the spec: true iff every field selected by the mask is
    present in both descriptors and equal. *)
Definition equalsTo (a b : t) (m : Mask) : bool :=
  (negb (sel_system m) || field_eq (systemDescribeCrc a) (systemDescribeCrc b))
  && (negb (sel_app m) || field_eq (appDescribeCrc a) (appDescribeCrc b))
  && (negb (sel_subscriptions m)
      || field_eq (subscriptionsCrc a) (subscriptionsCrc b))
  && (negb (sel_flags m) || field_eq (protocolFlags a) (protocolFlags b)).
End AppStateDescriptor.

(** ** What the engine does to the outside *)

(** One constructor per call out of the engine. *)
Inductive Event :=
| EvMillis
| EvPingerMessageReceived
| EvPingerReset
| EvPing (confirmable : bool)
| EvEventLoopIdle
| EvTimesyncReset
| EvTimesyncHandleTimeResponse (time now : Z) (set_time : positive)
| EvChunkedTransferReset
| EvChunkedTransferCancel
| EvAckHandlersClear
| EvAckHandlersUpdate (elapsed : Z)
| EvAckHandlersSetResult (msg_id : Z)
| EvAckHandlersSetError (msg_id : Z) (error : SystemError)
| EvEstablish
| EvNotifyEstablished
| EvCommand (c : Channel.Command)
| EvCachedAppStateDescriptor
| EvCreate
| EvResponse (original : Message) (required : nat)
| EvSend (m : Message)
| EvReceive
| EvAppStateSelectorInfo (selector : SparkAppStateSelector.Enum)
                         (operation : SparkAppStateUpdate.Enum) (value : Z)
| EvComputeSubscriptionsChecksum
| EvWasOtaUpgradeSuccessful
| EvOtaUpgradeStatusSent
| EvSignal (on : bool)
| EvHandleFunctionCall (token msg_id : Z) (m : Message)
| EvHandleVariableRequest (m : Message) (token msg_id : Z)
| EvHandleUpdateBegin (token : Z) (m : Message)
| EvHandleChunk (token : Z) (m : Message)
| EvHandleUpdateDone (token : Z) (m : Message)
| EvHandleEvent (m : Message).

Inductive LogLevel := LOG_TRACE | LOG_INFO | LOG_WARN | LOG_ERROR.

Inductive LogArg :=
| ArgInt (z : Z)
| ArgError (e : ProtocolError)
| ArgType (t : CoAPType.Enum)
| ArgMessageType (t : CoAPMessageType.Enum)
| ArgString (s : string).

Record LogEntry := {
  log_level : LogLevel;
  log_format : string;
  log_args : list LogArg
}.

(** The fields of [Protocol] that the embedded functions use, with the calls
    made so far and the lines logged so far. *)
Record Protocol := {
  last_message_millis : Z;
  last_ack_handlers_update : Z;
  next_token : Z;
  protocol_flags : Z;
  app_describe_msg_id : Z;
  system_describe_msg_id : Z;
  subscriptions_msg_id : Z;
  trace : list Event;
  log : list LogEntry
}.

(** The descriptor callbacks that enumerate what the device exposes.  The two
    appending callbacks may be null; what they append is given as bytes. *)
Record DescribeData := {
  append_metrics : option (list byte);
  num_functions : Z;
  get_function_key : Z -> list byte;
  num_variables : Z;
  get_variable_key : Z -> list byte;
  variable_type : list byte -> Z;
  append_system_info : option (list byte)
}.

(** The collaborators.  Each answer depends on the calls made before it.
    [ping] and [event_loop_idle] are members of [Protocol] that are defined in
    its header, which is not among the sources: they are calls here too.
    What such a call sends on the channel happens inside the call and is not
    in the trace, and what it does to the protocol state is not modelled. *)
Record World := {
  millis : list Event -> Z;
  set_time : positive;
  establish : list Event -> ProtocolError;
  command : list Event -> Channel.Command -> ProtocolError;
  cached_app_state_descriptor : list Event -> AppStateDescriptor.t;
  create : list Event -> ProtocolError * Message;
  response : list Event -> Message -> nat -> Message;
  send : list Event -> Message -> ProtocolError * Message;
  receive : list Event -> ProtocolError * Message;
  app_state_selector_info :
    option (list Event -> SparkAppStateSelector.Enum ->
            SparkAppStateUpdate.Enum -> Z -> Z);
  compute_subscriptions_checksum : list Event -> Z;
  was_ota_upgrade_successful : list Event -> bool;
  describe_data : DescribeData;
  ping : list Event -> bool -> ProtocolError;
  event_loop_idle : list Event -> ProtocolError;
  handle_function_call : list Event -> Z -> Z -> Message -> ProtocolError;
  handle_request : list Event -> Message -> Z -> Z -> ProtocolError;
  handle_update_begin : list Event -> Z -> Message -> ProtocolError;
  handle_chunk : list Event -> Z -> Message -> ProtocolError;
  handle_update_done : list Event -> Z -> Message -> ProtocolError;
  handle_event : list Event -> Message -> ProtocolError
}.

(** Constants of headers that are not among the sources.  Nothing below
    depends on their values. *)
Record Defs := {
  DESCRIBE_SYSTEM : Z;
  DESCRIBE_APPLICATION : Z;
  DESCRIBE_METRICS : Z;
  DESCRIBE_MAX : Z;
  REQUIRE_HELLO_RESPONSE : Z;
  DEVICE_INITIATED_DESCRIBE : Z;
  MAX_FUNCTION_KEY_LENGTH : nat;
  MAX_VARIABLE_KEY_LENGTH : nat;
  INTERNAL_SERVER_ERROR : Z;
  ChunkReceivedCode_OK : Z;
  INVALID_MESSAGE_HANDLE : Z
}.

(** The message codec ([CoAP::], [Messages::], [Message::get_type] and
    [build_hello]): pure functions over buffers, defined outside the sources.
    A builder returns the buffer it wrote and the length it reports. *)
Record Codec := {
  decodeType : list byte -> nat -> CoAPMessageType.Enum;
  CoAP_token : list byte -> nat * Z;
  CoAP_message_id : list byte -> Z;
  CoAP_code : list byte -> Z;
  CoAP_type : list byte -> CoAPType.Enum;
  get_type : Message -> CoAPType.Enum;
  empty_ack : list byte -> Z -> Z -> list byte * nat;
  coded_ack : list byte -> Z -> Z -> Z -> Z -> list byte * nat;
  describe_post_header : list byte -> nat -> Z -> Z -> Z -> list byte * nat;
  description_response : list byte -> Z -> Z -> list byte * nat;
  build_hello : Message -> Z -> Message * nat
}.

Module CoAPCode.
(** Modelled from the spec: [CoAPCode::is_success] is declared in coap.h,
    which is not among the sources; the spec gives success as class 2, the
    class being the top three bits of the code. *)
Definition is_success (code : Z) : bool := Z.shiftr code 5 =? 2.
End CoAPCode.

(** ** The monad of the engine: state, and three ways to stop *)

Inductive Stop :=
| OUT_OF_RANGE (index : nat)
| PANIC
| OUT_OF_FUEL.

Inductive Outcome (A : Type) :=
| Ret (a : A) (s : Protocol)
| Halt (why : Stop) (s : Protocol).
Arguments Ret {A} a s.
Arguments Halt {A} why s.

Definition M (A : Type) : Type := Protocol -> Outcome A.

Definition ret {A} (a : A) : M A := fun s => Ret a s.

Definition bind {A B} (m : M A) (k : A -> M B) : M B :=
  fun s => match m s with
           | Ret a s' => k a s'
           | Halt why s' => Halt why s'
           end.

Definition halt {A} (why : Stop) : M A := fun s => Halt why s.

Declare Scope engine_scope.
Delimit Scope engine_scope with engine.
Notation "x <- m ;; k" := (bind m (fun x => k))
  (at level 61, m at next level, right associativity) : engine_scope.
Notation "' pat <- m ;; k" := (bind m (fun x => match x with pat => k end))
  (at level 61, pat pattern, m at next level, right associativity) : engine_scope.
Notation "m ;; k" := (bind m (fun _ => k))
  (at level 61, right associativity) : engine_scope.
Local Open Scope engine_scope.

Definition final_state {A} (o : Outcome A) : Protocol :=
  match o with
  | Ret _ s => s
  | Halt _ s => s
  end.

Definition add_event (e : Event) (s : Protocol) : Protocol :=
  {| last_message_millis := last_message_millis s;
     last_ack_handlers_update := last_ack_handlers_update s;
     next_token := next_token s;
     protocol_flags := protocol_flags s;
     app_describe_msg_id := app_describe_msg_id s;
     system_describe_msg_id := system_describe_msg_id s;
     subscriptions_msg_id := subscriptions_msg_id s;
     trace := trace s ++ [e];
     log := log s |}.

Definition add_log (l : LogEntry) (s : Protocol) : Protocol :=
  {| last_message_millis := last_message_millis s;
     last_ack_handlers_update := last_ack_handlers_update s;
     next_token := next_token s;
     protocol_flags := protocol_flags s;
     app_describe_msg_id := app_describe_msg_id s;
     system_describe_msg_id := system_describe_msg_id s;
     subscriptions_msg_id := subscriptions_msg_id s;
     trace := trace s;
     log := log s ++ [l] |}.

(** A call: the answer is the collaborator's, at the calls made so far. *)
Definition call {A} (e : Event) (answer : list Event -> A) : M A :=
  fun s => Ret (answer (trace s)) (add_event e s).

Definition LOG (level : LogLevel) (format : string) (args : list LogArg) : M unit :=
  fun s => Ret tt (add_log (Build_LogEntry level format args) s).

Definition get {A} (field : Protocol -> A) : M A := fun s => Ret (field s) s.

Definition set_last_message_millis (v : Z) : M unit := fun s =>
  Ret tt {| last_message_millis := v;
            last_ack_handlers_update := last_ack_handlers_update s;
            next_token := next_token s;
            protocol_flags := protocol_flags s;
            app_describe_msg_id := app_describe_msg_id s;
            system_describe_msg_id := system_describe_msg_id s;
            subscriptions_msg_id := subscriptions_msg_id s;
            trace := trace s; log := log s |}.

Definition set_last_ack_handlers_update (v : Z) : M unit := fun s =>
  Ret tt {| last_message_millis := last_message_millis s;
            last_ack_handlers_update := v;
            next_token := next_token s;
            protocol_flags := protocol_flags s;
            app_describe_msg_id := app_describe_msg_id s;
            system_describe_msg_id := system_describe_msg_id s;
            subscriptions_msg_id := subscriptions_msg_id s;
            trace := trace s; log := log s |}.

Definition set_next_token (v : Z) : M unit := fun s =>
  Ret tt {| last_message_millis := last_message_millis s;
            last_ack_handlers_update := last_ack_handlers_update s;
            next_token := v;
            protocol_flags := protocol_flags s;
            app_describe_msg_id := app_describe_msg_id s;
            system_describe_msg_id := system_describe_msg_id s;
            subscriptions_msg_id := subscriptions_msg_id s;
            trace := trace s; log := log s |}.

Definition set_app_describe_msg_id (v : Z) : M unit := fun s =>
  Ret tt {| last_message_millis := last_message_millis s;
            last_ack_handlers_update := last_ack_handlers_update s;
            next_token := next_token s;
            protocol_flags := protocol_flags s;
            app_describe_msg_id := v;
            system_describe_msg_id := system_describe_msg_id s;
            subscriptions_msg_id := subscriptions_msg_id s;
            trace := trace s; log := log s |}.

Definition set_system_describe_msg_id (v : Z) : M unit := fun s =>
  Ret tt {| last_message_millis := last_message_millis s;
            last_ack_handlers_update := last_ack_handlers_update s;
            next_token := next_token s;
            protocol_flags := protocol_flags s;
            app_describe_msg_id := app_describe_msg_id s;
            system_describe_msg_id := v;
            subscriptions_msg_id := subscriptions_msg_id s;
            trace := trace s; log := log s |}.

Definition set_subscriptions_msg_id (v : Z) : M unit := fun s =>
  Ret tt {| last_message_millis := last_message_millis s;
            last_ack_handlers_update := last_ack_handlers_update s;
            next_token := next_token s;
            protocol_flags := protocol_flags s;
            app_describe_msg_id := app_describe_msg_id s;
            system_describe_msg_id := system_describe_msg_id s;
            subscriptions_msg_id := v;
            trace := trace s; log := log s |}.

Definition when (b : bool) (m : M unit) : M unit := if b then m else ret tt.

(** [buf[i]]: outside the buffer there is nothing to read. *)
Definition read (buf : list byte) (i : nat) : M byte :=
  match nth_error buf i with
  | Some b => ret b
  | None => halt (OUT_OF_RANGE i)
  end.

(** A bit test as C writes it: [flags & bit] used as a condition. *)
Definition has_flag (flags bit : Z) : bool := negb (Z.land flags bit =? 0).

(** ** The describe document *)

Module Appender.
(** Modelled from the spec: the appender classes are declared in appender.h,
    which is not among the sources.  The spec describes an appender over a
    bounded buffer that records whether writes overflowed: what fits is
    written, what does not is counted. *)
Record t := {
  data : list byte;
  room : nat;
  overflow : nat
}.

Definition make (size : nat) : t := Build_t [] size 0.

Definition append (a : t) (bytes : list byte) : t :=
  let free := (room a - List.length (data a))%nat in
  Build_t (data a ++ firstn free bytes) (room a)
          (overflow a + (List.length bytes - free))%nat.

Definition overflowed (a : t) : nat := overflow a.
End Appender.

Definition quote : byte := x22.

Section Engine.

Variable D : Defs.
Variable C : Codec.
Variable W : World.

(** Modelled from the spec: [DESCRIBE_DEFAULT] is SYSTEM|APPLICATION. *)
Definition DESCRIBE_DEFAULT : Z := Z.lor (DESCRIBE_SYSTEM D) (DESCRIBE_APPLICATION D).

(** The size of [token_t]; the spec has tokens of exactly 4 bytes. *)
Definition sizeof_token_t : nat := 4.

Definition append_function_key (a : Appender.t) (i : Z) : Appender.t :=
  let a := if i =? 0 then a else Appender.append a [","%byte] in
  let a := Appender.append a [quote] in
  let key := get_function_key (describe_data W) i in
  let function_name_length :=
    if (MAX_FUNCTION_KEY_LENGTH D <? List.length key)%nat
    then MAX_FUNCTION_KEY_LENGTH D else List.length key in
  let a := Appender.append a (firstn function_name_length key) in
  Appender.append a [quote].

Definition append_variable_key (a : Appender.t) (i : Z) : Appender.t :=
  let a := if i =? 0 then a else Appender.append a [","%byte] in
  let a := Appender.append a [quote] in
  let key := get_variable_key (describe_data W) i in
  let t := variable_type (describe_data W) key in
  let variable_name_length :=
    if (MAX_VARIABLE_KEY_LENGTH D <? List.length key)%nat
    then MAX_VARIABLE_KEY_LENGTH D else List.length key in
  let a := Appender.append a (firstn variable_name_length key) in
  let a := Appender.append a [quote; ":"%byte] in
  Appender.append a [to_uint8 (u8 "0"%byte + t)].

(** [for (i = 0; i < num_keys; ++i)] *)
Definition indices (num_keys : Z) : list Z :=
  map Z.of_nat (seq 0 (Z.to_nat num_keys)).

Definition build_describe_message (appender : Appender.t) (desc_flags : Z)
  : Appender.t :=
  match append_metrics (describe_data W), desc_flags =? DESCRIBE_METRICS D with
  | Some metrics, true =>
      let a := Appender.append appender [x00] in
      let a := Appender.append a [to_uint8 (DESCRIBE_METRICS D)] in
      let a := Appender.append a [x00] in
      Appender.append a metrics
  | _, _ =>
      let a := Appender.append appender ["{"%byte] in
      let '(a, has_content) :=
        if has_flag desc_flags (DESCRIBE_APPLICATION D)
        then
          let a := Appender.append a [quote; "f"%byte; quote; ":"%byte; "["%byte] in
          let a := fold_left append_function_key
                             (indices (num_functions (describe_data W))) a in
          let a := Appender.append a
                     ["]"%byte; ","%byte; quote; "v"%byte; quote; ":"%byte; "{"%byte] in
          let a := fold_left append_variable_key
                             (indices (num_variables (describe_data W))) a in
          (Appender.append a ["}"%byte], true)
        else (a, false) in
      let a :=
        match append_system_info (describe_data W) with
        | Some info =>
            if has_flag desc_flags (DESCRIBE_SYSTEM D)
            then
              let a := if has_content then Appender.append a [","%byte] else a in
              Appender.append a info
            else a
        | None => a
        end in
      Appender.append a ["}"%byte]
  end.

(** ** Calls *)

Definition callbacks_millis : M Z := call EvMillis (millis W).

Definition channel_command (c : Channel.Command) : M ProtocolError :=
  call (EvCommand c) (fun h => command W h c).

Definition channel_send (m : Message) : M (ProtocolError * Message) :=
  call (EvSend m) (fun h => send W h m).

Definition channel_create : M (ProtocolError * Message) := call EvCreate (create W).

Definition notify (e : Event) : M unit := call e (fun _ => tt).

(** [descriptor.app_state_selector_info(...)], once known not to be null. *)
Definition selector_info
    (f : list Event -> SparkAppStateSelector.Enum -> SparkAppStateUpdate.Enum -> Z -> Z)
    (selector : SparkAppStateSelector.Enum) (operation : SparkAppStateUpdate.Enum)
    (value : Z) : M Z :=
  call (EvAppStateSelectorInfo selector operation value)
       (fun h => f h selector operation value).

(** Modelled from the spec: [get_next_token] is defined in the header of
    [Protocol], which is not among the sources; the spec has [next_token] as a
    32-bit counter incremented per outbound tokened request. *)
Definition get_next_token : M Z :=
  t <- get next_token ;;
  set_next_token (to_uint32 (t + 1)) ;;
  ret t.

(** ** Acknowledgements and completion *)

Definition send_empty_ack (message : Message) (msg_id : Z) : M ProtocolError :=
  let '(buf, n) := empty_ack C (m_buf message) 0 0 in
  let message := set_length (set_buf message buf) n in
  let message := set_id message msg_id in
  '(error, _) <- channel_send message ;;
  ret error.

Definition notify_message_complete (msg_id : Z) (responseCode : Z) : M unit :=
  let codeClass := Z.shiftr responseCode 5 in
  let codeDetail := Z.land responseCode 31 in
  LOG LOG_INFO "message id %d complete with code %d.%02d"
      [ArgInt msg_id; ArgInt codeClass; ArgInt codeDetail] ;;
  if CoAPCode.is_success responseCode
  then notify (EvAckHandlersSetResult msg_id)
  else
    let error :=
      if codeClass =? 4 then SYSTEM_ERROR_COAP_4XX
      else if codeClass =? 5 then SYSTEM_ERROR_COAP_5XX
      else SYSTEM_ERROR_COAP in
    notify (EvAckHandlersSetError msg_id error).

Definition handle_key_change (message : Message) : M ProtocolError :=
  let buf := m_buf message in
  result <-
    (if CoAPType.eqb (CoAP_type C buf) CoAPType.CON
     then
       response <- call (EvResponse message 5) (fun h => response W h message 5%nat) ;;
       let '(rbuf, sz) := empty_ack C (m_buf response) 0 0 in
       let response := set_length (set_buf response rbuf) sz in
       '(error, _) <- channel_send response ;;
       ret error
     else ret NO_ERROR) ;;
  if (7 <? m_length message)%nat
  then
    b0 <- read buf 0 ;;
    let option_idx := (7 + Z.land (u8 b0) 15) mod 256 in
    b <- read buf (Z.to_nat option_idx) ;;
    if u8 b =? 1
    then channel_command Channel.DISCARD_SESSION
    else ret result
  else ret result.

Definition handle_time_response (time : Z) : M unit :=
  now <- callbacks_millis ;;
  notify (EvTimesyncHandleTimeResponse time now (set_time W)).

(** ** Application state *)

Definition update_subscription_crc : M unit :=
  match app_state_selector_info W with
  | Some f =>
      crc <- call EvComputeSubscriptionsChecksum (compute_subscriptions_checksum W) ;;
      channel_command Channel.SAVE_SESSION ;;
      selector_info f SparkAppStateSelector.SUBSCRIPTIONS
                    SparkAppStateUpdate.PERSIST crc ;;
      channel_command Channel.LOAD_SESSION ;;
      ret tt
  | None => ret tt
  end.

Definition update_protocol_flags : M unit :=
  match app_state_selector_info W with
  | Some f =>
      channel_command Channel.SAVE_SESSION ;;
      flags <- get protocol_flags ;;
      selector_info f SparkAppStateSelector.PROTOCOL_FLAGS
                    SparkAppStateUpdate.PERSIST flags ;;
      channel_command Channel.LOAD_SESSION ;;
      ret tt
  | None => ret tt
  end.

(** The builder calls are taken in the order they are written. *)
Definition app_state_descriptor : M AppStateDescriptor.t :=
  match app_state_selector_info W with
  | None => ret AppStateDescriptor.empty
  | Some f =>
      sys <- selector_info f SparkAppStateSelector.DESCRIBE_SYSTEM
                           SparkAppStateUpdate.COMPUTE 0 ;;
      app <- selector_info f SparkAppStateSelector.DESCRIBE_APP
                           SparkAppStateUpdate.COMPUTE 0 ;;
      subs <- call EvComputeSubscriptionsChecksum (compute_subscriptions_checksum W) ;;
      flags <- get protocol_flags ;;
      ret (AppStateDescriptor.Build_t (Some sys) (Some app) (Some subs) (Some flags))
  end.

(** ** Describe posting *)

(** The buffer after the appender wrote [bytes] from [header_size] on. *)
Definition write_at (buf : list byte) (header_size : nat) (bytes : list byte)
  : list byte :=
  firstn header_size buf ++ bytes ++ skipn (header_size + List.length bytes) buf.

Definition describe_letters (desc_flags : Z) : list LogArg :=
  [ArgString (if has_flag desc_flags (DESCRIBE_SYSTEM D) then "S" else "");
   ArgString (if has_flag desc_flags (DESCRIBE_APPLICATION D) then "A" else "");
   ArgString (if has_flag desc_flags (DESCRIBE_METRICS D) then "M" else "")].

(** The appender starts at [message.buf() + header_size]: a header that is
    larger than the buffer leaves nothing to write to. *)
Definition generate_and_send_description (message : Message) (header_size : nat)
    (desc_flags : Z) : M ProtocolError :=
  if (capacity message <? header_size)%nat
  then halt (OUT_OF_RANGE header_size)
  else
    let appender :=
      build_describe_message (Appender.make (capacity message - header_size))
                             desc_flags in
    let msglen := (header_size + List.length (Appender.data appender))%nat in
    let message :=
      set_length (set_buf message
                    (write_at (m_buf message) header_size (Appender.data appender)))
                 msglen in
    (if (0 <? Appender.overflowed appender)%nat
     then
       LOG LOG_ERROR "Describe message overflowed by %d bytes"
           [ArgInt (Z.of_nat (Appender.overflowed appender))] ;;
       halt PANIC
     else ret tt) ;;
    LOG LOG_INFO "Posting '%s%s%s' describe message" (describe_letters desc_flags) ;;
    '(error, message) <- channel_send message ;;
    (if ProtocolError_eqb error NO_ERROR
     then
       let msg_id := m_id message in
       when (has_flag desc_flags (DESCRIBE_APPLICATION D))
            (set_app_describe_msg_id msg_id) ;;
       when (has_flag desc_flags (DESCRIBE_SYSTEM D))
            (set_system_describe_msg_id msg_id)
     else
       LOG LOG_ERROR "Channel failed to send message with error-code <%d>"
           [ArgError error]) ;;
    ret error.

Definition post_description (desc_flags : Z) (force : bool) : M ProtocolError :=
  desc_flags <-
    (if negb force
     then
       currentState <- app_state_descriptor ;;
       cachedState <- call EvCachedAppStateDescriptor (cached_app_state_descriptor W) ;;
       desc_flags <-
         (if has_flag desc_flags (DESCRIBE_SYSTEM D)
             && AppStateDescriptor.equalsTo currentState cachedState
                  AppStateDescriptor.SYSTEM_DESCRIBE_CRC
          then
            LOG LOG_INFO "Not sending system DESCRIBE" [] ;;
            ret (Z.land desc_flags (Z.lnot (DESCRIBE_SYSTEM D)))
          else ret desc_flags) ;;
       (if has_flag desc_flags (DESCRIBE_APPLICATION D)
           && AppStateDescriptor.equalsTo currentState cachedState
                AppStateDescriptor.APP_DESCRIBE_CRC
        then
          LOG LOG_INFO "Not sending application DESCRIBE" [] ;;
          ret (Z.land desc_flags (Z.lnot (DESCRIBE_APPLICATION D)))
        else ret desc_flags)
     else ret desc_flags) ;;
  if desc_flags =? 0
  then ret NO_ERROR
  else
    '(error, message) <- channel_create ;;
    if negb (ProtocolError_eqb error NO_ERROR)
    then ret error
    else
      token <- get_next_token ;;
      let '(buf, header_size) :=
        describe_post_header C (m_buf message) (capacity message) 0 token desc_flags in
      generate_and_send_description (set_buf message buf) header_size desc_flags.

Definition send_description_response (token msg_id desc_flags : Z) : M ProtocolError :=
  '(error, msg) <- channel_create ;;
  if negb (ProtocolError_eqb error NO_ERROR)
  then ret error
  else
    error <- send_empty_ack msg msg_id ;;
    if negb (ProtocolError_eqb error NO_ERROR)
    then ret error
    else
      '(error, msg) <- channel_create ;;
      if negb (ProtocolError_eqb error NO_ERROR)
      then ret error
      else
        let '(buf, size) := description_response C (m_buf msg) 0 token in
        generate_and_send_description (set_buf msg buf) size desc_flags.

(** ** Dispatch *)

(** The checksum update of one describe flavour, on a reply with its id. *)
Definition persist_describe_crc (type : CoAPType.Enum)
    (selector : SparkAppStateSelector.Enum) : M unit :=
  match app_state_selector_info W with
  | Some f =>
      if CoAPType.eqb type CoAPType.ACK
      then
        channel_command Channel.SAVE_SESSION ;;
        selector_info f selector SparkAppStateUpdate.COMPUTE_AND_PERSIST 0 ;;
        channel_command Channel.LOAD_SESSION ;;
        ret tt
      else ret tt
  | None => ret tt
  end.

Definition signal_reply (message : Message) (token : Z) (on : bool)
  : M ProtocolError :=
  let queue := m_buf message in
  q2 <- read queue 2 ;;
  q3 <- read queue 3 ;;
  let '(buf, n) :=
    coded_ack C (m_buf message) token (ChunkReceivedCode_OK D) (u8 q2) (u8 q3) in
  let message := set_length (set_buf message buf) n in
  notify (EvSignal on) ;;
  '(error, _) <- channel_send message ;;
  ret error.

(** Lines 85 to 109, "Update application state checksums": a reply with the
    id of a pending describe or subscription request clears that id and, when
    it is an ACK, persists the checksum. *)
Definition update_checksums (type : CoAPType.Enum) (msg_id : Z) : M unit :=
  app_id <- get app_describe_msg_id ;;
  when (msg_id =? app_id)
       (set_app_describe_msg_id (INVALID_MESSAGE_HANDLE D) ;;
        persist_describe_crc type SparkAppStateSelector.DESCRIBE_APP) ;;
  system_id <- get system_describe_msg_id ;;
  when (msg_id =? system_id)
       (set_system_describe_msg_id (INVALID_MESSAGE_HANDLE D) ;;
        persist_describe_crc type SparkAppStateSelector.DESCRIBE_SYSTEM) ;;
  subscriptions_id <- get subscriptions_msg_id ;;
  when (msg_id =? subscriptions_id)
       (set_subscriptions_msg_id (INVALID_MESSAGE_HANDLE D) ;;
        when (CoAPType.eqb type CoAPType.ACK) update_subscription_crc).

(** Lines 77 to 109: what a reply (ACK or RESET) does to the completion
    registry and to the pending ids. *)
Definition handle_reply (type : CoAPType.Enum) (code msg_id : Z) : M unit :=
  LOG LOG_TRACE "Reply recieved: type=%d, code=%d" [ArgType type; ArgInt code] ;;
  code <-
    (if CoAPType.eqb type CoAPType.RESET
     then
       LOG LOG_TRACE
           "Reset received, setting error code to internal server error." [] ;;
       ret (INTERNAL_SERVER_ERROR D)
     else ret code) ;;
  notify_message_complete msg_id code ;;
  update_checksums type msg_id.

(** Lines 112 to 202: the [switch] on the message type. *)
Definition dispatch (message : Message) (message_type : CoAPMessageType.Enum)
    (token : Z) (token_len : nat) (msg_id : Z) : M ProtocolError :=
  let queue := m_buf message in
  match message_type with
  | CoAPMessageType.DESCRIBE =>
      descriptor_type <-
        (if (8 <? m_length message)%nat
         then
           q8 <- read queue 8 ;;
           if u8 q8 <=? DESCRIBE_MAX D
           then ret (u8 q8)
           else
             LOG LOG_WARN "Invalid DESCRIBE flags %02x" [ArgInt (u8 q8)] ;;
             ret DESCRIBE_DEFAULT
         else ret DESCRIBE_DEFAULT) ;;
      send_description_response token msg_id descriptor_type
  | CoAPMessageType.FUNCTION_CALL =>
      if (token_len =? 0)%nat
      then
        LOG LOG_ERROR "Missing request token" [] ;;
        ret MISSING_REQUEST_TOKEN
      else
        call (EvHandleFunctionCall token msg_id message)
             (fun h => handle_function_call W h token msg_id message)
  | CoAPMessageType.VARIABLE_REQUEST =>
      if (token_len =? 0)%nat
      then
        LOG LOG_ERROR "Missing request token" [] ;;
        ret MISSING_REQUEST_TOKEN
      else
        call (EvHandleVariableRequest message token msg_id)
             (fun h => handle_request W h message token msg_id)
  | CoAPMessageType.SAVE_BEGIN
  | CoAPMessageType.UPDATE_BEGIN =>
      call (EvHandleUpdateBegin token message)
           (fun h => handle_update_begin W h token message)
  | CoAPMessageType.CHUNK =>
      call (EvHandleChunk token message) (fun h => handle_chunk W h token message)
  | CoAPMessageType.UPDATE_DONE =>
      call (EvHandleUpdateDone token message)
           (fun h => handle_update_done W h token message)
  | CoAPMessageType.EVENT =>
      call (EvHandleEvent message) (fun h => handle_event W h message)
  | CoAPMessageType.KEY_CHANGE => handle_key_change message
  | CoAPMessageType.SIGNAL_START => signal_reply message token true
  | CoAPMessageType.SIGNAL_STOP => signal_reply message token false
  | CoAPMessageType.HELLO =>
      (if CoAPType.eqb (get_type C message) CoAPType.CON
       then send_empty_ack message msg_id ;; ret tt
       else ret tt) ;;
      notify EvOtaUpgradeStatusSent ;;
      ret NO_ERROR
  | CoAPMessageType.TIME =>
      q6 <- read queue 6 ;;
      q7 <- read queue 7 ;;
      q8 <- read queue 8 ;;
      q9 <- read queue 9 ;;
      handle_time_response
        (to_uint32 (Z.lor (Z.lor (Z.lor (Z.shiftl (u8 q6) 24) (Z.shiftl (u8 q7) 16))
                                 (Z.shiftl (u8 q8) 8))
                          (u8 q9))) ;;
      ret NO_ERROR
  | CoAPMessageType.PING =>
      q2 <- read queue 2 ;;
      q3 <- read queue 3 ;;
      let '(buf, n) := empty_ack C (m_buf message) (u8 q2) (u8 q3) in
      '(error, _) <- channel_send (set_length (set_buf message buf) n) ;;
      ret error
  | CoAPMessageType.ERROR
  | CoAPMessageType.NONE => ret NO_ERROR
  end.

Definition handle_received_message (message : Message)
  : M (CoAPMessageType.Enum * ProtocolError) :=
  now <- callbacks_millis ;;
  set_last_message_millis now ;;
  notify EvPingerMessageReceived ;;
  let queue := m_buf message in
  let message_type := decodeType C queue (m_length message) in
  let '(decoded_len, token) := CoAP_token C queue in
  token_len <-
    (if (0 <? decoded_len)%nat && negb (decoded_len =? sizeof_token_t)%nat
     then
       LOG LOG_ERROR "Unsupported token length: %u" [ArgInt (Z.of_nat decoded_len)] ;;
       ret 0%nat
     else ret decoded_len) ;;
  let msg_id := CoAP_message_id C queue in
  let code := CoAP_code C queue in
  let type := CoAP_type C queue in
  (if CoAPType.is_reply type then handle_reply type code msg_id else ret tt) ;;
  error <- dispatch message message_type token token_len msg_id ;;
  ret (message_type, error).

(** ** The event loop *)

Definition event_loop : M (CoAPMessageType.Enum * ProtocolError) :=
  t <- callbacks_millis ;;
  last <- get last_ack_handlers_update ;;
  notify (EvAckHandlersUpdate (to_uint32 (t - last))) ;;
  set_last_ack_handlers_update t ;;
  '(error, message) <- call EvReceive (receive W) ;;
  '(message_type, error) <-
    (if negb (is_error error)
     then
       if negb (m_length message =? 0)%nat
       then
         '(message_type, error) <- handle_received_message message ;;
         LOG LOG_INFO "rcv'd message type=%d" [ArgMessageType message_type] ;;
         ret (message_type, error)
       else
         error <- call EvEventLoopIdle (event_loop_idle W) ;;
         ret (CoAPMessageType.NONE, error)
     else ret (CoAPMessageType.NONE, error)) ;;
  if is_error error
  then
    notify EvChunkedTransferCancel ;;
    LOG LOG_ERROR "Event loop error %d" [ArgError error] ;;
    ret (message_type, error)
  else ret (message_type, error).

(** The body of the [do ... while] of [event_loop(message_type, timeout)];
    [fuel] bounds the number of rounds. *)
Fixpoint event_loop_rounds (fuel : nat) (message_type : CoAPMessageType.Enum)
    (timeout start : Z) : M ProtocolError :=
  match fuel with
  | O => halt OUT_OF_FUEL
  | S fuel =>
      '(msgtype, error) <- event_loop ;;
      if is_error error
      then
        LOG LOG_ERROR "message type=%d, error=%d"
            [ArgMessageType msgtype; ArgError error] ;;
        ret error
      else if CoAPMessageType.eqb msgtype message_type
      then ret NO_ERROR
      else
        now <- callbacks_millis ;;
        if to_uint32 (now - start) <? timeout
        then event_loop_rounds fuel message_type timeout start
        else ret MESSAGE_TIMEOUT
  end.

Definition event_loop_wait (fuel : nat) (message_type : CoAPMessageType.Enum)
    (timeout : Z) : M ProtocolError :=
  start <- callbacks_millis ;;
  LOG LOG_INFO "waiting %d seconds for message type=%d"
      [ArgInt (timeout / 1000); ArgMessageType message_type] ;;
  event_loop_rounds fuel message_type timeout start.

(** ** The handshake *)

Definition HELLO_FLAG_OTA_UPGRADE_SUCCESSFUL : Z := 0x01.
Definition HELLO_FLAG_DIAGNOSTICS_SUPPORT : Z := 0x02.
Definition HELLO_FLAG_IMMEDIATE_UPDATES_SUPPORT : Z := 0x04.
Definition HELLO_FLAG_DEVICE_INITIATED_DESCRIBE : Z := 0x20.

Definition hello (ota_upgrade_successful : bool) : M ProtocolError :=
  '(_, message) <- channel_create ;;
  let hello_flags :=
    Z.lor HELLO_FLAG_DIAGNOSTICS_SUPPORT HELLO_FLAG_IMMEDIATE_UPDATES_SUPPORT in
  let hello_flags :=
    if ota_upgrade_successful
    then Z.lor hello_flags HELLO_FLAG_OTA_UPGRADE_SUCCESSFUL else hello_flags in
  flags <- get protocol_flags ;;
  let hello_flags :=
    if has_flag flags (DEVICE_INITIATED_DESCRIBE D)
    then Z.lor hello_flags HELLO_FLAG_DEVICE_INITIATED_DESCRIBE else hello_flags in
  let '(message, len) := build_hello C message hello_flags in
  let message := set_confirm_received (set_length message len) true in
  now <- callbacks_millis ;;
  set_last_message_millis now ;;
  '(error, _) <- channel_send message ;;
  ret error.

Definition hello_response (fuel : nat) : M ProtocolError :=
  error <- event_loop_wait fuel CoAPMessageType.HELLO 4000 ;;
  when (is_error error)
       (LOG LOG_ERROR "Handshake: could not receive HELLO response %d"
            [ArgError error]) ;;
  ret error.

Definition begin (fuel : nat) : M ProtocolError :=
  LOG LOG_INFO "Establish secure connection" [] ;;
  notify EvChunkedTransferReset ;;
  notify EvPingerReset ;;
  notify EvTimesyncReset ;;
  notify EvAckHandlersClear ;;
  t <- callbacks_millis ;;
  set_last_ack_handlers_update t ;;
  set_app_describe_msg_id (INVALID_MESSAGE_HANDLE D) ;;
  set_system_describe_msg_id (INVALID_MESSAGE_HANDLE D) ;;
  set_subscriptions_msg_id (INVALID_MESSAGE_HANDLE D) ;;
  error <- call EvEstablish (establish W) ;;
  let session_resumed := ProtocolError_eqb error SESSION_RESUMED in
  if is_error error && negb session_resumed
  then
    LOG LOG_ERROR "handshake failed with code %d" [ArgError error] ;;
    ret error
  else
    skipped <-
      (if session_resumed
       then
         channel_command Channel.MOVE_SESSION ;;
         currentState <- app_state_descriptor ;;
         cachedState <-
           call EvCachedAppStateDescriptor (cached_app_state_descriptor W) ;;
         flags <- get protocol_flags ;;
         let stateFlags :=
           if has_flag flags (DEVICE_INITIATED_DESCRIBE D)
           then AppStateDescriptor.mask_or AppStateDescriptor.SYSTEM_DESCRIBE_CRC
                                           AppStateDescriptor.PROTOCOL_FLAGS
           else AppStateDescriptor.ALL in
         if AppStateDescriptor.equalsTo cachedState currentState stateFlags
         then
           LOG LOG_INFO "Skipping HELLO message" [] ;;
           r <- call (EvPing true) (fun h => ping W h true) ;;
           ret (Some (if negb (ProtocolError_eqb r NO_ERROR) then r else error))
         else ret None
       else ret None) ;;
    match skipped with
    | Some error => ret error
    | None =>
        LOG LOG_INFO "Sending HELLO message" [] ;;
        ota <- call EvWasOtaUpgradeSuccessful (was_ota_upgrade_successful W) ;;
        error <- hello ota ;;
        if is_error error
        then
          LOG LOG_ERROR "Could not send HELLO message: %d" [ArgError error] ;;
          ret error
        else
          flags <- get protocol_flags ;;
          error <-
            (if has_flag flags (REQUIRE_HELLO_RESPONSE D)
             then
               LOG LOG_INFO "Receiving HELLO response" [] ;;
               hello_response fuel
             else ret error) ;;
          if is_error error
          then ret error
          else
            LOG LOG_INFO "Handshake completed" [] ;;
            notify EvNotifyEstablished ;;
            update_protocol_flags ;;
            flags <- get protocol_flags ;;
            if has_flag flags (DEVICE_INITIATED_DESCRIBE D)
            then post_description (DESCRIBE_SYSTEM D) true
            else ret error
    end.

End Engine.

(** ** Observations on runs *)

(** The result of a run that returned. *)
Definition result_of {A} (o : Outcome A) : option A :=
  match o with
  | Ret a _ => Some a
  | Halt _ _ => None
  end.

(** The calls made between two states of one run. *)
Definition new_events (s s' : Protocol) : list Event :=
  skipn (List.length (trace s)) (trace s').

Definition is_send (e : Event) : bool :=
  match e with EvSend _ => true | _ => false end.

Definition is_create (e : Event) : bool :=
  match e with EvCreate => true | _ => false end.

Definition is_ping (e : Event) : bool :=
  match e with EvPing _ => true | _ => false end.

Definition is_command (c : Channel.Command) (e : Event) : bool :=
  match e, c with
  | EvCommand Channel.SAVE_SESSION, Channel.SAVE_SESSION
  | EvCommand Channel.LOAD_SESSION, Channel.LOAD_SESSION
  | EvCommand Channel.MOVE_SESSION, Channel.MOVE_SESSION
  | EvCommand Channel.DISCARD_SESSION, Channel.DISCARD_SESSION => true
  | _, _ => false
  end.

(** A call into the function handler or the variable handler. *)
Definition is_handler_call (e : Event) : bool :=
  match e with
  | EvHandleFunctionCall _ _ _ | EvHandleVariableRequest _ _ _ => true
  | _ => false
  end.

(** A completion fired on the ack-handler registry. *)
Definition is_completion (e : Event) : bool :=
  match e with
  | EvAckHandlersSetResult _ | EvAckHandlersSetError _ _ => true
  | _ => false
  end.

Definition count (p : Event -> bool) (l : list Event) : nat :=
  List.length (filter p l).

(** [s'] continues [s]: calls [evs] were added, all satisfying [P], and
    lines were added to the log. *)
Definition continues (P : Event -> Prop) (s s' : Protocol) (evs : list Event)
  : Prop :=
  trace s' = trace s ++ evs /\ Forall P evs
  /\ exists lines, log s' = log s ++ lines.

(** Every run of [m] only adds calls that satisfy [P]; it may stop. *)
Definition emits {A} (P : Event -> Prop) (m : M A) : Prop :=
  forall s, exists evs, continues P s (final_state (m s)) evs.

(** Every run of [m] returns, and only adds calls that satisfy [P]. *)
Definition returns {A} (P : Event -> Prop) (m : M A) : Prop :=
  forall s, exists a s' evs, m s = Ret a s' /\ continues P s s' evs.

(** The state of [handle_received_message] once the message is decoded
    (line 75): the time is noted, the pinger is told, and [lines] are logged. *)
Definition after_receipt (W : World) (s : Protocol) (lines : list LogEntry)
  : Protocol :=
  {| last_message_millis := millis W (trace s);
     last_ack_handlers_update := last_ack_handlers_update s;
     next_token := next_token s;
     protocol_flags := protocol_flags s;
     app_describe_msg_id := app_describe_msg_id s;
     system_describe_msg_id := system_describe_msg_id s;
     subscriptions_msg_id := subscriptions_msg_id s;
     trace := trace s ++ [EvMillis; EvPingerMessageReceived];
     log := log s ++ lines |}.

(** The codec that reports every token as absent, and is [C] otherwise. *)
Definition absent_token (C : Codec) : Codec :=
  {| decodeType := decodeType C;
     CoAP_token := fun buf => (0%nat, snd (CoAP_token C buf));
     CoAP_message_id := CoAP_message_id C;
     CoAP_code := CoAP_code C;
     CoAP_type := CoAP_type C;
     get_type := get_type C;
     empty_ack := empty_ack C;
     coded_ack := coded_ack C;
     describe_post_header := describe_post_header C;
     description_response := description_response C;
     build_hello := build_hello C |}.

(** The line [handle_received_message] logs for a token length it rejects. *)
Definition unsupported_token_length (n : nat) : LogEntry :=
  Build_LogEntry LOG_ERROR "Unsupported token length: %u" [ArgInt (Z.of_nat n)].

(** Lines 634 and 635 (and 364, 365): the current descriptor, then the cached. *)
Definition read_app_states (W : World)
  : M (AppStateDescriptor.t * AppStateDescriptor.t) :=
  currentState <- app_state_descriptor W ;;
  cachedState <- call EvCachedAppStateDescriptor (cached_app_state_descriptor W) ;;
  ret (currentState, cachedState).

(** The mask [begin] compares the descriptors under (lines 366 to 370). *)
Definition resume_mask (D : Defs) (flags : Z) : AppStateDescriptor.Mask :=
  if has_flag flags (DEVICE_INITIATED_DESCRIBE D)
  then AppStateDescriptor.mask_or AppStateDescriptor.SYSTEM_DESCRIBE_CRC
                                  AppStateDescriptor.PROTOCOL_FLAGS
  else AppStateDescriptor.ALL.

(** The calls [begin] makes up to and including [channel.establish()]. *)
Definition establish_calls : list Event :=
  [EvChunkedTransferReset; EvPingerReset; EvTimesyncReset; EvAckHandlersClear;
   EvMillis; EvEstablish].

(** The state of [begin] on a resumed session, once MOVE_SESSION is commanded
    (line 362). *)
Definition resume_point (D : Defs) (W : World) (s : Protocol) : Protocol :=
  {| last_message_millis := last_message_millis s;
     last_ack_handlers_update :=
       millis W (trace s ++ [EvChunkedTransferReset; EvPingerReset; EvTimesyncReset;
                             EvAckHandlersClear]);
     next_token := next_token s;
     protocol_flags := protocol_flags s;
     app_describe_msg_id := INVALID_MESSAGE_HANDLE D;
     system_describe_msg_id := INVALID_MESSAGE_HANDLE D;
     subscriptions_msg_id := INVALID_MESSAGE_HANDLE D;
     trace := trace s ++ establish_calls ++ [EvCommand Channel.MOVE_SESSION];
     log := log s ++ [Build_LogEntry LOG_INFO "Establish secure connection" []] |}.

(** A 32-bit big-endian integer. *)
Definition big_endian_32 (b0 b1 b2 b3 : byte) : Z :=
  u8 b0 * 2 ^ 24 + u8 b1 * 2 ^ 16 + u8 b2 * 2 ^ 8 + u8 b3.

(** The index [handle_key_change] reads its parameter option at. *)
Definition key_change_option_index (b0 : byte) : nat :=
  Z.to_nat (7 + Z.land (u8 b0) 15).

(** The line [notify_message_complete] logs. *)
Definition completion_logged (msg_id code : Z) : LogEntry :=
  Build_LogEntry LOG_INFO "message id %d complete with code %d.%02d"
    [ArgInt msg_id; ArgInt (Z.shiftr code 5); ArgInt (Z.land code 31)].

(** The calls that persist the system describe checksum, in order. *)
Definition envelope_system : list Event :=
  [EvCommand Channel.SAVE_SESSION;
   EvAppStateSelectorInfo SparkAppStateSelector.DESCRIBE_SYSTEM
                          SparkAppStateUpdate.COMPUTE_AND_PERSIST 0;
   EvCommand Channel.LOAD_SESSION].

(** Every run of [m] leaves [system_describe_msg_id] as it was. *)
Definition keeps_system_id {A} (m : M A) : Prop :=
  forall s, system_describe_msg_id (final_state (m s)) = system_describe_msg_id s.

(** The acknowledgement [handle_key_change] sends for [message]. *)
Definition key_change_ack (C : Codec) (W : World) (h : list Event)
    (message : Message) : Message :=
  let response := response W h message 5%nat in
  let '(rbuf, sz) := empty_ack C (m_buf response) 0 0 in
  set_length (set_buf response rbuf) sz.

(** The calls of lines 229 to 236. *)
Definition key_change_ack_calls (C : Codec) (W : World) (h : list Event)
    (message : Message) : list Event :=
  if CoAPType.eqb (CoAP_type C (m_buf message)) CoAPType.CON
  then [EvResponse message 5; EvSend (key_change_ack C W h message)]
  else [].

(** The flags [post_description] is left with when not forced (lines 636 to
    645), given the two descriptors. *)
Definition remaining_flags (D : Defs) (currentState cachedState : AppStateDescriptor.t)
    (desc_flags : Z) : Z :=
  let desc_flags :=
    if has_flag desc_flags (DESCRIBE_SYSTEM D)
       && AppStateDescriptor.equalsTo currentState cachedState
            AppStateDescriptor.SYSTEM_DESCRIBE_CRC
    then Z.land desc_flags (Z.lnot (DESCRIBE_SYSTEM D)) else desc_flags in
  if has_flag desc_flags (DESCRIBE_APPLICATION D)
     && AppStateDescriptor.equalsTo currentState cachedState
          AppStateDescriptor.APP_DESCRIBE_CRC
  then Z.land desc_flags (Z.lnot (DESCRIBE_APPLICATION D)) else desc_flags.

(** ** Concrete collaborators *)

Module Sample.

(** Values for the constants the sources do not give. *)
Definition defs : Defs :=
  {| DESCRIBE_SYSTEM := 1;
     DESCRIBE_APPLICATION := 2;
     DESCRIBE_METRICS := 4;
     DESCRIBE_MAX := 7;
     REQUIRE_HELLO_RESPONSE := 1;
     DEVICE_INITIATED_DESCRIBE := 2;
     MAX_FUNCTION_KEY_LENGTH := 12;
     MAX_VARIABLE_KEY_LENGTH := 12;
     INTERNAL_SERVER_ERROR := 160;
     ChunkReceivedCode_OK := 68;
     INVALID_MESSAGE_HANDLE := -1 |}.

Definition byte_at (buf : list byte) (i : nat) : Z := u8 (nth i buf x00).

(** Modelled from the spec: the wire header is byte 0 =
    (version<<6)|(type<<4)|tokenLen, byte 1 = code, bytes 2-3 = the message
    id, big-endian, then the token; an empty ACK is the four bytes
    0x60, 0x00, id-high, id-low.  The classification of messages and the
    other builders are not described: [codec] takes the classification as
    [message_type] and lets the other builders leave the buffer as it is. *)
Definition wire_type (buf : list byte) : CoAPType.Enum :=
  match Z.land (Z.shiftr (byte_at buf 0) 4) 3 with
  | 0 => CoAPType.CON
  | 1 => CoAPType.NON
  | 2 => CoAPType.ACK
  | _ => CoAPType.RESET
  end.

Definition wire_token (buf : list byte) : nat * Z :=
  (Z.to_nat (Z.land (byte_at buf 0) 15),
   Z.lor (Z.lor (Z.lor (Z.shiftl (byte_at buf 4) 24) (Z.shiftl (byte_at buf 5) 16))
                (Z.shiftl (byte_at buf 6) 8))
         (byte_at buf 7)).

Definition wire_empty_ack (buf : list byte) (hi lo : Z) : list byte * nat :=
  ([x60; x00; to_uint8 hi; to_uint8 lo] ++ skipn 4 buf, 4%nat).

Definition codec (message_type : CoAPMessageType.Enum) : Codec :=
  {| decodeType := fun _ _ => message_type;
     CoAP_token := wire_token;
     CoAP_message_id := fun buf => Z.lor (Z.shiftl (byte_at buf 2) 8) (byte_at buf 3);
     CoAP_code := fun buf => byte_at buf 1;
     CoAP_type := wire_type;
     get_type := fun m => wire_type (m_buf m);
     empty_ack := wire_empty_ack;
     coded_ack := fun buf _ _ _ _ => (buf, 0%nat);
     describe_post_header := fun buf _ _ _ _ => (buf, 0%nat);
     description_response := fun buf _ _ => (buf, 0%nat);
     build_hello := fun m _ => (m, 0%nat) |}.

Definition blank (size : nat) : Message :=
  {| m_buf := repeat x00 size; m_length := 0; m_id := 0;
     m_confirm_received := false |}.

Definition received (bytes : list byte) (len : nat) : Message :=
  {| m_buf := bytes; m_length := len; m_id := 0; m_confirm_received := false |}.

Definition nothing_to_describe : DescribeData :=
  {| append_metrics := None;
     num_functions := 0;
     get_function_key := fun _ => [];
     num_variables := 0;
     get_variable_key := fun _ => [];
     variable_type := fun _ => 0;
     append_system_info := None |}.

(** A world in which every call succeeds, but for what the arguments say:
    what [establish] and [ping] answer, whether the descriptor has an
    [app_state_selector_info] (every checksum is then 7), and the descriptor
    the channel has cached, given the calls made so far.  The channel numbers
    the messages it sends with the number of calls made. *)
Definition world (established pinged : ProtocolError) (with_selector : bool)
    (cached : list Event -> AppStateDescriptor.t) : World :=
  {| millis := fun h => Z.of_nat (List.length h);
     set_time := 1%positive;
     establish := fun _ => established;
     command := fun _ _ => NO_ERROR;
     cached_app_state_descriptor := cached;
     create := fun _ => (NO_ERROR, blank 64);
     response := fun _ _ _ => blank 16;
     send := fun h m => (NO_ERROR, set_id m (Z.of_nat (List.length h)));
     receive := fun _ => (NO_ERROR, blank 64);
     app_state_selector_info :=
       if with_selector then Some (fun _ _ _ _ => 7) else None;
     compute_subscriptions_checksum := fun _ => 7;
     was_ota_upgrade_successful := fun _ => false;
     describe_data := nothing_to_describe;
     ping := fun _ _ => pinged;
     event_loop_idle := fun _ => NO_ERROR;
     handle_function_call := fun _ _ _ _ => NO_ERROR;
     handle_request := fun _ _ _ _ => NO_ERROR;
     handle_update_begin := fun _ _ _ => NO_ERROR;
     handle_chunk := fun _ _ _ => NO_ERROR;
     handle_update_done := fun _ _ _ => NO_ERROR;
     handle_event := fun _ _ => NO_ERROR |}.

(** The descriptor of a device whose checksums are 7 and whose protocol
    flags are 0. *)
Definition sevens : AppStateDescriptor.t :=
  AppStateDescriptor.Build_t (Some 7) (Some 7) (Some 7) (Some 0).

(** A channel that has cached [sevens] once a message was sent. *)
Definition cached_after_send (h : list Event) : AppStateDescriptor.t :=
  if existsb is_send h then sevens else AppStateDescriptor.empty.

Definition calm : World := world NO_ERROR NO_ERROR true (fun _ => sevens).

Definition fresh : Protocol :=
  {| last_message_millis := 0;
     last_ack_handlers_update := 0;
     next_token := 0;
     protocol_flags := 0;
     app_describe_msg_id := -1;
     system_describe_msg_id := -1;
     subscriptions_msg_id := -1;
     trace := [];
     log := [] |}.

(** [fresh], with a system describe pending under message id [i]. *)
Definition awaiting_system_describe (i : Z) : Protocol :=
  {| last_message_millis := 0;
     last_ack_handlers_update := 0;
     next_token := 0;
     protocol_flags := 0;
     app_describe_msg_id := -1;
     system_describe_msg_id := i;
     subscriptions_msg_id := -1;
     trace := [];
     log := [] |}.

(** Worlds. *)
Definition resumed : World := world SESSION_RESUMED NO_ERROR true (fun _ => sevens).

Definition resumed_ping_fails : World :=
  world SESSION_RESUMED (CHANNEL_ERROR 1) true (fun _ => sevens).

Definition without_selector : World :=
  world NO_ERROR NO_ERROR false (fun _ => sevens).

Definition caching : World := world NO_ERROR NO_ERROR true cached_after_send.

(** Messages.  Byte 0 is (version<<6)|(type<<4)|tokenLen, with version 1. *)

(** CON, no token. *)
Definition function_call_without_token : Message :=
  received [x40; x02; x12; x34; xb1; x66] 6.

(** CON, a token length of 2. *)
Definition ping_with_short_token : Message :=
  received [x42; x00; x12; x34; xaa; xbb] 6.

(** ACK, code 2.05, the epoch 0x5E000000 in bytes 6 to 9. *)
Definition time_reply : Message :=
  received [x60; x45; x12; x34; xff; x00; x5e; x00; x00; x00] 10.

(** ACK, code 2.04, id 0x1234. *)
Definition changed_ack : Message := received [x60; x44; x12; x34] 4.

(** ACK, code 0.00, id 0x1234 = 4660. *)
Definition empty_ack_4660 : Message := received [x60; x00; x12; x34] 4.

(** CON, a token of 4 bytes, 8 bytes long, in a buffer of 8 bytes. *)
Definition short_key_change : Message :=
  received [x44; x03; x12; x34; xaa; xbb; xcc; xdd] 8.

(** The same 8 bytes in a buffer of 12 bytes whose last byte is 1. *)
Definition stale_key_change : Message :=
  received [x44; x03; x12; x34; xaa; xbb; xcc; xdd; x00; x00; x00; x01] 8.

(** [fresh] on a resumed session, once the two descriptors are read. *)
Definition resumed_states : Protocol :=
  final_state (read_app_states resumed
                 (resume_point defs resumed fresh)).

(** A first, unforced post of the system describe. *)
Definition first_post : Outcome ProtocolError :=
  post_description defs (codec CoAPMessageType.NONE) caching
    1 false fresh.

End Sample.

(** ** More of the engine *)

(** [copy_and_init] (lines 274 to 279), on the bytes of the two structures:
    [memcpy] of [source_size] bytes from the source, then [memset] of the rest
    of the target to zero.  A source that is larger than the target, or a
    size that is larger than its structure, takes the copy out of the
    structures: there is no result then. *)
Definition copy_and_init (target : list byte) (target_size : nat)
    (source : list byte) (source_size : nat) : option (list byte) :=
  if ((source_size <=? target_size) && (target_size <=? List.length target)
      && (source_size <=? List.length source))%nat
  then Some (firstn source_size source
             ++ repeat x00 (target_size - source_size)
             ++ skipn target_size target)
  else None.

(** Modelled from the spec: [BufferAppender2::dataSize] is declared in
    appender.h, which is not among the sources; the spec has a size-only
    appender that computes the size of the document without storing it. *)
Definition dataSize (a : Appender.t) : nat :=
  (List.length (Appender.data a) + Appender.overflow a)%nat.

(** [get_describe_data] (lines 708 to 715): [maximum_size] and [current_size]. *)
Definition get_describe_data (D : Defs) (W : World) (flags : Z) : nat * nat :=
  (768%nat, dataSize (build_describe_message D W (Appender.make 0) flags)).

(** *** The describe document as a list of bytes *)

Definition function_key_bytes (D : Defs) (W : World) (i : Z) : list byte :=
  let key := get_function_key (describe_data W) i in
  (if i =? 0 then [] else [","%byte])
  ++ [quote] ++ firstn (Nat.min (MAX_FUNCTION_KEY_LENGTH D) (List.length key)) key
  ++ [quote].

Definition variable_key_bytes (D : Defs) (W : World) (i : Z) : list byte :=
  let key := get_variable_key (describe_data W) i in
  (if i =? 0 then [] else [","%byte])
  ++ [quote] ++ firstn (Nat.min (MAX_VARIABLE_KEY_LENGTH D) (List.length key)) key
  ++ [quote; ":"%byte; to_uint8 (u8 "0"%byte + variable_type (describe_data W) key)].

Definition application_bytes (D : Defs) (W : World) : list byte :=
  [quote; "f"%byte; quote; ":"%byte; "["%byte]
  ++ List.concat (map (function_key_bytes D W) (indices (num_functions (describe_data W))))
  ++ ["]"%byte; ","%byte; quote; "v"%byte; quote; ":"%byte; "{"%byte]
  ++ List.concat (map (variable_key_bytes D W) (indices (num_variables (describe_data W))))
  ++ ["}"%byte].

(** Whether the document is the binary one (line 516). *)
Definition is_metrics_document (D : Defs) (W : World) (desc_flags : Z) : bool :=
  match append_metrics (describe_data W) with
  | Some _ => desc_flags =? DESCRIBE_METRICS D
  | None => false
  end.

Definition describe_document (D : Defs) (W : World) (desc_flags : Z) : list byte :=
  match append_metrics (describe_data W), desc_flags =? DESCRIBE_METRICS D with
  | Some metrics, true => [x00; to_uint8 (DESCRIBE_METRICS D); x00] ++ metrics
  | _, _ =>
      ["{"%byte]
      ++ (if has_flag desc_flags (DESCRIBE_APPLICATION D)
          then application_bytes D W else [])
      ++ match append_system_info (describe_data W) with
         | Some info =>
             if has_flag desc_flags (DESCRIBE_SYSTEM D)
             then (if has_flag desc_flags (DESCRIBE_APPLICATION D)
                   then [","%byte] else []) ++ info
             else []
         | None => []
         end
      ++ ["}"%byte]
  end.

(** *** Kinds of calls *)

Definition is_cancel (e : Event) : bool :=
  match e with EvChunkedTransferCancel => true | _ => false end.

Definition is_receive (e : Event) : bool :=
  match e with EvReceive => true | _ => false end.

(** A selector operation that writes the session. *)
Definition persists (operation : SparkAppStateUpdate.Enum) : bool :=
  match operation with
  | SparkAppStateUpdate.COMPUTE => false
  | SparkAppStateUpdate.PERSIST | SparkAppStateUpdate.COMPUTE_AND_PERSIST => true
  end.

(** SAVE_SESSION, LOAD_SESSION, or a selector call that persists. *)
Definition is_session_write (e : Event) : bool :=
  match e with
  | EvCommand Channel.SAVE_SESSION | EvCommand Channel.LOAD_SESSION => true
  | EvAppStateSelectorInfo _ operation _ => persists operation
  | _ => false
  end.

(** The calls of the reply phase of [handle_received_message]. *)
Definition from_reply (e : Event) : bool :=
  match e with
  | EvAckHandlersSetResult _ | EvAckHandlersSetError _ _
  | EvCommand Channel.SAVE_SESSION | EvCommand Channel.LOAD_SESSION
  | EvAppStateSelectorInfo _ _ _ | EvComputeSubscriptionsChecksum => true
  | _ => false
  end.

(** The calls of the [switch] of [handle_received_message]. *)
Definition from_dispatch (e : Event) : bool :=
  match e with
  | EvCreate | EvSend _ | EvResponse _ _ | EvCommand Channel.DISCARD_SESSION
  | EvSignal _ | EvOtaUpgradeStatusSent | EvMillis
  | EvTimesyncHandleTimeResponse _ _ _
  | EvHandleFunctionCall _ _ _ | EvHandleVariableRequest _ _ _
  | EvHandleUpdateBegin _ _ | EvHandleChunk _ _ | EvHandleUpdateDone _ _
  | EvHandleEvent _ => true
  | _ => false
  end.

Definition from_receipt (e : Event) : bool :=
  match e with
  | EvPingerMessageReceived => true
  | _ => from_reply e || from_dispatch e
  end.

(** Every write of the session is a SAVE_SESSION, one selector call that
    persists, and a LOAD_SESSION, in a row. *)
Inductive Enveloped : list Event -> Prop :=
| Enveloped_nil : Enveloped []
| Enveloped_call e l :
    is_session_write e = false -> Enveloped l -> Enveloped (e :: l)
| Enveloped_write selector operation value l :
    persists operation = true -> Enveloped l ->
    Enveloped (EvCommand Channel.SAVE_SESSION
               :: EvAppStateSelectorInfo selector operation value
               :: EvCommand Channel.LOAD_SESSION :: l).

(** Every run of [m] adds calls that are in [L]; it may stop. *)
Definition produces {A} (L : list Event -> Prop) (m : M A) : Prop :=
  forall s, exists evs, trace (final_state (m s)) = trace s ++ evs /\ L evs.

(** Every run of [m] leaves [field] as it was. *)
Definition keeps {A F} (field : Protocol -> F) (m : M A) : Prop :=
  forall s, field (final_state (m s)) = field s.

(** The three pending ids. *)
Definition pending_ids (s : Protocol) : Z * Z * Z :=
  (app_describe_msg_id s, system_describe_msg_id s, subscriptions_msg_id s).

(** What a reply with id [msg_id] leaves of a pending id (lines 86 to 106). *)
Definition after_reply (D : Defs) (msg_id pending : Z) : Z :=
  if msg_id =? pending then INVALID_MESSAGE_HANDLE D else pending.

(** Every selector call that persists stands between a SAVE_SESSION, just
    before it, and a LOAD_SESSION, just after it. *)
Definition Bracketed (l : list Event) : Prop :=
  forall pre selector operation value post,
    l = pre ++ EvAppStateSelectorInfo selector operation value :: post ->
    persists operation = true ->
    exists pre' post',
      pre = pre' ++ [EvCommand Channel.SAVE_SESSION]
      /\ post = EvCommand Channel.LOAD_SESSION :: post'.

(** The state of [begin] on a new session when it calls [hello] (line 386). *)
Definition hello_point (D : Defs) (W : World) (s : Protocol) : Protocol :=
  {| last_message_millis := last_message_millis s;
     last_ack_handlers_update :=
       millis W (trace s ++ [EvChunkedTransferReset; EvPingerReset; EvTimesyncReset;
                             EvAckHandlersClear]);
     next_token := next_token s;
     protocol_flags := protocol_flags s;
     app_describe_msg_id := INVALID_MESSAGE_HANDLE D;
     system_describe_msg_id := INVALID_MESSAGE_HANDLE D;
     subscriptions_msg_id := INVALID_MESSAGE_HANDLE D;
     trace := trace s ++ establish_calls ++ [EvWasOtaUpgradeSuccessful];
     log := log s ++ [Build_LogEntry LOG_INFO "Establish secure connection" [];
                      Build_LogEntry LOG_INFO "Sending HELLO message" []] |}.

(** The calls of [update_protocol_flags] (lines 312 to 320). *)
Definition protocol_flags_calls (W : World) (flags : Z) : list Event :=
  match app_state_selector_info W with
  | Some _ =>
      [EvCommand Channel.SAVE_SESSION;
       EvAppStateSelectorInfo SparkAppStateSelector.PROTOCOL_FLAGS
                              SparkAppStateUpdate.PERSIST flags;
       EvCommand Channel.LOAD_SESSION]
  | None => []
  end.

(** ** More concrete collaborators *)

Module Scenario.

(** [W] with another channel: what [send] and [receive] answer. *)
Definition channel_of (W : World)
    (sends : list Event -> Message -> ProtocolError * Message)
    (receives : list Event -> ProtocolError * Message) : World :=
  {| millis := millis W;
     set_time := set_time W;
     establish := establish W;
     command := command W;
     cached_app_state_descriptor := cached_app_state_descriptor W;
     create := create W;
     response := response W;
     send := sends;
     receive := receives;
     app_state_selector_info := app_state_selector_info W;
     compute_subscriptions_checksum := compute_subscriptions_checksum W;
     was_ota_upgrade_successful := was_ota_upgrade_successful W;
     describe_data := describe_data W;
     ping := ping W;
     event_loop_idle := event_loop_idle W;
     handle_function_call := handle_function_call W;
     handle_request := handle_request W;
     handle_update_begin := handle_update_begin W;
     handle_chunk := handle_chunk W;
     handle_update_done := handle_update_done W;
     handle_event := handle_event W |}.

(** A channel that cannot send. *)
Definition mute : World :=
  channel_of Sample.calm (fun _ m => (CHANNEL_ERROR 1, m)) (receive Sample.calm).

(** A channel that cannot receive. *)
Definition deaf : World :=
  channel_of Sample.calm (send Sample.calm)
             (fun _ => (CHANNEL_ERROR 2, Sample.blank 0)).

(** A channel that cannot be established. *)
Definition unreachable : World :=
  Sample.world (CHANNEL_ERROR 3) NO_ERROR true (fun _ => Sample.sevens).

(** A resumed session for which the channel has cached no descriptor. *)
Definition changed : World :=
  Sample.world SESSION_RESUMED NO_ERROR true (fun _ => AppStateDescriptor.empty).

(** [Sample.fresh] with pending ids and protocol flags. *)
Definition pending (app system subscriptions flags : Z) : Protocol :=
  {| last_message_millis := 0;
     last_ack_handlers_update := 0;
     next_token := 0;
     protocol_flags := flags;
     app_describe_msg_id := app;
     system_describe_msg_id := system;
     subscriptions_msg_id := subscriptions;
     trace := [];
     log := [] |}.

End Scenario.

(** The codec that reports every token as one of four bytes, and is [C]
    otherwise. *)
Definition supported_token (C : Codec) : Codec :=
  {| decodeType := decodeType C;
     CoAP_token := fun buf => (sizeof_token_t, snd (CoAP_token C buf));
     CoAP_message_id := CoAP_message_id C;
     CoAP_code := CoAP_code C;
     CoAP_type := CoAP_type C;
     get_type := get_type C;
     empty_ack := empty_ack C;
     coded_ack := coded_ack C;
     describe_post_header := describe_post_header C;
     description_response := description_response C;
     build_hello := build_hello C |}.

(** A call of [descriptor.app_state_selector_info]. *)
Definition is_selector_call (e : Event) : bool :=
  match e with EvAppStateSelectorInfo _ _ _ => true | _ => false end.

(** The calls that persist the system describe checksum, when the descriptor
    has the callback (line 97). *)
Definition system_envelope (W : World) : list Event :=
  match app_state_selector_info W with
  | Some _ => envelope_system
  | None => []
  end.

(** * Runs: how calls accumulate *)

Lemma bind_ret {A B} (m : M A) (k : A -> M B) (s s' : Protocol) (a : A) :
  m s = Ret a s' -> bind m k s = k a s'.
Proof.
  intros E. unfold bind. rewrite E. reflexivity.
Qed.

Lemma bind_bind {X Y Z'} (m : M X) (f : X -> M Y) (g : Y -> M Z') (s : Protocol) :
  bind (bind m f) g s = bind m (fun x => bind (f x) g) s.
Proof.
  unfold bind. destruct (m s); reflexivity.
Qed.

Lemma bind_pair {X Y} (m : M X) (n : X -> M Y) (s s1 : Protocol) (x : X) (y : Y) :
  (a <- m ;; b <- n a ;; ret (a, b)) s = Ret (x, y) s1 ->
  exists s', m s = Ret x s' /\ n x s' = Ret y s1.
Proof.
  unfold bind, ret. destruct (m s) as [a s' | why s']; [| discriminate].
  destruct (n a s') as [b s'' | why s''] eqn:E'; [| discriminate].
  intros E. injection E as -> -> ->. exists s'. auto.
Qed.

(** A step of a run that computes. *)
Ltac peel := erewrite bind_ret by reflexivity.

(** A step that returns and makes no call. *)
Ltac quiet :=
  let s := fresh "s" in
  intros s; eexists; eexists; exists []; split; [reflexivity |];
  split; [simpl; rewrite app_nil_r; reflexivity |];
  split; [constructor |];
  first [ exists []; simpl; rewrite app_nil_r; reflexivity
        | eexists; reflexivity ].

(** A step of a run, with the state written out. *)
Ltac walk := peel; unfold add_event, add_log; simpl.

Lemma new_events_spec (s s' : Protocol) (evs : list Event) :
  trace s' = trace s ++ evs -> new_events s s' = evs.
Proof.
  intros E. unfold new_events. rewrite E. clear E.
  induction (trace s) as [| e l IH]; simpl; auto.
Qed.

Lemma count_app (p : Event -> bool) (l1 l2 : list Event) :
  count p (l1 ++ l2) = (count p l1 + count p l2)%nat.
Proof.
  unfold count. rewrite filter_app, length_app. reflexivity.
Qed.

Lemma count_none (p : Event -> bool) (l : list Event) :
  Forall (fun e => p e = false) l -> count p l = 0%nat.
Proof.
  unfold count. induction 1 as [| e l He _ IH]; simpl; auto.
  rewrite He. exact IH.
Qed.

Lemma continues_refl (P : Event -> Prop) (s : Protocol) : continues P s s [].
Proof.
  split; [| split]; [rewrite app_nil_r; reflexivity | constructor |].
  exists []. rewrite app_nil_r. reflexivity.
Qed.

Lemma continues_trans (P : Event -> Prop) (s1 s2 s3 : Protocol)
    (evs1 evs2 : list Event) :
  continues P s1 s2 evs1 -> continues P s2 s3 evs2 ->
  continues P s1 s3 (evs1 ++ evs2).
Proof.
  intros (T1 & F1 & l1 & L1) (T2 & F2 & l2 & L2).
  split; [| split].
  - rewrite T2, T1, app_assoc. reflexivity.
  - apply Forall_app; auto.
  - exists (l1 ++ l2). rewrite L2, L1, app_assoc. reflexivity.
Qed.

Lemma continues_weaken (P Q : Event -> Prop) (s s' : Protocol) (evs : list Event) :
  (forall e, P e -> Q e) -> continues P s s' evs -> continues Q s s' evs.
Proof.
  intros PQ (T & F & L). split; [| split]; auto.
  eapply Forall_impl; eauto.
Qed.

Section Accumulate.

Variable P : Event -> Prop.

Lemma returns_emits {A} (m : M A) : returns P m -> emits P m.
Proof.
  intros H s. destruct (H s) as (a & s' & evs & E & K).
  exists evs. rewrite E. exact K.
Qed.

Lemma returns_ret {A} (a : A) : returns P (ret a).
Proof.
  intros s. exists a, s, []. split; [reflexivity | apply continues_refl].
Qed.

Lemma returns_bind {A B} (m : M A) (k : A -> M B) :
  returns P m -> (forall a, returns P (k a)) -> returns P (bind m k).
Proof.
  intros Hm Hk s.
  destruct (Hm s) as (a & s1 & evs1 & E1 & K1).
  destruct (Hk a s1) as (b & s2 & evs2 & E2 & K2).
  exists b, s2, (evs1 ++ evs2). unfold bind. rewrite E1, E2.
  split; [reflexivity | eapply continues_trans; eauto].
Qed.

Lemma emits_bind {A B} (m : M A) (k : A -> M B) :
  emits P m -> (forall a, emits P (k a)) -> emits P (bind m k).
Proof.
  intros Hm Hk s. unfold bind.
  destruct (Hm s) as (evs1 & K1).
  destruct (m s) as [a s1 | why s1]; simpl in *.
  - destruct (Hk a s1) as (evs2 & K2).
    exists (evs1 ++ evs2). eapply continues_trans; eauto.
  - exists evs1; auto.
Qed.

Lemma returns_call {A} (e : Event) (answer : list Event -> A) :
  P e -> returns P (call e answer).
Proof.
  intros He s. exists (answer (trace s)), (add_event e s), [e].
  split; [reflexivity |]. split; [reflexivity |]. split; [auto |].
  exists []. simpl. rewrite app_nil_r. reflexivity.
Qed.

Lemma returns_LOG (level : LogLevel) (format : string) (args : list LogArg) :
  returns P (LOG level format args).
Proof. quiet. Qed.

Lemma returns_get {A} (field : Protocol -> A) : returns P (get field).
Proof. quiet. Qed.

Lemma emits_halt {A} (why : Stop) : emits P (@halt A why).
Proof.
  intros s. exists []. apply continues_refl.
Qed.

Lemma emits_read (buf : list byte) (i : nat) : emits P (read buf i).
Proof.
  unfold read. destruct (nth_error buf i).
  - apply returns_emits, returns_ret.
  - apply emits_halt.
Qed.

End Accumulate.

Ltac returns_step :=
  match goal with
  | |- returns _ (bind _ _) => apply returns_bind; [| intros]
  | |- returns _ (ret _) => apply returns_ret
  | |- returns _ (call _ _) => apply returns_call; first [exact I | reflexivity]
  | |- returns _ (notify _) => apply returns_call; first [exact I | reflexivity]
  | |- returns _ (LOG _ _ _) => apply returns_LOG
  | |- returns _ (get _) => apply returns_get
  | |- returns _ (when ?b _) => unfold when
  | |- returns _ (if ?b then _ else _) => destruct b
  | |- returns _ (match ?x with _ => _ end) => destruct x
  | |- returns _ _ => solve [quiet]
  end.

Ltac emits_step :=
  match goal with
  | |- emits _ (bind _ _) => apply emits_bind; [| intros]
  | |- emits _ (halt _) => apply emits_halt
  | |- emits _ (read _ _) => apply emits_read
  | |- emits _ (when ?b _) => unfold when
  | |- emits _ (if ?b then _ else _) => destruct b
  | |- emits _ (match ?x with _ => _ end) => destruct x
  | |- emits _ _ => apply returns_emits; returns_step
  end.

Lemma keeps_bind {A B} (m : M A) (k : A -> M B) :
  keeps_system_id m -> (forall a, keeps_system_id (k a)) ->
  keeps_system_id (bind m k).
Proof.
  intros Hm Hk s. unfold bind. specialize (Hm s).
  destruct (m s) as [a s1 | why s1]; simpl in *.
  - rewrite Hk. exact Hm.
  - exact Hm.
Qed.

Ltac keeps_step :=
  match goal with
  | |- keeps_system_id (bind _ _) => apply keeps_bind; [| intros]
  | |- keeps_system_id (read _ _) => unfold read
  | |- keeps_system_id (if ?b then _ else _) => destruct b
  | |- keeps_system_id (match ?x with _ => _ end) => destruct x
  | |- keeps_system_id _ => solve [intros ?; reflexivity]
  end.

Section Engine_runs.

Variable D : Defs.
Variable C : Codec.
Variable W : World.

(** The reply phase never stops, and calls neither handler. *)
Lemma handle_reply_returns (P : Event -> Prop) type code msg_id :
  (forall e, is_handler_call e = false -> P e) ->
  returns P (handle_reply D W type code msg_id).
Proof.
  intros HP.
  unfold handle_reply, update_checksums, notify_message_complete,
    persist_describe_crc, update_subscription_crc, channel_command,
    selector_info, notify.
  repeat first [ returns_step | apply returns_call; apply HP; reflexivity ].
Qed.

(** The checksum update makes no completion. *)
Lemma update_checksums_returns type msg_id :
  returns (fun e => is_completion e = false) (update_checksums D W type msg_id).
Proof.
  unfold update_checksums, persist_describe_crc, update_subscription_crc,
    channel_command, selector_info.
  repeat returns_step.
Qed.

Lemma app_state_descriptor_returns :
  returns (fun e => is_completion e = false) (app_state_descriptor W).
Proof.
  unfold app_state_descriptor, selector_info. repeat returns_step.
Qed.

Lemma generate_and_send_description_emits message header_size desc_flags :
  emits (fun e => is_completion e = false) (generate_and_send_description D W message header_size desc_flags).
Proof.
  unfold generate_and_send_description, channel_send. repeat emits_step.
Qed.

Lemma post_description_emits desc_flags force :
  emits (fun e => is_completion e = false) (post_description D C W desc_flags force).
Proof.
  unfold post_description, channel_create.
  repeat first [ apply generate_and_send_description_emits
               | apply returns_emits, app_state_descriptor_returns
               | emits_step ].
Qed.

Lemma send_description_response_emits token msg_id desc_flags :
  emits (fun e => is_completion e = false) (send_description_response D C W token msg_id desc_flags).
Proof.
  unfold send_description_response, send_empty_ack, channel_create, channel_send.
  repeat first [ apply generate_and_send_description_emits | emits_step ].
Qed.

Lemma dispatch_emits message message_type token token_len msg_id :
  emits (fun e => is_completion e = false) (dispatch D C W message message_type token token_len msg_id).
Proof.
  unfold dispatch, handle_key_change, signal_reply, handle_time_response,
    send_empty_ack, channel_send, channel_command, callbacks_millis, notify.
  repeat first [ apply send_description_response_emits | emits_step ].
Qed.

(** [handle_received_message], from the decoded header on. *)
Lemma handle_received_message_phases (message : Message) (s : Protocol) :
  let queue := m_buf message in
  let len := fst (CoAP_token C queue) in
  let rejected := ((0 <? len)%nat && negb (len =? sizeof_token_t)%nat)%bool in
  handle_received_message D C W message s
  = ((if CoAPType.is_reply (CoAP_type C queue)
      then handle_reply D W (CoAP_type C queue) (CoAP_code C queue)
                        (CoAP_message_id C queue)
      else ret tt) ;;
     error <- dispatch D C W message (decodeType C queue (m_length message))
                       (snd (CoAP_token C queue))
                       (if rejected then 0%nat else len)
                       (CoAP_message_id C queue) ;;
     ret (decodeType C queue (m_length message), error))
      (after_receipt W s (if rejected then [unsupported_token_length len] else [])).
Proof.
  intros queue len rejected. unfold handle_received_message.
  subst rejected len queue.
  destruct (CoAP_token C (m_buf message)) as [len tok]. simpl fst. simpl snd.
  do 3 peel.
  destruct ((0 <? len)%nat && negb (len =? sizeof_token_t)%nat)%bool.
  - peel. unfold after_receipt, unsupported_token_length, add_log, add_event.
    simpl. rewrite <- app_assoc. reflexivity.
  - peel. unfold after_receipt, add_event. simpl.
    rewrite <- app_assoc, app_nil_r. reflexivity.
Qed.

End Engine_runs.

(** * Dispatch *)

Section Dispatch_properties.

Variable D : Defs.
Variable C : Codec.
Variable W : World.

Lemma validated_length (len : nat) :
  len <> sizeof_token_t ->
  (if ((0 <? len)%nat && negb (len =? sizeof_token_t)%nat)%bool then 0%nat else len)
  = 0%nat.
Proof.
  intros H. destruct (Nat.eqb_spec len sizeof_token_t) as [E | _]; [easy |].
  destruct len; reflexivity.
Qed.

Lemma after_receipt_continues (s : Protocol) (lines : list LogEntry) :
  continues (fun e => is_handler_call e = false /\ is_completion e = false)
            s (after_receipt W s lines) [EvMillis; EvPingerMessageReceived].
Proof.
  split; [reflexivity |]. split; [repeat constructor |].
  exists lines. reflexivity.
Qed.

(** C5: a received FUNCTION_CALL or VARIABLE_REQUEST whose decoded token
    length is not 4 (it is 0, or it is rejected and taken as 0) makes
    [handle_received_message] return MISSING_REQUEST_TOKEN, and neither the
    function handler nor the variable handler is called. *)
Theorem missing_request_token (message : Message) (s : Protocol) :
  let message_type := decodeType C (m_buf message) (m_length message) in
  message_type = CoAPMessageType.FUNCTION_CALL
  \/ message_type = CoAPMessageType.VARIABLE_REQUEST ->
  fst (CoAP_token C (m_buf message)) <> sizeof_token_t ->
  exists s',
    handle_received_message D C W message s
    = Ret (message_type, MISSING_REQUEST_TOKEN) s'
    /\ Forall (fun e => is_handler_call e = false) (new_events s s').
Proof.
  intros mt Hmt Hlen. rewrite handle_received_message_phases.
  rewrite (validated_length _ Hlen). fold mt.
  set (s1 := after_receipt W s _).
  assert (K1 : continues (fun e => is_handler_call e = false) s s1
                 [EvMillis; EvPingerMessageReceived]).
  { eapply continues_weaken; [| apply after_receipt_continues]. tauto. }
  clearbody s1.
  assert (Hreply : exists s3 evs,
    (if CoAPType.is_reply (CoAP_type C (m_buf message))
      then
       handle_reply D W (CoAP_type C (m_buf message))
         (CoAP_code C (m_buf message)) (CoAP_message_id C (m_buf message))
      else ret tt) s1 = Ret tt s3
      /\ continues (fun e => is_handler_call e = false) s1 s3 evs).
  { destruct (CoAPType.is_reply _).
    - destruct (handle_reply_returns D W (fun e => is_handler_call e = false)
                  (CoAP_type C (m_buf message)) (CoAP_code C (m_buf message))
                  (CoAP_message_id C (m_buf message)) (fun e H => H) s1)
        as ([] & s3 & evs & E & K).
      exists s3, evs. auto.
    - exists s1, []. split; [reflexivity | apply continues_refl]. }
  destruct Hreply as (s3 & evs & E3 & K3).
  rewrite (bind_ret _ _ _ _ _ E3).
  assert (Hd : exists s4,
             dispatch D C W message mt (snd (CoAP_token C (m_buf message))) 0
                      (CoAP_message_id C (m_buf message)) s3
             = Ret MISSING_REQUEST_TOKEN s4 /\ trace s4 = trace s3).
  { destruct Hmt as [-> | ->]; simpl; eexists; split; reflexivity. }
  destruct Hd as (s4 & E4 & T4).
  rewrite (bind_ret _ _ _ _ _ E4).
  exists s4. split; [reflexivity |].
  destruct (continues_trans _ _ _ _ _ _ K1 K3) as (T & F & _).
  rewrite (new_events_spec s s4 _ (eq_trans T4 T)). exact F.
Qed.



Lemma reply_and_dispatch_emits (message : Message) (token_len : nat) :
  let queue := m_buf message in
  emits (fun _ => True)
    ((if CoAPType.is_reply (CoAP_type C queue)
      then handle_reply D W (CoAP_type C queue) (CoAP_code C queue)
                        (CoAP_message_id C queue)
      else ret tt) ;;
     error <- dispatch D C W message (decodeType C queue (m_length message))
                       (snd (CoAP_token C queue)) token_len
                       (CoAP_message_id C queue) ;;
     ret (decodeType C queue (m_length message), error)).
Proof.
  intros queue. apply emits_bind.
  - destruct (CoAPType.is_reply _).
    + apply returns_emits, handle_reply_returns. auto.
    + apply returns_emits, returns_ret.
  - intros _. apply emits_bind.
    + intros s0.
      destruct (dispatch_emits D C W message (decodeType C queue (m_length message))
                  (snd (CoAP_token C queue)) token_len (CoAP_message_id C queue) s0)
        as (evs & K).
      exists evs. eapply continues_weaken; [| exact K]. auto.
    + intros e. apply returns_emits, returns_ret.
Qed.

Lemma handle_received_message_emits (message : Message) :
  emits (fun _ => True) (handle_received_message D C W message).
Proof.
  intros s. rewrite handle_received_message_phases.
  destruct (reply_and_dispatch_emits message
    (if ((0 <? fst (CoAP_token C (m_buf message)))%nat
         && negb (fst (CoAP_token C (m_buf message)) =? sizeof_token_t)%nat)%bool
     then 0%nat else fst (CoAP_token C (m_buf message)))
    (after_receipt W s
       (if ((0 <? fst (CoAP_token C (m_buf message)))%nat
            && negb (fst (CoAP_token C (m_buf message)) =? sizeof_token_t)%nat)%bool
        then [unsupported_token_length (fst (CoAP_token C (m_buf message)))]
        else []))) as (evs & K).
  eexists. eapply continues_trans; [| exact K].
  eapply continues_weaken; [| apply after_receipt_continues]. auto.
Qed.

Lemma rejected_length (len : nat) :
  len <> 0%nat -> len <> sizeof_token_t ->
  ((0 <? len)%nat && negb (len =? sizeof_token_t)%nat)%bool = true.
Proof.
  intros H0 H4. destruct (Nat.eqb_spec len sizeof_token_t); [easy |].
  destruct len; [easy | reflexivity].
Qed.

(** Only the function and variable cases of the switch look at the token
    length (lines 133 and 143). *)
Lemma dispatch_token_length (message : Message) (message_type : CoAPMessageType.Enum)
    (token : Z) (token_len token_len' : nat) (msg_id : Z) :
  message_type <> CoAPMessageType.FUNCTION_CALL ->
  message_type <> CoAPMessageType.VARIABLE_REQUEST ->
  dispatch D C W message message_type token token_len msg_id
  = dispatch D C W message message_type token token_len' msg_id.
Proof.
  intros Hf Hv. destruct message_type; try reflexivity; congruence.
Qed.

(** C8: a message whose decoded token length is neither 0 nor 4 is handled
    exactly as the same message with an absent token, after the line
    "Unsupported token length" is logged with that length, and the line is in
    the log at the end; the message is not rejected: the run goes on to the
    reply phase and to the switch with a token length of 0, and unless the
    message is a function call or a variable request (the two cases that ask
    for a token, lines 133 and 143) it is handled exactly as one whose token
    has four bytes. *)
Theorem unsupported_token_length_is_absent (message : Message) (s : Protocol) :
  let queue := m_buf message in
  let len := fst (CoAP_token C queue) in
  let message_type := decodeType C queue (m_length message) in
  let logged := add_log (unsupported_token_length len) s in
  len <> 0%nat -> len <> sizeof_token_t ->
  handle_received_message D C W message s
  = handle_received_message D (absent_token C) W message logged
  /\ In (unsupported_token_length len)
        (log (final_state (handle_received_message D C W message s)))
  /\ handle_received_message D C W message s
     = ((if CoAPType.is_reply (CoAP_type C queue)
         then handle_reply D W (CoAP_type C queue) (CoAP_code C queue)
                           (CoAP_message_id C queue)
         else ret tt) ;;
        error <- dispatch D C W message message_type (snd (CoAP_token C queue))
                          0%nat (CoAP_message_id C queue) ;;
        ret (message_type, error))
         (after_receipt W s [unsupported_token_length len])
  /\ (message_type <> CoAPMessageType.FUNCTION_CALL ->
      message_type <> CoAPMessageType.VARIABLE_REQUEST ->
      handle_received_message D C W message s
      = handle_received_message D (supported_token C) W message logged).
Proof.
  intros queue len message_type logged H0 H4. subst logged queue.
  split; [| split; [| split]].
  - rewrite !handle_received_message_phases. fold len.
    rewrite (rejected_length len H0 H4).
    simpl. unfold after_receipt, add_log. simpl. rewrite app_nil_r. reflexivity.
  - rewrite handle_received_message_phases. fold len.
    rewrite (rejected_length len H0 H4).
    destruct (reply_and_dispatch_emits message 0%nat
                (after_receipt W s [unsupported_token_length len]))
      as (evs & _ & _ & lines & L).
    rewrite L. simpl. apply in_or_app. left. apply in_or_app. right. left.
    reflexivity.
  - rewrite handle_received_message_phases. fold len.
    rewrite (rejected_length len H0 H4). reflexivity.
  - intros Hf Hv. rewrite !handle_received_message_phases. fold len.
    rewrite (rejected_length len H0 H4). simpl. fold message_type.
    rewrite (dispatch_token_length message message_type _ 0%nat sizeof_token_t _ Hf Hv).
    unfold after_receipt, add_log. simpl. rewrite app_nil_r. reflexivity.
Qed.


Lemma u8_range (b : byte) : 0 <= u8 b < 256.
Proof.
  unfold u8. pose proof (Byte.to_N_bounded b) as H. lia.
Qed.

Lemma lor_disjoint (hi lo n : Z) :
  0 <= n -> 0 <= lo < 2 ^ n -> Z.lor (hi * 2 ^ n) lo = hi * 2 ^ n + lo.
Proof.
  intros Hn Hlo.
  assert (E : Z.land (hi * 2 ^ n) lo = 0).
  { apply Z.bits_inj'. intros i Hi.
    rewrite Z.land_spec, Z.bits_0, <- Z.shiftl_mul_pow2 by lia.
    destruct (Z.lt_ge_cases i n) as [L | G].
    - rewrite Z.shiftl_spec_low by lia. reflexivity.
    - rewrite <- (Z.mod_small lo (2 ^ n)) by lia.
      rewrite Z.mod_pow2_bits_high by lia. apply andb_false_r. }
  rewrite Z.add_nocarry_lxor by exact E. symmetry. apply Z.lxor_lor. exact E.
Qed.

(** The expression of line 187 is the big-endian value of the four bytes. *)
Lemma decoded_epoch (q6 q7 q8 q9 : byte) :
  to_uint32 (Z.lor (Z.lor (Z.lor (Z.shiftl (u8 q6) 24) (Z.shiftl (u8 q7) 16))
                          (Z.shiftl (u8 q8) 8))
                   (u8 q9))
  = big_endian_32 q6 q7 q8 q9.
Proof.
  pose proof (u8_range q6). pose proof (u8_range q7).
  pose proof (u8_range q8). pose proof (u8_range q9).
  unfold big_endian_32, to_uint32. rewrite !Z.shiftl_mul_pow2 by lia.
  replace (u8 q7 * 2 ^ 16) with (u8 q7 * 2 ^ 16 + 0) at 1 by lia.
  rewrite (lor_disjoint (u8 q6) (u8 q7 * 2 ^ 16 + 0) 24) by lia.
  replace (u8 q6 * 2 ^ 24 + (u8 q7 * 2 ^ 16 + 0))
    with ((u8 q6 * 2 ^ 8 + u8 q7) * 2 ^ 16) by lia.
  rewrite (lor_disjoint _ (u8 q8 * 2 ^ 8) 16) by lia.
  replace ((u8 q6 * 2 ^ 8 + u8 q7) * 2 ^ 16 + u8 q8 * 2 ^ 8)
    with ((u8 q6 * 2 ^ 16 + u8 q7 * 2 ^ 8 + u8 q8) * 2 ^ 8) by lia.
  rewrite (lor_disjoint _ (u8 q9) 8) by lia.
  rewrite Z.mod_small by lia. lia.
Qed.

(** C9: a received TIME message that has bytes 6 to 9 makes
    [handle_received_message] return NO_ERROR, its last two calls being
    [millis()] and the time-sync component's [handle_time_response] with the
    big-endian value of bytes 6, 7, 8, 9, that millis value and the platform's
    [set_time]. *)
Theorem time_response (message : Message) (s : Protocol) (q6 q7 q8 q9 : byte) :
  decodeType C (m_buf message) (m_length message) = CoAPMessageType.TIME ->
  nth_error (m_buf message) 6 = Some q6 ->
  nth_error (m_buf message) 7 = Some q7 ->
  nth_error (m_buf message) 8 = Some q8 ->
  nth_error (m_buf message) 9 = Some q9 ->
  exists s' before,
    handle_received_message D C W message s
    = Ret (CoAPMessageType.TIME, NO_ERROR) s'
    /\ new_events s s'
       = before ++ [EvMillis;
                    EvTimesyncHandleTimeResponse (big_endian_32 q6 q7 q8 q9)
                      (millis W (trace s ++ before)) (set_time W)].
Proof.
  intros Hmt H6 H7 H8 H9. rewrite handle_received_message_phases. rewrite Hmt.
  set (s1 := after_receipt W s _).
  assert (K1 : continues (fun _ => True) s s1 [EvMillis; EvPingerMessageReceived]).
  { eapply continues_weaken; [| apply after_receipt_continues]. auto. }
  clearbody s1.
  assert (Hreply : exists s3 evs,
    (if CoAPType.is_reply (CoAP_type C (m_buf message))
      then
       handle_reply D W (CoAP_type C (m_buf message))
         (CoAP_code C (m_buf message)) (CoAP_message_id C (m_buf message))
      else ret tt) s1 = Ret tt s3
      /\ continues (fun _ => True) s1 s3 evs).
  { destruct (CoAPType.is_reply _).
    - destruct (handle_reply_returns D W (fun _ => True)
                  (CoAP_type C (m_buf message)) (CoAP_code C (m_buf message))
                  (CoAP_message_id C (m_buf message)) (fun e H => I) s1)
        as ([] & s3 & evs & E & K).
      exists s3, evs. auto.
    - exists s1, []. split; [reflexivity | apply continues_refl]. }
  destruct Hreply as (s3 & evs & E3 & K3).
  rewrite (bind_ret _ _ _ _ _ E3).
  destruct (continues_trans _ _ _ _ _ _ K1 K3) as (T & _ & _).
  unfold dispatch, read. rewrite H6, H7, H8, H9.
  repeat peel. unfold handle_time_response, callbacks_millis, notify. repeat peel.
  rewrite decoded_epoch.
  eexists. exists ([EvMillis; EvPingerMessageReceived] ++ evs).
  split; [reflexivity |].
  apply new_events_spec. unfold add_event. simpl. rewrite T.
  rewrite <- !app_assoc. reflexivity.
Qed.


Lemma notify_message_complete_fires (msg_id code : Z) (s : Protocol) :
  exists completion,
    notify_message_complete msg_id code s
    = Ret tt (add_event completion (add_log (completion_logged msg_id code) s))
    /\ (Z.shiftr code 5 = 2 -> completion = EvAckHandlersSetResult msg_id)
    /\ (Z.shiftr code 5 = 4 ->
        completion = EvAckHandlersSetError msg_id SYSTEM_ERROR_COAP_4XX)
    /\ (Z.shiftr code 5 = 5 ->
        completion = EvAckHandlersSetError msg_id SYSTEM_ERROR_COAP_5XX)
    /\ (Z.shiftr code 5 <> 2 -> Z.shiftr code 5 <> 4 -> Z.shiftr code 5 <> 5 ->
        completion = EvAckHandlersSetError msg_id SYSTEM_ERROR_COAP).
Proof.
  unfold notify_message_complete, CoAPCode.is_success. peel.
  destruct (Z.eqb_spec (Z.shiftr code 5) 2) as [E2 | N2].
  - eexists. split; [reflexivity |]. repeat split; intros; congruence.
  - destruct (Z.eqb_spec (Z.shiftr code 5) 4) as [E4 | N4].
    + eexists. split; [reflexivity |]. repeat split; intros; congruence.
    + destruct (Z.eqb_spec (Z.shiftr code 5) 5) as [E5 | N5].
      * eexists. split; [reflexivity |]. repeat split; intros; congruence.
      * eexists. split; [reflexivity |]. repeat split; intros; congruence.
Qed.

Lemma handle_reply_fires (type : CoAPType.Enum) (code msg_id : Z) (s : Protocol) :
  let code' :=
    if CoAPType.eqb type CoAPType.RESET then INTERNAL_SERVER_ERROR D else code in
  exists completion s' rest,
    handle_reply D W type code msg_id s = Ret tt s'
    /\ trace s' = trace s ++ completion :: rest
    /\ Forall (fun e => is_completion e = false) rest
    /\ (Z.shiftr code' 5 = 2 -> completion = EvAckHandlersSetResult msg_id)
    /\ (Z.shiftr code' 5 = 4 ->
        completion = EvAckHandlersSetError msg_id SYSTEM_ERROR_COAP_4XX)
    /\ (Z.shiftr code' 5 = 5 ->
        completion = EvAckHandlersSetError msg_id SYSTEM_ERROR_COAP_5XX)
    /\ (Z.shiftr code' 5 <> 2 -> Z.shiftr code' 5 <> 4 -> Z.shiftr code' 5 <> 5 ->
        completion = EvAckHandlersSetError msg_id SYSTEM_ERROR_COAP).
Proof.
  intros code'. unfold handle_reply. peel.
  assert (Hcode : exists s2,
    (if CoAPType.eqb type CoAPType.RESET
     then LOG LOG_TRACE
            "Reset received, setting error code to internal server error." [] ;;
          ret (INTERNAL_SERVER_ERROR D)
     else ret code)
      (add_log (Build_LogEntry LOG_TRACE "Reply recieved: type=%d, code=%d"
                  [ArgType type; ArgInt code]) s) = Ret code' s2
    /\ trace s2 = trace s).
  { subst code'. destruct (CoAPType.eqb type CoAPType.RESET);
      eexists; split; reflexivity. }
  destruct Hcode as (s2 & E2 & T2). rewrite (bind_ret _ _ _ _ _ E2).
  destruct (notify_message_complete_fires msg_id code' s2)
    as (completion & E3 & facts).
  rewrite (bind_ret _ _ _ _ _ E3).
  destruct (update_checksums_returns D W type msg_id
              (add_event completion (add_log (completion_logged msg_id code') s2)))
    as ([] & s4 & rest & E4 & T4 & F4 & _).
  exists completion, s4, rest. split; [exact E4 |]. split; [| auto].
  rewrite T4. simpl. rewrite T2, <- app_assoc. reflexivity.
Qed.

(** C6: on a received ACK or RESET, the first call after the receipt is one
    completion on the ack-handler registry, and it is the only one; the code
    is the internal-server-error code for a RESET and the code of the message
    for an ACK; class 2 fires [setResult], class 4 [setError] with COAP_4XX,
    class 5 [setError] with COAP_5XX, any other class [setError] with the
    generic COAP error. *)
Theorem reply_code_translation (message : Message) (s : Protocol) :
  let queue := m_buf message in
  let type := CoAP_type C queue in
  let msg_id := CoAP_message_id C queue in
  let code :=
    if CoAPType.eqb type CoAPType.RESET
    then INTERNAL_SERVER_ERROR D else CoAP_code C queue in
  type = CoAPType.ACK \/ type = CoAPType.RESET ->
  exists completion rest,
    new_events s (final_state (handle_received_message D C W message s))
    = [EvMillis; EvPingerMessageReceived; completion] ++ rest
    /\ Forall (fun e => is_completion e = false) rest
    /\ (Z.shiftr code 5 = 2 -> completion = EvAckHandlersSetResult msg_id)
    /\ (Z.shiftr code 5 = 4 ->
        completion = EvAckHandlersSetError msg_id SYSTEM_ERROR_COAP_4XX)
    /\ (Z.shiftr code 5 = 5 ->
        completion = EvAckHandlersSetError msg_id SYSTEM_ERROR_COAP_5XX)
    /\ (Z.shiftr code 5 <> 2 -> Z.shiftr code 5 <> 4 -> Z.shiftr code 5 <> 5 ->
        completion = EvAckHandlersSetError msg_id SYSTEM_ERROR_COAP).
Proof.
  intros queue type msg_id code Htype.
  rewrite handle_received_message_phases. fold queue type msg_id.
  set (s1 := after_receipt W s _).
  assert (T1 : trace s1 = trace s ++ [EvMillis; EvPingerMessageReceived])
    by reflexivity.
  clearbody s1.
  replace (CoAPType.is_reply type) with true
    by (destruct Htype as [-> | ->]; reflexivity).
  destruct (handle_reply_fires type (CoAP_code C queue) msg_id s1)
    as (completion & s3 & rest & E3 & T3 & F3 & facts).
  rewrite (bind_ret _ _ _ _ _ E3).
  match goal with |- context [final_state (bind ?m ?k s3)] =>
    assert (Hd : emits (fun e => is_completion e = false) (bind m k)) end.
  { apply emits_bind; [apply dispatch_emits |].
    intros e. apply returns_emits, returns_ret. }
  destruct (Hd s3) as (more & T4 & F4 & _).
  exists completion, (rest ++ more). split; [| split; [| exact facts]].
  - apply new_events_spec. rewrite T4, T3, T1, <- !app_assoc. reflexivity.
  - apply Forall_app. auto.
Qed.


Lemma update_checksums_system (msg_id : Z) (s : Protocol) f :
  app_state_selector_info W = Some f ->
  msg_id = system_describe_msg_id s ->
  exists s' pre post,
    update_checksums D W CoAPType.ACK msg_id s = Ret tt s'
    /\ trace s' = trace s ++ pre ++ envelope_system ++ post
    /\ system_describe_msg_id s' = INVALID_MESSAGE_HANDLE D.
Proof.
  intros Hsel ->.
  unfold update_checksums, persist_describe_crc, update_subscription_crc, when,
    envelope_system.
  rewrite Hsel. simpl CoAPType.eqb. cbv iota.
  walk.
  destruct (system_describe_msg_id s =? app_describe_msg_id s);
    repeat first [ rewrite Z.eqb_refl | walk ];
    destruct (system_describe_msg_id s =? subscriptions_msg_id s);
    repeat walk.
  - eexists.
    exists [EvCommand Channel.SAVE_SESSION;
            EvAppStateSelectorInfo SparkAppStateSelector.DESCRIBE_APP
              SparkAppStateUpdate.COMPUTE_AND_PERSIST 0;
            EvCommand Channel.LOAD_SESSION].
    eexists. split; [reflexivity |]. simpl. split; [| reflexivity].
    rewrite <- !app_assoc. reflexivity.
  - eexists.
    exists [EvCommand Channel.SAVE_SESSION;
            EvAppStateSelectorInfo SparkAppStateSelector.DESCRIBE_APP
              SparkAppStateUpdate.COMPUTE_AND_PERSIST 0;
            EvCommand Channel.LOAD_SESSION].
    exists []. split; [reflexivity |]. simpl. split; [| reflexivity].
    rewrite <- !app_assoc. reflexivity.
  - eexists. exists []. eexists. split; [reflexivity |].
    simpl. split; [| reflexivity]. rewrite <- !app_assoc. reflexivity.
  - eexists. exists [], []. split; [reflexivity |].
    simpl. split; [| reflexivity]. rewrite <- !app_assoc. reflexivity.
Qed.


Lemma dispatch_keeps_system_id message message_type token token_len msg_id :
  message_type <> CoAPMessageType.DESCRIBE ->
  keeps_system_id (dispatch D C W message message_type token token_len msg_id).
Proof.
  intros H. unfold dispatch, handle_key_change, signal_reply, handle_time_response,
    send_empty_ack, channel_send, channel_command, callbacks_millis, notify.
  destruct message_type; [congruence | ..]; repeat keeps_step.
Qed.

Lemma handle_reply_system (code msg_id : Z) (s : Protocol) f :
  app_state_selector_info W = Some f ->
  msg_id = system_describe_msg_id s ->
  exists s' pre post,
    handle_reply D W CoAPType.ACK code msg_id s = Ret tt s'
    /\ trace s' = trace s ++ pre ++ envelope_system ++ post
    /\ system_describe_msg_id s' = INVALID_MESSAGE_HANDLE D.
Proof.
  intros Hsel Hid. unfold handle_reply. simpl CoAPType.eqb. cbv iota. do 2 peel.
  match goal with |- context [bind (notify_message_complete _ _) _ ?st] =>
    destruct (notify_message_complete_fires msg_id code st) as (completion & E & _)
  end.
  rewrite (bind_ret _ _ _ _ _ E).
  match goal with |- context [update_checksums _ _ _ _ ?st] =>
    destruct (update_checksums_system msg_id st f Hsel Hid)
      as (s' & pre & post & E' & T' & I')
  end.
  exists s', (completion :: pre), post. split; [exact E' |]. split; [| exact I'].
  rewrite T'. simpl. rewrite <- app_assoc. reflexivity.
Qed.


End Dispatch_properties.

(** * Key change *)

Section Key_change_properties.

Variable C : Codec.
Variable W : World.

Lemma option_index_small (b0 : byte) :
  (7 + Z.land (u8 b0) 15) mod 256 = Z.of_nat (key_change_option_index b0).
Proof.
  unfold key_change_option_index.
  change 15 with (Z.ones 4). rewrite Z.land_ones by lia.
  pose proof (Z.mod_pos_bound (u8 b0) (2 ^ 4) ltac:(lia)) as H.
  change (2 ^ 4) with 16 in *.
  rewrite Z.mod_small by lia. rewrite Z2Nat.id by lia. reflexivity.
Qed.

(** [handle_key_change], from the bounds check of line 240 on. *)
Lemma handle_key_change_phases (message : Message) (s : Protocol) (b0 : byte) :
  nth_error (m_buf message) 0 = Some b0 ->
  (7 < m_length message)%nat ->
  exists result s1,
    trace s1 = trace s ++ key_change_ack_calls C W (trace s) message
    /\ handle_key_change C W message s
       = (b <- read (m_buf message) (key_change_option_index b0) ;;
          if u8 b =? 1
          then channel_command W Channel.DISCARD_SESSION
          else ret result) s1.
Proof.
  intros H0 Hlen. unfold handle_key_change, key_change_ack_calls, key_change_ack.
  apply Nat.ltb_lt in Hlen. rewrite Hlen.
  destruct (CoAPType.eqb (CoAP_type C (m_buf message)) CoAPType.CON).
  - unfold bind at 1. unfold bind at 1. unfold call at 1.
    destruct (empty_ack C _ 0 0) as [rbuf sz]. unfold channel_send.
    unfold bind at 1. unfold call at 1.
    destruct (send W _ _) as [error sent]. unfold ret at 1.
    unfold read at 1. rewrite H0. peel.
    rewrite option_index_small, Nat2Z.id.
    exists error. eexists. split; [| reflexivity].
    unfold add_event. simpl. rewrite <- app_assoc. reflexivity.
  - peel. unfold read at 1. rewrite H0. peel.
    rewrite option_index_small, Nat2Z.id.
    eexists. exists s. split; [| reflexivity]. rewrite app_nil_r. reflexivity.
Qed.

(** C10: for a key-change message of length L with 7 < L <= 7 + (byte 0 &
    0x0F), [handle_key_change] passes its only bounds check and reads index
    7 + (byte 0 & 0x0F), at or beyond L: in a buffer that holds just the
    message the read is out of range, and in a larger buffer the byte found
    there decides whether DISCARD_SESSION is commanded. *)
Theorem key_change_reads_past_message (message : Message) (s : Protocol) (b0 : byte) :
  nth_error (m_buf message) 0 = Some b0 ->
  (7 < m_length message <= key_change_option_index b0)%nat ->
  (capacity message = m_length message ->
   exists s', handle_key_change C W message s
              = Halt (OUT_OF_RANGE (key_change_option_index b0)) s')
  /\ (forall b, nth_error (m_buf message) (key_change_option_index b0) = Some b ->
      exists result s',
        handle_key_change C W message s = Ret result s'
        /\ count (is_command Channel.DISCARD_SESSION) (new_events s s')
           = if u8 b =? 1 then 1%nat else 0%nat).
Proof.
  intros H0 [Hlo Hhi].
  destruct (handle_key_change_phases message s b0 H0 Hlo) as (result & s1 & T1 & E).
  rewrite E. split.
  - intros Hcap. unfold read.
    replace (nth_error (m_buf message) (key_change_option_index b0)) with (@None byte).
    + eexists. reflexivity.
    + symmetry. apply nth_error_None. unfold capacity in Hcap. lia.
  - intros b Hb. unfold read. rewrite Hb. peel.
    assert (Hack : count (is_command Channel.DISCARD_SESSION)
                     (key_change_ack_calls C W (trace s) message) = 0%nat).
    { unfold key_change_ack_calls. destruct (CoAPType.eqb _ _); reflexivity. }
    destruct (u8 b =? 1).
    + eexists. eexists. split; [reflexivity |].
      erewrite new_events_spec
        by (unfold add_event; simpl; rewrite T1, <- app_assoc; reflexivity).
      rewrite count_app, Hack. reflexivity.
    + eexists. eexists. split; [reflexivity |].
      erewrite new_events_spec by (rewrite T1; reflexivity).
      exact Hack.
Qed.


Lemma key_change_within_message (message : Message) (s : Protocol) (b0 b : byte) :
  CoAP_type C (m_buf message) = CoAPType.CON ->
  nth_error (m_buf message) 0 = Some b0 ->
  (key_change_option_index b0 < m_length message)%nat ->
  nth_error (m_buf message) (key_change_option_index b0) = Some b ->
  exists result s',
    handle_key_change C W message s = Ret result s'
    /\ new_events s s'
       = [EvResponse message 5; EvSend (key_change_ack C W (trace s) message)]
         ++ (if u8 b =? 1 then [EvCommand Channel.DISCARD_SESSION] else []).
Proof.
  intros Hcon H0 Hlen Hb.
  assert (H7 : (7 < m_length message)%nat).
  { unfold key_change_option_index in Hlen.
    change 15 with (Z.ones 4) in Hlen. rewrite Z.land_ones in Hlen by lia.
    pose proof (Z.mod_pos_bound (u8 b0) (2 ^ 4) ltac:(lia)). lia. }
  destruct (handle_key_change_phases message s b0 H0 H7) as (result & s1 & T1 & E).
  rewrite E. unfold read. rewrite Hb. peel.
  unfold key_change_ack_calls in T1. rewrite Hcon in T1. simpl in T1.
  destruct (u8 b =? 1).
  - eexists. eexists. split; [reflexivity |].
    apply new_events_spec. unfold add_event. simpl. rewrite T1, <- app_assoc.
    reflexivity.
  - eexists. eexists. split; [reflexivity |].
    apply new_events_spec. rewrite T1. simpl. reflexivity.
Qed.

End Key_change_properties.

(** * The handshake *)

Section Handshake_properties.
Variable D : Defs.
Variable C : Codec.
Variable W : World.

(** Reading the two descriptors always returns. *)
Lemma read_app_states_returns : returns (fun _ => True) (read_app_states W).
Proof.
  unfold read_app_states, app_state_descriptor, selector_info. repeat returns_step.
Qed.

(** It calls neither [create] nor [send], and leaves the protocol flags. *)
Lemma read_app_states_calls (s s1 : Protocol) r :
  read_app_states W s = Ret r s1 ->
  protocol_flags s1 = protocol_flags s
  /\ exists evs,
       trace s1 = trace s ++ evs
       /\ Forall (fun e => is_send e = false /\ is_create e = false
                           /\ is_ping e = false
                           /\ is_command Channel.MOVE_SESSION e = false) evs.
Proof.
  unfold read_app_states, app_state_descriptor, selector_info.
  destruct (app_state_selector_info W) as [f |];
    unfold bind, call, get, ret; simpl; intros E; injection E as _ <-;
    (split; [reflexivity |]);
    unfold add_event; simpl; rewrite <- ?app_assoc; simpl;
    eexists; (split; [reflexivity |]); repeat constructor.
Qed.

(** C1, as amended: when [channel.establish()] answers SESSION_RESUMED and the
    cached descriptor equals the current one under the mask ([ALL], or
    SYSTEM_DESCRIBE_CRC | PROTOCOL_FLAGS when DEVICE_INITIATED_DESCRIBE is
    set), the last call of [begin] is the keepalive ping, its only ping; the
    calls before it hold exactly one MOVE_SESSION command and neither a
    [create] nor a [send], so no HELLO message is sent; [begin] returns
    SESSION_RESUMED if the ping answers NO_ERROR, and the error of the ping
    otherwise. *)
Theorem begin_resumes_unchanged (fuel : nat) (s s1 : Protocol)
    (currentState cachedState : AppStateDescriptor.t) :
  establish W (trace s ++ [EvChunkedTransferReset; EvPingerReset; EvTimesyncReset;
                           EvAckHandlersClear; EvMillis]) = SESSION_RESUMED ->
  read_app_states W (resume_point D W s) = Ret (currentState, cachedState) s1 ->
  AppStateDescriptor.equalsTo cachedState currentState
    (resume_mask D (protocol_flags s)) = true ->
  let pinged := ping W (trace s1) true in
  exists s' before,
    begin D C W fuel s
    = Ret (if ProtocolError_eqb pinged NO_ERROR then SESSION_RESUMED else pinged) s'
    /\ trace s' = trace s1 ++ [EvPing true]
    /\ new_events s s' = before ++ [EvPing true]
    /\ count (is_command Channel.MOVE_SESSION) before = 1%nat
    /\ count is_ping before = 0%nat
    /\ count is_send before = 0%nat
    /\ count is_create before = 0%nat.
Proof.
  intros Hest Hstates Heq pinged.
  destruct (read_app_states_calls _ _ _ Hstates) as (Hflags & evs & T1 & F1).
  change (protocol_flags (resume_point D W s)) with (protocol_flags s) in Hflags.
  unfold begin. unfold notify, callbacks_millis, channel_command.
  do 11 walk. rewrite <- !app_assoc. simpl. rewrite Hest.
  change (is_error SESSION_RESUMED) with true.
  change (ProtocolError_eqb SESSION_RESUMED SESSION_RESUMED) with true.
  change (true && negb true)%bool with false. cbv iota.
  rewrite !bind_bind. walk.
  match goal with |- context [bind _ _ ?st] =>
    replace st with (resume_point D W s)
      by (unfold resume_point, establish_calls; simpl; rewrite <- !app_assoc;
          reflexivity)
  end.
  unfold read_app_states in Hstates.
  destruct (bind_pair _ _ _ _ _ _ Hstates) as (s0 & E0 & E1).
  rewrite !bind_bind, (bind_ret _ _ _ _ _ E0).
  rewrite !bind_bind, (bind_ret _ _ _ _ _ E1).
  rewrite !bind_bind. peel. rewrite Hflags. fold (resume_mask D (protocol_flags s)).
  rewrite Heq. rewrite !bind_bind. repeat peel.
  change (trace (add_log _ s1)) with (trace s1). subst pinged. eexists.
  exists (establish_calls ++ [EvCommand Channel.MOVE_SESSION] ++ evs). split.
  { unfold ret. destruct (ProtocolError_eqb (ping W (trace s1) true) NO_ERROR);
      reflexivity. }
  split; [reflexivity |]. split.
  { apply new_events_spec. unfold add_event, add_log. simpl. rewrite T1.
    unfold resume_point. simpl. rewrite <- !app_assoc. reflexivity. }
  unfold establish_calls.
  assert (H0 : forall p, (forall e, (is_send e = false /\ is_create e = false
                           /\ is_ping e = false
                           /\ is_command Channel.MOVE_SESSION e = false) -> p e = false) ->
                count p evs = 0%nat).
  { intros p Hp. apply count_none. eapply Forall_impl; [| exact F1]. exact Hp. }
  rewrite !count_app.
  rewrite (H0 (is_command Channel.MOVE_SESSION)) by tauto.
  rewrite (H0 is_ping) by tauto.
  rewrite (H0 is_send) by tauto.
  rewrite (H0 is_create) by tauto.
  repeat split.
Qed.

End Handshake_properties.

(** * Describe posting *)

Section Describe_properties.
Variable D : Defs.
Variable C : Codec.
Variable W : World.

Lemma post_description_unforced (desc_flags : Z) (s s1 : Protocol)
    (currentState cachedState : AppStateDescriptor.t) :
  read_app_states W s = Ret (currentState, cachedState) s1 ->
  exists s2,
    post_description D C W desc_flags false s
    = post_description D C W (remaining_flags D currentState cachedState desc_flags)
                       true s2
    /\ trace s2 = trace s1.
Proof.
  intros E. unfold read_app_states in E.
  destruct (bind_pair _ _ _ _ _ _ E) as (s0 & E0 & E1).
  unfold post_description.
  change (negb false) with true. change (negb true) with false. cbv iota.
  rewrite !bind_bind, (bind_ret _ _ _ _ _ E0).
  rewrite !bind_bind, (bind_ret _ _ _ _ _ E1).
  unfold remaining_flags.
  destruct (has_flag desc_flags (DESCRIBE_SYSTEM D)
            && AppStateDescriptor.equalsTo currentState cachedState
                 AppStateDescriptor.SYSTEM_DESCRIBE_CRC)%bool.
  - rewrite !bind_bind. do 2 peel.
    destruct (has_flag _ (DESCRIBE_APPLICATION D)
              && AppStateDescriptor.equalsTo currentState cachedState
                   AppStateDescriptor.APP_DESCRIBE_CRC)%bool.
    + rewrite !bind_bind. do 2 peel. match goal with |- exists s2, ?m ?st = _ /\ _ => exists st end.
      split; [| reflexivity]. symmetry. peel. reflexivity.
    + peel. match goal with |- exists s2, ?m ?st = _ /\ _ => exists st end.
      split; [| reflexivity]. symmetry. peel. reflexivity.
  - rewrite !bind_bind. peel.
    destruct (has_flag _ (DESCRIBE_APPLICATION D)
              && AppStateDescriptor.equalsTo currentState cachedState
                   AppStateDescriptor.APP_DESCRIBE_CRC)%bool.
    + rewrite !bind_bind. do 2 peel. match goal with |- exists s2, ?m ?st = _ /\ _ => exists st end.
      split; [| reflexivity]. symmetry. peel. reflexivity.
    + peel. match goal with |- exists s2, ?m ?st = _ /\ _ => exists st end.
      split; [| reflexivity]. symmetry. peel. reflexivity.
Qed.


Lemma land_lnot_same (a b : Z) : Z.land (Z.land a (Z.lnot b)) b = 0.
Proof.
  apply Z.bits_inj'. intros n Hn.
  rewrite !Z.land_spec, Z.lnot_spec, Z.bits_0 by exact Hn.
  destruct (Z.testbit a n), (Z.testbit b n); reflexivity.
Qed.

Lemma land_land_zero (a b c : Z) : Z.land a b = 0 -> Z.land (Z.land a c) b = 0.
Proof.
  intros H. rewrite <- Z.land_assoc, (Z.land_comm c b), Z.land_assoc, H.
  apply Z.land_0_l.
Qed.

Lemma land_lnot_disjoint (a b : Z) : Z.land a b = 0 -> Z.land a (Z.lnot b) = a.
Proof.
  intros H. apply Z.bits_inj'. intros n Hn.
  rewrite Z.land_spec, Z.lnot_spec by exact Hn.
  assert (E : Z.testbit (Z.land a b) n = false) by (rewrite H; apply Z.bits_0).
  rewrite Z.land_spec in E.
  destruct (Z.testbit a n), (Z.testbit b n); try reflexivity; discriminate.
Qed.

Lemma has_flag_false (flags bit : Z) : has_flag flags bit = false -> Z.land flags bit = 0.
Proof.
  unfold has_flag. destruct (Z.eqb_spec (Z.land flags bit) 0); [auto | discriminate].
Qed.

(** C7: an unforced [post_description] behaves as a forced one with the flags
    that remain: DESCRIBE_SYSTEM is dropped when the current descriptor equals
    the cached one under SYSTEM_DESCRIBE_CRC, DESCRIBE_APPLICATION when they
    are equal under APP_DESCRIBE_CRC (nothing is dropped when neither holds,
    and no other flag is ever dropped); when no flag remains it returns
    NO_ERROR and has neither created nor sent a message. *)
Theorem post_description_drops_cached (desc_flags : Z) (s s1 : Protocol)
    (currentState cachedState : AppStateDescriptor.t) :
  let same mask := AppStateDescriptor.equalsTo currentState cachedState mask in
  read_app_states W s = Ret (currentState, cachedState) s1 ->
  exists remaining s2,
    post_description D C W desc_flags false s
    = post_description D C W remaining true s2
    /\ trace s2 = trace s1
    /\ (same AppStateDescriptor.SYSTEM_DESCRIBE_CRC = true ->
        Z.land remaining (DESCRIBE_SYSTEM D) = 0)
    /\ (same AppStateDescriptor.APP_DESCRIBE_CRC = true ->
        Z.land remaining (DESCRIBE_APPLICATION D) = 0)
    /\ (same AppStateDescriptor.SYSTEM_DESCRIBE_CRC = false ->
        same AppStateDescriptor.APP_DESCRIBE_CRC = false ->
        remaining = desc_flags)
    /\ Z.land remaining (Z.lnot (DESCRIBE_DEFAULT D))
       = Z.land desc_flags (Z.lnot (DESCRIBE_DEFAULT D))
    /\ (remaining = 0 ->
        post_description D C W desc_flags false s = Ret NO_ERROR s2
        /\ Forall (fun e => is_create e = false /\ is_send e = false)
                  (new_events s s2)).
Proof.
  intros same E.
  destruct (post_description_unforced desc_flags s s1 _ _ E) as (s2 & E2 & T2).
  destruct (read_app_states_calls W _ _ _ E) as (_ & evs & T1 & F1).
  exists (remaining_flags D currentState cachedState desc_flags), s2.
  split; [exact E2 |]. split; [exact T2 |].
  unfold remaining_flags. fold (same AppStateDescriptor.SYSTEM_DESCRIBE_CRC).
  fold (same AppStateDescriptor.APP_DESCRIBE_CRC).
  split; [| split; [| split; [| split]]].
  - intros ->. rewrite andb_true_r.
    destruct (has_flag desc_flags (DESCRIBE_SYSTEM D)) eqn:Hs.
    + destruct (_ && _)%bool.
      * apply land_land_zero, land_lnot_same.
      * apply land_lnot_same.
    + apply has_flag_false in Hs. destruct (_ && _)%bool.
      * apply land_land_zero, Hs.
      * exact Hs.
  - intros ->. rewrite andb_true_r.
    match goal with |- context [has_flag ?f (DESCRIBE_APPLICATION D)] =>
      destruct (has_flag f (DESCRIBE_APPLICATION D)) eqn:Ha end.
    + apply land_lnot_same.
    + apply has_flag_false in Ha. exact Ha.
  - intros -> ->. rewrite !andb_false_r. reflexivity.
  - unfold DESCRIBE_DEFAULT.
    destruct (_ && _)%bool; destruct (_ && _)%bool; try reflexivity;
      apply Z.bits_inj'; intros n Hn;
      rewrite !Z.land_spec, !Z.lnot_spec, Z.lor_spec by exact Hn;
      destruct (Z.testbit desc_flags n), (Z.testbit (DESCRIBE_SYSTEM D) n),
        (Z.testbit (DESCRIBE_APPLICATION D) n); reflexivity.
  - intros Hzero. fold (remaining_flags D currentState cachedState desc_flags) in E2.
    unfold remaining_flags in E2.
    fold (same AppStateDescriptor.SYSTEM_DESCRIBE_CRC) in E2.
    fold (same AppStateDescriptor.APP_DESCRIBE_CRC) in E2.
    rewrite Hzero in E2. split.
    + rewrite E2. reflexivity.
    + rewrite (new_events_spec s s2 evs) by (rewrite T2; exact T1).
      eapply Forall_impl; [| exact F1]. intros e H. cbv beta in H. tauto.
Qed.

(** A describe message is sent before [generate_and_send_description]
    returns, and nothing else is called. *)
Lemma generate_and_send_description_returned (message : Message) (header_size : nat)
    (desc_flags : Z) (s s1 : Protocol) (error : ProtocolError) :
  generate_and_send_description D W message header_size desc_flags s = Ret error s1 ->
  exists m, trace s1 = trace s ++ [EvSend m].
Proof.
  unfold generate_and_send_description.
  destruct (capacity message <? header_size)%nat; [discriminate |].
  destruct (0 <? Appender.overflowed _)%nat; [discriminate |].
  do 2 (rewrite ?bind_bind; peel). unfold channel_send, call at 1. rewrite ?bind_bind; peel.
  match goal with |- context [send W ?h ?m] =>
    exists m; destruct (send W h m) as [e sent] end.
  cbv beta iota in H. revert H.
  destruct (ProtocolError_eqb e NO_ERROR); unfold when;
    destruct (has_flag desc_flags (DESCRIBE_APPLICATION D));
    destruct (has_flag desc_flags (DESCRIBE_SYSTEM D));
    repeat (rewrite ?bind_bind; peel); intros H; injection H as _ <-; reflexivity.
Qed.

(** A forced post that has flags, creates its message and returns has sent
    exactly one message. *)
Lemma forced_post_returned (desc_flags : Z) (s s1 : Protocol) (error : ProtocolError) :
  desc_flags <> 0 ->
  fst (create W (trace s)) = NO_ERROR ->
  post_description D C W desc_flags true s = Ret error s1 ->
  exists m, trace s1 = trace s ++ [EvCreate; EvSend m].
Proof.
  intros Hflags Hcreated. unfold post_description. simpl negb. cbv iota. rewrite ?bind_bind; peel.
  destruct (Z.eqb_spec desc_flags 0) as [e | _]; [contradiction |].
  unfold channel_create, call at 1. rewrite ?bind_bind; peel.
  destruct (create W (trace s)) as [created_error message]. simpl in Hcreated.
  subst created_error. cbv beta iota.
  change (negb (ProtocolError_eqb NO_ERROR NO_ERROR)) with false. cbv iota.
  unfold get_next_token, get at 1. rewrite !bind_bind. do 3 (rewrite ?bind_bind; peel).
  destruct (describe_post_header C _ _ 0 _ desc_flags) as [buf header_size].
  intros H. destruct (generate_and_send_description_returned _ _ _ _ _ _ H)
    as (m & T).
  exists m. rewrite T. simpl. rewrite <- app_assoc. reflexivity.
Qed.

(** C3, as amended: for flags made of DESCRIBE_SYSTEM and DESCRIBE_APPLICATION
    only: a first unforced [post_description] that has something to post,
    creates its message and returns has sent exactly one message; when
    afterwards the cached checksum of each flavour asked equals the current
    one, a second unforced call with the same flags returns NO_ERROR, creates
    and sends nothing: the two calls send exactly once. *)
Theorem post_description_twice (desc_flags : Z) (s s0 s1 s1' : Protocol)
    (error : ProtocolError)
    (firstState firstCached currentState cachedState : AppStateDescriptor.t) :
  let same mask := AppStateDescriptor.equalsTo currentState cachedState mask in
  read_app_states W s = Ret (firstState, firstCached) s0 ->
  remaining_flags D firstState firstCached desc_flags <> 0 ->
  fst (create W (trace s0)) = NO_ERROR ->
  post_description D C W desc_flags false s = Ret error s1 ->
  read_app_states W s1 = Ret (currentState, cachedState) s1' ->
  (has_flag desc_flags (DESCRIBE_SYSTEM D) = true ->
   same AppStateDescriptor.SYSTEM_DESCRIBE_CRC = true) ->
  (has_flag desc_flags (DESCRIBE_APPLICATION D) = true ->
   same AppStateDescriptor.APP_DESCRIBE_CRC = true) ->
  Z.land (Z.land desc_flags (Z.lnot (DESCRIBE_SYSTEM D)))
         (Z.lnot (DESCRIBE_APPLICATION D)) = 0 ->
  exists s2,
    post_description D C W desc_flags false s1 = Ret NO_ERROR s2
    /\ count is_send (new_events s s1) = 1%nat
    /\ count is_send (new_events s1 s2) = 0%nat
    /\ count is_create (new_events s1 s2) = 0%nat
    /\ count is_send (new_events s s2) = 1%nat.
Proof.
  intros same E0 Hfirst Hcreated First E Hsys Happ Honly.
  assert (Hquiet : forall st st' r,
             read_app_states W st = Ret r st' ->
             exists evs, trace st' = trace st ++ evs
                         /\ forall p,
                              (forall e, (is_send e = false /\ is_create e = false
                                          /\ is_ping e = false
                                          /\ is_command Channel.MOVE_SESSION e = false) ->
                                         p e = false) ->
                              count p evs = 0%nat).
  { intros st st' r H. destruct (read_app_states_calls W _ _ _ H) as (_ & evs & T & F).
    exists evs. split; [exact T |]. intros p Hp. apply count_none.
    eapply Forall_impl; [| exact F]. exact Hp. }
  (* The first call. *)
  destruct (post_description_unforced desc_flags s s0 _ _ E0) as (s0' & F0 & T0').
  rewrite F0 in First.
  assert (Hc : fst (create W (trace s0')) = NO_ERROR) by (rewrite T0'; exact Hcreated).
  destruct (forced_post_returned _ _ _ _ Hfirst Hc First) as (m & Tfirst).
  destruct (Hquiet _ _ _ E0) as (evs0 & T0 & Q0).
  assert (T01 : trace s1 = trace s ++ evs0 ++ [EvCreate; EvSend m])
    by (rewrite Tfirst, T0', T0, <- app_assoc; reflexivity).
  assert (Sent : count is_send (evs0 ++ [EvCreate; EvSend m]) = 1%nat)
    by (rewrite count_app, Q0 by tauto; reflexivity).
  (* The second call. *)
  destruct (post_description_unforced desc_flags s1 s1' _ _ E) as (s2 & E2 & T2).
  destruct (Hquiet _ _ _ E) as (evs & T1 & Q1).
  assert (Hzero : remaining_flags D currentState cachedState desc_flags = 0).
  { unfold remaining_flags. fold (same AppStateDescriptor.SYSTEM_DESCRIBE_CRC).
    fold (same AppStateDescriptor.APP_DESCRIBE_CRC).
    set (g := Z.land desc_flags (Z.lnot (DESCRIBE_SYSTEM D))) in *.
    assert (Hg : (if (has_flag desc_flags (DESCRIBE_SYSTEM D)
                      && same AppStateDescriptor.SYSTEM_DESCRIBE_CRC)%bool
                  then g else desc_flags) = g).
    { destruct (has_flag desc_flags (DESCRIBE_SYSTEM D)) eqn:Hs.
      - rewrite (Hsys eq_refl). reflexivity.
      - simpl. symmetry. apply land_lnot_disjoint, has_flag_false, Hs. }
    rewrite Hg.
    destruct (has_flag g (DESCRIBE_APPLICATION D)) eqn:Ha.
    - assert (Hd : has_flag desc_flags (DESCRIBE_APPLICATION D) = true).
      { destruct (has_flag desc_flags (DESCRIBE_APPLICATION D)) eqn:Hd; [reflexivity |].
        apply has_flag_false in Hd.
        apply (land_land_zero _ _ (Z.lnot (DESCRIBE_SYSTEM D))) in Hd.
        fold g in Hd. unfold has_flag in Ha. rewrite Hd in Ha. discriminate. }
      rewrite (Happ Hd). simpl. exact Honly.
    - simpl. apply has_flag_false in Ha.
      rewrite <- (land_lnot_disjoint _ _ Ha). exact Honly. }
  rewrite Hzero in E2.
  exists s2. split; [rewrite E2; reflexivity |].
  rewrite (new_events_spec s s1 _ T01).
  rewrite (new_events_spec s1 s2 evs) by (rewrite T2; exact T1).
  rewrite (new_events_spec s s2 ((evs0 ++ [EvCreate; EvSend m]) ++ evs))
    by (rewrite T2, T1, T01, <- !app_assoc; reflexivity).
  split; [exact Sent |]. split; [apply Q1; tauto |]. split; [apply Q1; tauto |].
  rewrite count_app, Sent, Q1 by tauto. reflexivity.
Qed.

End Describe_properties.

(** * Concrete runs *)

Lemma missing_request_token_witness :
  exists s',
    handle_received_message Sample.defs (Sample.codec CoAPMessageType.FUNCTION_CALL)
      Sample.calm Sample.function_call_without_token Sample.fresh
    = Ret (CoAPMessageType.FUNCTION_CALL, MISSING_REQUEST_TOKEN) s'
    /\ Forall (fun e => is_handler_call e = false) (new_events Sample.fresh s').
Proof.
  apply (missing_request_token Sample.defs
           (Sample.codec CoAPMessageType.FUNCTION_CALL) Sample.calm
           Sample.function_call_without_token Sample.fresh).
  - left. reflexivity.
  - vm_compute. discriminate.
Defined.

Lemma unsupported_token_length_is_absent_witness :
  let C := Sample.codec CoAPMessageType.PING in
  let message := Sample.ping_with_short_token in
  let logged := add_log (unsupported_token_length 2) Sample.fresh in
  handle_received_message Sample.defs C Sample.calm message Sample.fresh
  = handle_received_message Sample.defs (absent_token C) Sample.calm message logged
  /\ In (unsupported_token_length 2)
        (log (final_state
                (handle_received_message Sample.defs C Sample.calm message
                   Sample.fresh)))
  /\ handle_received_message Sample.defs C Sample.calm message Sample.fresh
     = (ret tt ;;
        error <- dispatch Sample.defs C Sample.calm message CoAPMessageType.PING
                          (snd (CoAP_token C (m_buf message))) 0%nat
                          (CoAP_message_id C (m_buf message)) ;;
        ret (CoAPMessageType.PING, error))
         (after_receipt Sample.calm Sample.fresh [unsupported_token_length 2])
  /\ (CoAPMessageType.PING <> CoAPMessageType.FUNCTION_CALL ->
      CoAPMessageType.PING <> CoAPMessageType.VARIABLE_REQUEST ->
      handle_received_message Sample.defs C Sample.calm message Sample.fresh
      = handle_received_message Sample.defs (supported_token C) Sample.calm message
          logged).
Proof.
  apply (unsupported_token_length_is_absent Sample.defs
           (Sample.codec CoAPMessageType.PING) Sample.calm
           Sample.ping_with_short_token Sample.fresh).
  - vm_compute. discriminate.
  - vm_compute. discriminate.
Defined.

(** The PING with a token length of 2 is answered as any PING. *)
Lemma short_token_ping_is_answered :
  let done :=
    handle_received_message Sample.defs (Sample.codec CoAPMessageType.PING)
      Sample.calm Sample.ping_with_short_token Sample.fresh in
  fst (CoAP_token (Sample.codec CoAPMessageType.PING)
                  (m_buf Sample.ping_with_short_token)) = 2%nat
  /\ result_of done = Some (CoAPMessageType.PING, NO_ERROR)
  /\ new_events Sample.fresh (final_state done)
     = [EvMillis; EvPingerMessageReceived;
        EvSend (Sample.received [x60; x00; x12; x34; xaa; xbb] 4)]
  /\ log (final_state done) = [unsupported_token_length 2].
Proof.
  repeat split; reflexivity.
Qed.

Lemma time_response_witness :
  big_endian_32 x5e x00 x00 x00 = 0x5E000000
  /\ exists s' before,
       handle_received_message Sample.defs (Sample.codec CoAPMessageType.TIME)
         Sample.calm Sample.time_reply Sample.fresh
       = Ret (CoAPMessageType.TIME, NO_ERROR) s'
       /\ new_events Sample.fresh s'
          = before ++ [EvMillis;
                       EvTimesyncHandleTimeResponse (big_endian_32 x5e x00 x00 x00)
                         (millis Sample.calm (trace Sample.fresh ++ before))
                         (set_time Sample.calm)].
Proof.
  split; [reflexivity |].
  apply (time_response Sample.defs (Sample.codec CoAPMessageType.TIME) Sample.calm
           Sample.time_reply Sample.fresh x5e x00 x00 x00); reflexivity.
Defined.

Lemma reply_code_translation_witness :
  exists completion rest,
    new_events Sample.fresh
      (final_state
         (handle_received_message Sample.defs (Sample.codec CoAPMessageType.NONE)
            Sample.calm Sample.changed_ack Sample.fresh))
    = [EvMillis; EvPingerMessageReceived; completion] ++ rest
    /\ Forall (fun e => is_completion e = false) rest
    /\ (Z.shiftr 68 5 = 2 -> completion = EvAckHandlersSetResult 4660)
    /\ (Z.shiftr 68 5 = 4 ->
        completion = EvAckHandlersSetError 4660 SYSTEM_ERROR_COAP_4XX)
    /\ (Z.shiftr 68 5 = 5 ->
        completion = EvAckHandlersSetError 4660 SYSTEM_ERROR_COAP_5XX)
    /\ (Z.shiftr 68 5 <> 2 -> Z.shiftr 68 5 <> 4 -> Z.shiftr 68 5 <> 5 ->
        completion = EvAckHandlersSetError 4660 SYSTEM_ERROR_COAP).
Proof.
  apply (reply_code_translation Sample.defs (Sample.codec CoAPMessageType.NONE)
           Sample.calm Sample.changed_ack Sample.fresh).
  left. reflexivity.
Defined.

Lemma begin_resumes_unchanged_witness :
  exists s' before,
    begin Sample.defs (Sample.codec CoAPMessageType.NONE) Sample.resumed 0 Sample.fresh
    = Ret SESSION_RESUMED s'
    /\ trace s' = trace Sample.resumed_states ++ [EvPing true]
    /\ new_events Sample.fresh s' = before ++ [EvPing true]
    /\ count (is_command Channel.MOVE_SESSION) before = 1%nat
    /\ count is_ping before = 0%nat
    /\ count is_send before = 0%nat
    /\ count is_create before = 0%nat.
Proof.
  apply (begin_resumes_unchanged Sample.defs (Sample.codec CoAPMessageType.NONE)
           Sample.resumed 0 Sample.fresh Sample.resumed_states Sample.sevens Sample.sevens);
    reflexivity.
Defined.

(** The session is resumed and the descriptors are equal, but the ping fails:
    [begin] returns the error of the ping. *)
Lemma begin_resumed_ping_fails :
  let W := Sample.resumed_ping_fails in
  let s := Sample.fresh in
  establish W (trace s ++ [EvChunkedTransferReset; EvPingerReset; EvTimesyncReset;
                           EvAckHandlersClear; EvMillis]) = SESSION_RESUMED
  /\ result_of (read_app_states W (resume_point Sample.defs W s))
     = Some (Sample.sevens, Sample.sevens)
  /\ AppStateDescriptor.equalsTo Sample.sevens Sample.sevens
       (resume_mask Sample.defs (protocol_flags s)) = true
  /\ result_of (begin Sample.defs (Sample.codec CoAPMessageType.NONE) W 0 s)
     = Some (CHANNEL_ERROR 1)
  /\ result_of (begin Sample.defs (Sample.codec CoAPMessageType.NONE) W 0 s)
     <> Some SESSION_RESUMED.
Proof.
  repeat split; try reflexivity. vm_compute. discriminate.
Qed.

Lemma post_description_twice_witness :
  exists s2,
    post_description Sample.defs (Sample.codec CoAPMessageType.NONE) Sample.caching
      1 false (final_state Sample.first_post) = Ret NO_ERROR s2
    /\ count is_send (new_events Sample.fresh (final_state Sample.first_post)) = 1%nat
    /\ count is_send (new_events (final_state Sample.first_post) s2) = 0%nat
    /\ count is_create (new_events (final_state Sample.first_post) s2) = 0%nat
    /\ count is_send (new_events Sample.fresh s2) = 1%nat.
Proof.
  apply (post_description_twice Sample.defs (Sample.codec CoAPMessageType.NONE)
           Sample.caching 1 Sample.fresh
           (final_state (read_app_states Sample.caching Sample.fresh))
           (final_state Sample.first_post)
           (final_state (read_app_states Sample.caching (final_state Sample.first_post)))
           NO_ERROR Sample.sevens AppStateDescriptor.empty Sample.sevens Sample.sevens).
  - reflexivity.
  - vm_compute. discriminate.
  - reflexivity.
  - reflexivity.
  - reflexivity.
  - intros _. reflexivity.
  - intros _. reflexivity.
  - reflexivity.
Defined.

(** With DESCRIBE_METRICS beside DESCRIBE_SYSTEM (flags 5) the second unforced
    post sends again, although every cached checksum equals the current one
    after the first send: only the system and application bits are ever
    dropped. *)
Lemma post_description_twice_with_metrics :
  let C := Sample.codec CoAPMessageType.NONE in
  let W := Sample.caching in
  let first := post_description Sample.defs C W 5 false Sample.fresh in
  let second := post_description Sample.defs C W 5 false (final_state first) in
  result_of first = Some NO_ERROR
  /\ count is_send (new_events Sample.fresh (final_state first)) = 1%nat
  /\ result_of (read_app_states W (final_state first))
     = Some (Sample.sevens, Sample.sevens)
  /\ AppStateDescriptor.equalsTo Sample.sevens Sample.sevens AppStateDescriptor.ALL
     = true
  /\ result_of second = Some NO_ERROR
  /\ count is_send (new_events (final_state first) (final_state second)) = 1%nat
  /\ count is_send (new_events Sample.fresh (final_state second)) = 2%nat.
Proof.
  repeat split; reflexivity.
Qed.

Lemma post_description_drops_cached_witness :
  let C := Sample.codec CoAPMessageType.NONE in
  let s1 := final_state (read_app_states Sample.calm Sample.fresh) in
  let same mask := AppStateDescriptor.equalsTo Sample.sevens Sample.sevens mask in
  exists remaining s2,
    post_description Sample.defs C Sample.calm 3 false Sample.fresh
    = post_description Sample.defs C Sample.calm remaining true s2
    /\ trace s2 = trace s1
    /\ (same AppStateDescriptor.SYSTEM_DESCRIBE_CRC = true ->
        Z.land remaining (DESCRIBE_SYSTEM Sample.defs) = 0)
    /\ (same AppStateDescriptor.APP_DESCRIBE_CRC = true ->
        Z.land remaining (DESCRIBE_APPLICATION Sample.defs) = 0)
    /\ (same AppStateDescriptor.SYSTEM_DESCRIBE_CRC = false ->
        same AppStateDescriptor.APP_DESCRIBE_CRC = false ->
        remaining = 3)
    /\ Z.land remaining (Z.lnot (DESCRIBE_DEFAULT Sample.defs))
       = Z.land 3 (Z.lnot (DESCRIBE_DEFAULT Sample.defs))
    /\ (remaining = 0 ->
        post_description Sample.defs C Sample.calm 3 false Sample.fresh
        = Ret NO_ERROR s2
        /\ Forall (fun e => is_create e = false /\ is_send e = false)
                  (new_events Sample.fresh s2)).
Proof.
  apply (post_description_drops_cached Sample.defs
           (Sample.codec CoAPMessageType.NONE) Sample.calm 3 Sample.fresh
           (final_state (read_app_states Sample.calm Sample.fresh))
           Sample.sevens Sample.sevens).
  reflexivity.
Defined.

Lemma key_change_reads_past_message_witness :
  exists s',
    handle_key_change (Sample.codec CoAPMessageType.KEY_CHANGE) Sample.calm
      Sample.short_key_change Sample.fresh
    = Halt (OUT_OF_RANGE 11) s'.
Proof.
  apply (proj1 (key_change_reads_past_message
                  (Sample.codec CoAPMessageType.KEY_CHANGE) Sample.calm
                  Sample.short_key_change Sample.fresh x44 eq_refl
                  ltac:(vm_compute; lia))).
  reflexivity.
Defined.

(** C4, at the failing input: a confirmable key-change message of 8 bytes
    with a token length of 4, in a buffer whose byte 11 is 1.  The message has
    no byte at offset 7 + 4, and [handle_key_change] acknowledges and then
    commands DISCARD_SESSION. *)
Lemma key_change_discards_on_stale_byte :
  let C := Sample.codec CoAPMessageType.KEY_CHANGE in
  let message := Sample.stale_key_change in
  let s := Sample.fresh in
  CoAP_type C (m_buf message) = CoAPType.CON
  /\ m_length message = 8%nat
  /\ key_change_option_index x44 = 11%nat
  /\ nth_error (firstn (m_length message) (m_buf message)) 11 = None
  /\ new_events s (final_state (handle_key_change C Sample.calm message s))
     = [EvResponse message 5;
        EvSend (key_change_ack C Sample.calm (trace s) message);
        EvCommand Channel.DISCARD_SESSION].
Proof.
  repeat split; reflexivity.
Qed.

(** * Calls in a language *)

Lemma Enveloped_app (a b : list Event) :
  Enveloped a -> Enveloped b -> Enveloped (a ++ b).
Proof.
  induction 1 as [| e l He _ IH | sel op v l Hop _ IH]; intros Hb; simpl.
  - exact Hb.
  - apply Enveloped_call; auto.
  - apply Enveloped_write; auto.
Qed.

Lemma Enveloped_Bracketed (l : list Event) : Enveloped l -> Bracketed l.
Proof.
  induction 1 as [| e l He _ IH | sel op v l Hop _ IH];
    intros pre sel' op' v' post E Hp.
  - destruct pre; discriminate.
  - destruct pre as [| x pre]; simpl in E; injection E as -> E.
    + simpl in He. congruence.
    + destruct (IH _ _ _ _ _ E Hp) as (pre' & post' & -> & ->).
      exists (x :: pre'), post'. auto.
  - destruct pre as [| x pre]; simpl in E; [discriminate |].
    injection E as <- E.
    destruct pre as [| y pre]; simpl in E.
    + injection E as <- <- <- <-. exists [], l. auto.
    + injection E as <- E.
      destruct pre as [| z pre]; simpl in E; [discriminate |].
      injection E as <- E.
      destruct (IH _ _ _ _ _ E Hp) as (pre' & post' & -> & ->).
      exists (EvCommand Channel.SAVE_SESSION
              :: EvAppStateSelectorInfo sel op v
              :: EvCommand Channel.LOAD_SESSION :: pre'), post'. auto.
Qed.

Section Produce.

Variable L : list Event -> Prop.
Hypothesis L_nil : L [].
Hypothesis L_app : forall a b, L a -> L b -> L (a ++ b).

Lemma produces_bind {A B} (m : M A) (k : A -> M B) :
  produces L m -> (forall a, produces L (k a)) -> produces L (bind m k).
Proof.
  intros Hm Hk s. unfold bind. destruct (Hm s) as (evs1 & T1 & L1).
  destruct (m s) as [a s1 | why s1]; simpl in *.
  - destruct (Hk a s1) as (evs2 & T2 & L2).
    exists (evs1 ++ evs2). rewrite T2, T1, app_assoc. auto.
  - exists evs1. auto.
Qed.

Lemma produces_quiet {A} (m : M A) :
  (forall s, trace (final_state (m s)) = trace s) -> produces L m.
Proof.
  intros H s. exists []. rewrite app_nil_r. auto.
Qed.

Lemma produces_call {A} (e : Event) (answer : list Event -> A) :
  L [e] -> produces L (call e answer).
Proof.
  intros He s. exists [e]. auto.
Qed.

End Produce.

Ltac produces_step nil app one :=
  match goal with
  | |- produces _ (bind _ _) => apply (produces_bind _ app); [| intros]
  | |- produces _ (when ?b _) => unfold when
  | |- produces _ (read _ _) => unfold read
  | |- produces _ (if ?b then _ else _) => destruct b
  | |- produces _ (match ?x with _ => _ end) => destruct x
  | |- produces _ (call _ _) => apply produces_call; one
  | |- produces _ _ => apply (produces_quiet _ nil); intros ?; reflexivity
  end.

Ltac enveloped_call := apply Enveloped_call; [reflexivity | apply Enveloped_nil].

Ltac enveloped :=
  repeat produces_step Enveloped_nil Enveloped_app enveloped_call.

Section Envelope.
Variable D : Defs.
Variable C : Codec.
Variable W : World.

Lemma persist_describe_crc_enveloped type selector :
  produces Enveloped (persist_describe_crc W type selector).
Proof.
  unfold persist_describe_crc.
  destruct (app_state_selector_info W) as [f |], (CoAPType.eqb type CoAPType.ACK);
    try (apply (produces_quiet _ Enveloped_nil); intros ?; reflexivity).
  intros s. eexists. split.
  - unfold bind, channel_command, selector_info, call, ret, add_event. simpl.
    rewrite <- !app_assoc. reflexivity.
  - apply Enveloped_write; [reflexivity | apply Enveloped_nil].
Qed.

Lemma update_subscription_crc_enveloped :
  produces Enveloped (update_subscription_crc W).
Proof.
  unfold update_subscription_crc.
  destruct (app_state_selector_info W) as [f |];
    try (apply (produces_quiet _ Enveloped_nil); intros ?; reflexivity).
  intros s. eexists. split.
  - unfold bind, channel_command, selector_info, call, ret, add_event. simpl.
    rewrite <- !app_assoc. reflexivity.
  - apply Enveloped_call; [reflexivity |].
    apply Enveloped_write; [reflexivity | apply Enveloped_nil].
Qed.

Lemma update_protocol_flags_enveloped :
  produces Enveloped (update_protocol_flags W).
Proof.
  unfold update_protocol_flags.
  destruct (app_state_selector_info W) as [f |];
    try (apply (produces_quiet _ Enveloped_nil); intros ?; reflexivity).
  intros s. eexists. split.
  - unfold bind, channel_command, selector_info, call, get, ret, add_event. simpl.
    rewrite <- !app_assoc. reflexivity.
  - apply Enveloped_write; [reflexivity | apply Enveloped_nil].
Qed.

Lemma handle_reply_enveloped type code msg_id :
  produces Enveloped (handle_reply D W type code msg_id).
Proof.
  unfold handle_reply, update_checksums, notify_message_complete, notify.
  repeat first [ apply persist_describe_crc_enveloped
               | apply update_subscription_crc_enveloped
               | produces_step Enveloped_nil Enveloped_app enveloped_call ].
Qed.

Lemma generate_and_send_description_enveloped message header_size desc_flags :
  produces Enveloped (generate_and_send_description D W message header_size desc_flags).
Proof.
  unfold generate_and_send_description, channel_send. enveloped.
Qed.

Lemma app_state_descriptor_enveloped : produces Enveloped (app_state_descriptor W).
Proof.
  unfold app_state_descriptor, selector_info. enveloped.
Qed.

Lemma post_description_enveloped desc_flags force :
  produces Enveloped (post_description D C W desc_flags force).
Proof.
  unfold post_description, channel_create, get_next_token.
  repeat first [ apply generate_and_send_description_enveloped
               | apply app_state_descriptor_enveloped
               | produces_step Enveloped_nil Enveloped_app enveloped_call ].
Qed.

Lemma send_description_response_enveloped token msg_id desc_flags :
  produces Enveloped (send_description_response D C W token msg_id desc_flags).
Proof.
  unfold send_description_response, send_empty_ack, channel_create, channel_send.
  repeat first [ apply generate_and_send_description_enveloped
               | produces_step Enveloped_nil Enveloped_app enveloped_call ].
Qed.

Lemma dispatch_enveloped message message_type token token_len msg_id :
  produces Enveloped (dispatch D C W message message_type token token_len msg_id).
Proof.
  unfold dispatch, handle_key_change, signal_reply, handle_time_response,
    send_empty_ack, channel_send, channel_command, callbacks_millis, notify.
  repeat first [ apply send_description_response_enveloped
               | produces_step Enveloped_nil Enveloped_app enveloped_call ].
Qed.

Lemma handle_received_message_enveloped message :
  produces Enveloped (handle_received_message D C W message).
Proof.
  unfold handle_received_message, callbacks_millis, notify.
  repeat first [ apply handle_reply_enveloped
               | apply dispatch_enveloped
               | produces_step Enveloped_nil Enveloped_app enveloped_call ].
Qed.

Lemma event_loop_enveloped : produces Enveloped (event_loop D C W).
Proof.
  unfold event_loop, callbacks_millis, notify.
  repeat first [ apply handle_received_message_enveloped
               | produces_step Enveloped_nil Enveloped_app enveloped_call ].
Qed.

Lemma event_loop_rounds_enveloped fuel message_type timeout start :
  produces Enveloped (event_loop_rounds D C W fuel message_type timeout start).
Proof.
  induction fuel as [| fuel IH]; simpl.
  - apply (produces_quiet _ Enveloped_nil). intros ?. reflexivity.
  - unfold callbacks_millis.
    repeat first [ apply event_loop_enveloped
                 | apply IH
                 | produces_step Enveloped_nil Enveloped_app enveloped_call ].
Qed.

Lemma begin_enveloped fuel : produces Enveloped (begin D C W fuel).
Proof.
  unfold begin, hello_response, event_loop_wait, hello, notify, callbacks_millis,
    channel_command, channel_create, channel_send.
  repeat first [ apply event_loop_rounds_enveloped
               | apply app_state_descriptor_enveloped
               | apply update_protocol_flags_enveloped
               | apply post_description_enveloped
               | produces_step Enveloped_nil Enveloped_app enveloped_call ].
Qed.

(** X1: Every selector call that persists state ([PERSIST] or
    [COMPUTE_AND_PERSIST]) made by [handle_received_message], [event_loop],
    [post_description] or [begin] comes directly after a SAVE_SESSION command
    and directly before a LOAD_SESSION command, whatever the collaborators
    answer and wherever the run stops. *)
Theorem session_writes_are_bracketed :
  (forall message s,
      Bracketed (new_events s (final_state (handle_received_message D C W message s))))
  /\ (forall s, Bracketed (new_events s (final_state (event_loop D C W s))))
  /\ (forall desc_flags force s,
         Bracketed (new_events s
                      (final_state (post_description D C W desc_flags force s))))
  /\ (forall fuel s, Bracketed (new_events s (final_state (begin D C W fuel s)))).
Proof.
  assert (H : forall A (m : M A), produces Enveloped m ->
                forall s, Bracketed (new_events s (final_state (m s)))).
  { intros A m Hm s. destruct (Hm s) as (evs & T & E).
    rewrite (new_events_spec _ _ _ T). apply Enveloped_Bracketed, E. }
  repeat split; intros; apply H.
  - apply handle_received_message_enveloped.
  - apply event_loop_enveloped.
  - apply post_description_enveloped.
  - apply begin_enveloped.
Qed.

End Envelope.

(** * More on dispatch *)

Lemma keeps_field_bind {A B F} (field : Protocol -> F) (m : M A) (k : A -> M B) :
  keeps field m -> (forall a, keeps field (k a)) -> keeps field (bind m k).
Proof.
  intros Hm Hk s. unfold bind. specialize (Hm s).
  destruct (m s) as [a s1 | why s1]; simpl in *.
  - rewrite Hk. exact Hm.
  - exact Hm.
Qed.

Ltac kept_step :=
  match goal with
  | |- keeps _ (bind _ _) => apply keeps_field_bind; [| intros]
  | |- keeps _ (when ?b _) => unfold when
  | |- keeps _ (read _ _) => unfold read
  | |- keeps _ (if ?b then _ else _) => destruct b
  | |- keeps _ (match ?x with _ => _ end) => destruct x
  | |- keeps _ _ => solve [intros ?; reflexivity]
  end.

Section Dispatch_more.
Variable D : Defs.
Variable C : Codec.
Variable W : World.

Lemma handle_reply_calls (P : Event -> Prop) type code msg_id :
  (forall e, from_reply e = true -> P e) ->
  returns P (handle_reply D W type code msg_id).
Proof.
  intros HP.
  unfold handle_reply, update_checksums, notify_message_complete,
    persist_describe_crc, update_subscription_crc, channel_command,
    selector_info, notify.
  repeat first [ returns_step | apply returns_call; apply HP; reflexivity ].
Qed.

Lemma generate_and_send_description_calls (P : Event -> Prop)
    message header_size desc_flags :
  (forall e, from_dispatch e = true -> P e) ->
  emits P (generate_and_send_description D W message header_size desc_flags).
Proof.
  intros HP. unfold generate_and_send_description, channel_send.
  repeat first [ emits_step | apply returns_emits, returns_call, HP; reflexivity ].
Qed.

Lemma send_description_response_calls (P : Event -> Prop) token msg_id desc_flags :
  (forall e, from_dispatch e = true -> P e) ->
  emits P (send_description_response D C W token msg_id desc_flags).
Proof.
  intros HP.
  unfold send_description_response, send_empty_ack, channel_create, channel_send.
  repeat first [ apply generate_and_send_description_calls; exact HP
               | emits_step
               | apply returns_emits, returns_call, HP; reflexivity ].
Qed.

Lemma dispatch_calls (P : Event -> Prop) message message_type token token_len msg_id :
  (forall e, from_dispatch e = true -> P e) ->
  emits P (dispatch D C W message message_type token token_len msg_id).
Proof.
  intros HP.
  unfold dispatch, handle_key_change, signal_reply, handle_time_response,
    send_empty_ack, channel_send, channel_command, callbacks_millis, notify.
  repeat first [ apply send_description_response_calls; exact HP
               | emits_step
               | apply returns_emits, returns_call, HP; reflexivity ].
Qed.

Lemma handle_reply_keeps_clock type code msg_id :
  keeps (fun s => (last_message_millis s, last_ack_handlers_update s))
        (handle_reply D W type code msg_id).
Proof.
  unfold handle_reply, update_checksums, notify_message_complete,
    persist_describe_crc, update_subscription_crc, channel_command,
    selector_info, notify.
  repeat kept_step.
Qed.

(** The state in which the [switch] starts. *)
Lemma handle_received_message_switch (message : Message) (s : Protocol) :
  let queue := m_buf message in
  let len := fst (CoAP_token C queue) in
  let token_len :=
    if ((0 <? len)%nat && negb (len =? sizeof_token_t)%nat)%bool
    then 0%nat else len in
  exists s3 evs,
    handle_received_message D C W message s
    = (error <- dispatch D C W message (decodeType C queue (m_length message))
                         (snd (CoAP_token C queue)) token_len
                         (CoAP_message_id C queue) ;;
       ret (decodeType C queue (m_length message), error)) s3
    /\ trace s3 = trace s ++ [EvMillis; EvPingerMessageReceived] ++ evs
    /\ Forall (fun e => from_reply e = true) evs
    /\ (CoAPType.is_reply (CoAP_type C queue) = false ->
        evs = [] /\ pending_ids s3 = pending_ids s)
    /\ last_message_millis s3 = millis W (trace s)
    /\ last_ack_handlers_update s3 = last_ack_handlers_update s.
Proof.
  intros queue len token_len. rewrite handle_received_message_phases.
  fold queue len token_len.
  set (s1 := after_receipt W s _).
  assert (T1 : trace s1 = trace s ++ [EvMillis; EvPingerMessageReceived])
    by reflexivity.
  assert (I1 : pending_ids s1 = pending_ids s) by reflexivity.
  assert (M1 : last_message_millis s1 = millis W (trace s)) by reflexivity.
  assert (A1 : last_ack_handlers_update s1 = last_ack_handlers_update s)
    by reflexivity.
  clearbody s1.
  destruct (CoAPType.is_reply (CoAP_type C queue)).
  - destruct (handle_reply_calls (fun e => from_reply e = true)
                (CoAP_type C queue) (CoAP_code C queue) (CoAP_message_id C queue)
                (fun e H => H) s1) as ([] & s3 & evs & E & T & F & _).
    rewrite (bind_ret _ _ _ _ _ E).
    exists s3, evs. split; [reflexivity |]. split; [rewrite T, T1, <- app_assoc; reflexivity |].
    split; [exact F |]. split; [discriminate |].
    pose proof (handle_reply_keeps_clock (CoAP_type C queue) (CoAP_code C queue)
                  (CoAP_message_id C queue) s1) as K.
    rewrite E in K. simpl in K. injection K as K1 K2.
    rewrite K1, K2. auto.
  - peel. exists s1, []. split; [reflexivity |]. rewrite app_nil_r.
    repeat split; auto.
Qed.


End Dispatch_more.

(** * The cases of the switch *)

Lemma from_reply_not_send (evs : list Event) :
  Forall (fun e => from_reply e = true) evs -> count is_send evs = 0%nat.
Proof.
  intros F. apply count_none. eapply Forall_impl; [| exact F].
  intros e He. destruct e; try discriminate; reflexivity.
Qed.

Ltac step := rewrite ?bind_bind; peel.

Section Switch_cases.
Variable D : Defs.
Variable C : Codec.
Variable W : World.

(** X2: A PING whose bytes 2 and 3 are in the buffer is answered with
    one message, the empty acknowledgement built from those two bytes (lines
    190 to 194); it is the last call and the only send, and what [send]
    answers is the result. *)
Theorem ping_is_acknowledged (message : Message) (s : Protocol) (q2 q3 : byte) :
  let queue := m_buf message in
  let built := empty_ack C queue (u8 q2) (u8 q3) in
  let ack := set_length (set_buf message (fst built)) (snd built) in
  decodeType C queue (m_length message) = CoAPMessageType.PING ->
  nth_error queue 2 = Some q2 ->
  nth_error queue 3 = Some q3 ->
  exists s' before,
    handle_received_message D C W message s
    = Ret (CoAPMessageType.PING, fst (send W (trace s ++ before) ack)) s'
    /\ new_events s s' = before ++ [EvSend ack]
    /\ count is_send before = 0%nat.
Proof.
  intros queue built ack Hmt H2 H3.
  destruct (handle_received_message_switch D C W message s)
    as (s3 & evs & E & T & F & _).
  rewrite E. fold queue. rewrite Hmt. unfold dispatch, read. fold queue.
  rewrite H2, H3. do 2 step. fold built. subst ack.
  destruct built as [buf n]. unfold channel_send, call. simpl fst. simpl snd.
  rewrite bind_bind. peel.
  exists (add_event (EvSend (set_length (set_buf message buf) n)) s3),
         ([EvMillis; EvPingerMessageReceived] ++ evs).
  rewrite <- T.
  destruct (send W (trace s3) _) as [error sent]. peel.
  split; [reflexivity |]. split.
  - apply new_events_spec. unfold add_event. simpl. rewrite T, <- !app_assoc.
    reflexivity.
  - rewrite count_app. apply from_reply_not_send in F. rewrite F. reflexivity.
Qed.


(** X3: A SIGNAL_START (SIGNAL_STOP) calls the signal callback
    with [true] ([false]) and then sends the coded acknowledgement built from
    the decoded token, the OK code and bytes 2 and 3 (lines 165 to 177); these
    are the last two calls, the acknowledgement is the only send, and what
    [send] answers is the result. *)
Theorem signal_is_acknowledged (message : Message) (s : Protocol) (on : bool)
    (q2 q3 : byte) :
  let queue := m_buf message in
  let built := coded_ack C queue (snd (CoAP_token C queue))
                         (ChunkReceivedCode_OK D) (u8 q2) (u8 q3) in
  let ack := set_length (set_buf message (fst built)) (snd built) in
  let message_type :=
    if on then CoAPMessageType.SIGNAL_START else CoAPMessageType.SIGNAL_STOP in
  decodeType C queue (m_length message) = message_type ->
  nth_error queue 2 = Some q2 ->
  nth_error queue 3 = Some q3 ->
  exists s' before,
    handle_received_message D C W message s
    = Ret (message_type,
           fst (send W (trace s ++ before ++ [EvSignal on]) ack)) s'
    /\ new_events s s' = before ++ [EvSignal on; EvSend ack]
    /\ count is_send before = 0%nat.
Proof.
  intros queue built ack message_type Hmt H2 H3.
  destruct (handle_received_message_switch D C W message s)
    as (s3 & evs & E & T & F & _).
  rewrite E. fold queue. rewrite Hmt.
  assert (Hd : forall token_len msg_id,
             dispatch D C W message message_type (snd (CoAP_token C queue))
                      token_len msg_id
             = signal_reply D C W message (snd (CoAP_token C queue)) on)
    by (intros; subst message_type; destruct on; reflexivity).
  rewrite Hd. unfold signal_reply, read. fold queue.
  rewrite H2, H3. do 2 step. fold built. subst ack.
  destruct built as [buf n]. unfold channel_send, notify, call.
  simpl fst. simpl snd. do 2 step.
  exists (add_event (EvSend (set_length (set_buf message buf) n))
                    (add_event (EvSignal on) s3)),
         ([EvMillis; EvPingerMessageReceived] ++ evs).
  replace (trace (add_event (EvSignal on) s3))
    with (trace s ++ ([EvMillis; EvPingerMessageReceived] ++ evs) ++ [EvSignal on])
    by (unfold add_event; simpl; rewrite T, <- !app_assoc; reflexivity).
  destruct (send W _ _) as [error sent]. peel.
  split; [reflexivity |]. split.
  - apply new_events_spec. unfold add_event. simpl. rewrite T, <- !app_assoc.
    reflexivity.
  - rewrite count_app. apply from_reply_not_send in F. rewrite F. reflexivity.
Qed.

(** X4: A received HELLO always returns NO_ERROR (lines 179 to 183):
    when the message is confirmable an empty acknowledgement with the id of
    the message is sent, and what that send answers is dropped; the last call
    is [ota_upgrade_status_sent]. *)
Theorem hello_is_noted (message : Message) (s : Protocol) :
  let queue := m_buf message in
  let built := empty_ack C queue 0 0 in
  let ack := set_id (set_length (set_buf message (fst built)) (snd built))
                    (CoAP_message_id C queue) in
  decodeType C queue (m_length message) = CoAPMessageType.HELLO ->
  exists s' before,
    handle_received_message D C W message s = Ret (CoAPMessageType.HELLO, NO_ERROR) s'
    /\ new_events s s'
       = before
         ++ (if CoAPType.eqb (get_type C message) CoAPType.CON
             then [EvSend ack] else [])
         ++ [EvOtaUpgradeStatusSent]
    /\ count is_send before = 0%nat.
Proof.
  intros queue built ack Hmt.
  destruct (handle_received_message_switch D C W message s)
    as (s3 & evs & E & T & F & _).
  rewrite E. fold queue. rewrite Hmt. unfold dispatch.
  exists (add_event EvOtaUpgradeStatusSent
            (if CoAPType.eqb (get_type C message) CoAPType.CON
             then add_event (EvSend ack) s3 else s3)),
         ([EvMillis; EvPingerMessageReceived] ++ evs).
  split; [| split].
  - destruct (CoAPType.eqb (get_type C message) CoAPType.CON).
    + unfold send_empty_ack. fold queue built. subst ack.
      destruct built as [buf n]. unfold channel_send, call, notify.
      simpl fst. simpl snd. rewrite !bind_bind. peel.
      destruct (send W (trace s3) _) as [error sent]. repeat step. reflexivity.
    + unfold notify, call. repeat step. reflexivity.
  - apply new_events_spec.
    destruct (CoAPType.eqb (get_type C message) CoAPType.CON);
      unfold add_event; simpl; rewrite T, <- !app_assoc; reflexivity.
  - rewrite count_app. apply from_reply_not_send in F. rewrite F. reflexivity.
Qed.

(** X5: A message classified ERROR or NONE is dropped (lines
    196 to 198): the result is NO_ERROR and there is no call besides the
    receipt and the reply phase; when the message is no reply there is no
    further call at all and the pending ids are as before. *)
Theorem unhandled_types_are_dropped (message : Message) (s : Protocol) :
  let queue := m_buf message in
  let message_type := decodeType C queue (m_length message) in
  message_type = CoAPMessageType.ERROR \/ message_type = CoAPMessageType.NONE ->
  exists s' evs,
    handle_received_message D C W message s = Ret (message_type, NO_ERROR) s'
    /\ new_events s s' = [EvMillis; EvPingerMessageReceived] ++ evs
    /\ Forall (fun e => from_reply e = true) evs
    /\ (CoAPType.is_reply (CoAP_type C queue) = false ->
        evs = [] /\ pending_ids s' = pending_ids s).
Proof.
  intros queue message_type Hmt.
  destruct (handle_received_message_switch D C W message s)
    as (s3 & evs & E & T & F & R & _).
  rewrite E. fold queue message_type.
  exists s3, evs.
  split; [| split; [apply new_events_spec; exact T | split; [exact F | exact R]]].
  destruct Hmt as [-> | ->]; unfold dispatch; step; reflexivity.
Qed.

Lemma dispatch_keeps_ack_clock message message_type token token_len msg_id :
  keeps last_ack_handlers_update
        (dispatch D C W message message_type token token_len msg_id).
Proof.
  unfold dispatch, handle_key_change, signal_reply, handle_time_response,
    send_description_response, generate_and_send_description,
    send_empty_ack, channel_send, channel_command, channel_create,
    callbacks_millis, notify.
  repeat kept_step.
Qed.

Lemma handle_reply_keeps_ack_clock type code msg_id :
  keeps last_ack_handlers_update (handle_reply D W type code msg_id).
Proof.
  unfold handle_reply, update_checksums, notify_message_complete,
    persist_describe_crc, update_subscription_crc, channel_command,
    selector_info, notify.
  repeat kept_step.
Qed.

Lemma handle_received_message_keeps_ack_clock (message : Message) :
  keeps last_ack_handlers_update (handle_received_message D C W message).
Proof.
  unfold handle_received_message, callbacks_millis, notify.
  repeat first [ apply handle_reply_keeps_ack_clock
               | apply dispatch_keeps_ack_clock
               | kept_step ].
Qed.

Lemma handle_received_message_receipt (P : Event -> Prop) (message : Message) :
  (forall e, from_receipt e = true -> P e) ->
  emits P (handle_received_message D C W message).
Proof.
  intros HP.
  assert (Hr : forall e, from_reply e = true -> P e).
  { intros e He. apply HP. unfold from_receipt. rewrite He. destruct e; reflexivity. }
  assert (Hd : forall e, from_dispatch e = true -> P e).
  { intros e He. apply HP. unfold from_receipt. rewrite He.
    destruct e; try reflexivity. apply orb_true_r. }
  unfold handle_received_message, callbacks_millis, notify.
  repeat first [ apply returns_emits, handle_reply_calls; exact Hr
               | apply dispatch_calls; exact Hd
               | apply returns_emits, returns_call, HP; reflexivity
               | emits_step ].
Qed.

(** X6: Whatever the message, [handle_received_message] only
    calls the clock, the pinger, the completion registry, the session
    commands SAVE, LOAD and DISCARD, the selector and the subscription
    checksum, [create], [send], [response], the signal and OTA callbacks, the
    time sync and the request handlers: it never establishes, receives, pings,
    moves the session or cancels a transfer. *)
Theorem handle_received_message_calls (message : Message) (s : Protocol) :
  Forall (fun e => from_receipt e = true)
         (new_events s (final_state (handle_received_message D C W message s))).
Proof.
  destruct (handle_received_message_receipt (fun e => from_receipt e = true)
              message (fun e H => H) s) as (evs & T & F & _).
  rewrite (new_events_spec _ _ _ T). exact F.
Qed.

End Switch_cases.

(** * The reply phase *)

Section Reply_phase.
Variable D : Defs.
Variable C : Codec.
Variable W : World.

Lemma update_checksums_ids (type : CoAPType.Enum) (msg_id : Z) (s : Protocol) :
  exists s',
    update_checksums D W type msg_id s = Ret tt s'
    /\ pending_ids s'
       = (after_reply D msg_id (app_describe_msg_id s),
          after_reply D msg_id (system_describe_msg_id s),
          after_reply D msg_id (subscriptions_msg_id s))
    /\ next_token s' = next_token s
    /\ protocol_flags s' = protocol_flags s.
Proof.
  unfold update_checksums, persist_describe_crc, update_subscription_crc, when,
    after_reply, pending_ids, channel_command, selector_info.
  step. unfold get at 1.
  destruct (msg_id =? app_describe_msg_id s);
    destruct (app_state_selector_info W);
    destruct (CoAPType.eqb type CoAPType.ACK);
    repeat (step; unfold get, call, add_event; simpl);
    destruct (msg_id =? system_describe_msg_id s);
    repeat (step; unfold get, call, add_event; simpl);
    destruct (msg_id =? subscriptions_msg_id s);
    repeat (step; unfold get, call, add_event; simpl);
    eexists; (split; [reflexivity |]); simpl; auto.
Qed.


Lemma reply_code_returns (type : CoAPType.Enum) (code : Z) (s : Protocol) :
  exists s2,
    (if CoAPType.eqb type CoAPType.RESET
     then LOG LOG_TRACE
            "Reset received, setting error code to internal server error." [] ;;
          ret (INTERNAL_SERVER_ERROR D)
     else ret code) s
    = Ret (if CoAPType.eqb type CoAPType.RESET then INTERNAL_SERVER_ERROR D else code)
          s2
    /\ trace s2 = trace s /\ pending_ids s2 = pending_ids s
    /\ next_token s2 = next_token s /\ protocol_flags s2 = protocol_flags s.
Proof.
  destruct (CoAPType.eqb type CoAPType.RESET); eexists; split;
    try reflexivity; auto.
Qed.

Lemma handle_reply_ids (type : CoAPType.Enum) (code msg_id : Z) (s : Protocol) :
  exists s',
    handle_reply D W type code msg_id s = Ret tt s'
    /\ pending_ids s'
       = (after_reply D msg_id (app_describe_msg_id s),
          after_reply D msg_id (system_describe_msg_id s),
          after_reply D msg_id (subscriptions_msg_id s))
    /\ next_token s' = next_token s
    /\ protocol_flags s' = protocol_flags s.
Proof.
  unfold handle_reply. peel.
  match goal with |- context [bind _ _ ?st] =>
    destruct (reply_code_returns type code st) as (s2 & E2 & _ & I2 & N2 & P2)
  end.
  rewrite (bind_ret _ _ _ _ _ E2).
  destruct (notify_message_complete_fires msg_id
              (if CoAPType.eqb type CoAPType.RESET
               then INTERNAL_SERVER_ERROR D else code) s2) as (completion & E3 & _).
  rewrite (bind_ret _ _ _ _ _ E3).
  match goal with |- context [update_checksums _ _ _ _ ?st] =>
    destruct (update_checksums_ids type msg_id st) as (s' & E & I & N & P)
  end.
  exists s'. split; [exact E |].
  unfold pending_ids in I2. simpl in I, N, P, I2, N2, P2.
  injection I2 as <- <- <-. rewrite <- N2, <- P2. auto.
Qed.

Lemma dispatch_keeps_ids message message_type token token_len msg_id :
  message_type <> CoAPMessageType.DESCRIBE ->
  keeps pending_ids (dispatch D C W message message_type token token_len msg_id).
Proof.
  intros H. unfold dispatch, handle_key_change, signal_reply, handle_time_response,
    send_empty_ack, channel_send, channel_command, callbacks_millis, notify.
  destruct message_type; [congruence | ..]; repeat kept_step.
Qed.

(** X7: For a message that is not dispatched as a DESCRIBE
    request, the three pending ids at the end of [handle_received_message]
    are: for a reply (ACK or RESET), INVALID_MESSAGE_HANDLE where the id
    equalled the id of the message and the old value elsewhere (lines 86 to
    106); for any other message, the old values. *)
Theorem pending_ids_after_receipt (message : Message) (s : Protocol) :
  let queue := m_buf message in
  let msg_id := CoAP_message_id C queue in
  decodeType C queue (m_length message) <> CoAPMessageType.DESCRIBE ->
  pending_ids (final_state (handle_received_message D C W message s))
  = if CoAPType.is_reply (CoAP_type C queue)
    then (after_reply D msg_id (app_describe_msg_id s),
          after_reply D msg_id (system_describe_msg_id s),
          after_reply D msg_id (subscriptions_msg_id s))
    else pending_ids s.
Proof.
  intros queue msg_id Hmt.
  rewrite handle_received_message_phases. fold queue msg_id.
  set (s1 := after_receipt W s _).
  assert (I1 : pending_ids s1 = pending_ids s) by reflexivity.
  clearbody s1.
  match goal with |- context [bind _ ?k s1] =>
    assert (K : keeps pending_ids (k tt)) end.
  { apply keeps_field_bind; [apply dispatch_keeps_ids; exact Hmt |].
    intros e s0. reflexivity. }
  destruct (CoAPType.is_reply (CoAP_type C queue)).
  - destruct (handle_reply_ids (CoAP_type C queue) (CoAP_code C queue) msg_id s1)
      as (s' & E & I & _).
    rewrite (bind_ret _ _ _ _ _ E), K, I.
    unfold pending_ids in I1. injection I1 as -> -> ->. reflexivity.
  - peel. rewrite K. exact I1.
Qed.


(** The reply phase, given the calls of its checksum update. *)
Lemma received_reply (message : Message) (s : Protocol)
    (calls : list Event -> list Event) :
  let queue := m_buf message in
  CoAPType.is_reply (CoAP_type C queue) = true ->
  (forall s1, pending_ids s1 = pending_ids s ->
     exists s', update_checksums D W (CoAP_type C queue) (CoAP_message_id C queue) s1
                = Ret tt s'
                /\ trace s' = trace s1 ++ calls (trace s1)) ->
  exists completion rest,
    is_completion completion = true
    /\ new_events s (final_state (handle_received_message D C W message s))
       = [EvMillis; EvPingerMessageReceived; completion]
         ++ calls (trace s ++ [EvMillis; EvPingerMessageReceived; completion])
         ++ rest
    /\ Forall (fun e => from_dispatch e = true) rest.
Proof.
  intros queue Hreply Hupdate.
  rewrite handle_received_message_phases. fold queue.
  set (s1 := after_receipt W s _).
  assert (T1 : trace s1 = trace s ++ [EvMillis; EvPingerMessageReceived])
    by reflexivity.
  assert (I1 : pending_ids s1 = pending_ids s) by reflexivity.
  clearbody s1. rewrite Hreply. cbv iota. unfold handle_reply. step.
  match goal with |- context [bind _ _ ?st] =>
    destruct (reply_code_returns (CoAP_type C queue) (CoAP_code C queue) st)
      as (s2 & E2 & T2 & I2 & _)
  end.
  simpl in T2, I2.
  rewrite !bind_bind, (bind_ret _ _ _ _ _ E2).
  match goal with |- context [notify_message_complete ?i ?c] =>
    destruct (notify_message_complete_fires i c s2) as (completion & E3 & facts)
  end.
  rewrite !bind_bind, (bind_ret _ _ _ _ _ E3).
  match goal with |- context [bind (update_checksums _ _ _ _) _ ?st] =>
    destruct (Hupdate st) as (s4 & E4 & T4);
      [unfold pending_ids in *; simpl in *; congruence |];
      assert (T3 : trace st = trace s ++ [EvMillis; EvPingerMessageReceived; completion])
        by (unfold add_event, add_log; simpl; rewrite T2, T1, <- app_assoc;
            reflexivity)
  end.
  rewrite (bind_ret _ _ _ _ _ E4).
  match goal with |- context [final_state (bind ?m ?k s4)] =>
    assert (Hd : emits (fun e => from_dispatch e = true) (bind m k)) end.
  { apply emits_bind; [apply dispatch_calls; auto |].
    intros e. apply returns_emits, returns_ret. }
  destruct (Hd s4) as (rest & T5 & F5 & _).
  exists completion, rest. split; [| split; [| exact F5]].
  - destruct facts as (F2 & F4' & F5' & Fo).
    match type of F2 with ?x = 2 -> _ =>
      destruct (Z.eq_dec x 2) as [e2 | n2];
        [rewrite (F2 e2); reflexivity |];
      destruct (Z.eq_dec x 4) as [e4 | n4];
        [rewrite (F4' e4); reflexivity |];
      destruct (Z.eq_dec x 5) as [e5 | n5];
        [rewrite (F5' e5); reflexivity |];
      rewrite (Fo n2 n4 n5); reflexivity
    end.
  - apply new_events_spec. rewrite T5, T4, T3, <- !app_assoc. reflexivity.
Qed.

Lemma update_checksums_quiet (type : CoAPType.Enum) (msg_id : Z) (s : Protocol) :
  type = CoAPType.RESET \/ app_state_selector_info W = None ->
  exists s', update_checksums D W type msg_id s = Ret tt s' /\ trace s' = trace s ++ [].
Proof.
  intros H.
  assert (Hp : forall selector s0, persist_describe_crc W type selector s0 = Ret tt s0).
  { intros. unfold persist_describe_crc.
    destruct H as [-> | ->]; [destruct (app_state_selector_info W) |]; reflexivity. }
  assert (Hs : forall s0, when (CoAPType.eqb type CoAPType.ACK)
                               (update_subscription_crc W) s0 = Ret tt s0).
  { intros. unfold update_subscription_crc.
    destruct H as [-> | ->]; [| destruct (CoAPType.eqb type CoAPType.ACK)];
      reflexivity. }
  unfold update_checksums, when at 1 2 3. step. unfold get at 1.
  destruct (msg_id =? app_describe_msg_id s);
    repeat first [ rewrite bind_bind | rewrite (bind_ret _ _ _ _ _ (Hp _ _))
                 | rewrite Hs
                 | peel; unfold get; simpl ];
    destruct (msg_id =? system_describe_msg_id s);
    repeat first [ rewrite bind_bind | rewrite (bind_ret _ _ _ _ _ (Hp _ _))
                 | rewrite Hs
                 | peel; unfold get; simpl ];
    destruct (msg_id =? subscriptions_msg_id s);
    repeat first [ rewrite bind_bind | rewrite (bind_ret _ _ _ _ _ (Hp _ _))
                 | rewrite Hs
                 | peel; unfold get; simpl ];
    eexists; (split; [reflexivity |]); simpl; rewrite app_nil_r; reflexivity.
Qed.

(** X8: On a RESET, and on an ACK when the descriptor has no
    [app_state_selector_info], the reply phase makes the completion call and
    nothing else: no session command, no selector call and no checksum
    computation follow it (lines 88, 97, 106 and 303). *)
Theorem reply_without_persisting (message : Message) (s : Protocol) :
  let queue := m_buf message in
  CoAP_type C queue = CoAPType.RESET
  \/ (CoAP_type C queue = CoAPType.ACK /\ app_state_selector_info W = None) ->
  exists completion rest,
    is_completion completion = true
    /\ new_events s (final_state (handle_received_message D C W message s))
       = [EvMillis; EvPingerMessageReceived; completion] ++ rest
    /\ Forall (fun e => from_dispatch e = true) rest.
Proof.
  intros queue H.
  destruct (received_reply message s (fun _ => [])) as (completion & rest & R).
  - fold queue. destruct H as [-> | [-> _]]; reflexivity.
  - intros s1 _. apply update_checksums_quiet. fold queue. tauto.
  - exists completion, rest. exact R.
Qed.


Ltac checksum_step :=
  first [ rewrite bind_bind
        | peel; unfold get, call, add_event; simpl ].

(** X9: When one message id is pending for both the
    application and the system description (a describe message that carried
    both), its ACK persists the application checksum and then the system
    checksum, each between SAVE_SESSION and LOAD_SESSION, right after the
    completion call (lines 86 to 103). *)
Theorem default_describe_acknowledged (message : Message) (s : Protocol) f :
  let queue := m_buf message in
  let msg_id := CoAP_message_id C queue in
  app_state_selector_info W = Some f ->
  CoAP_type C queue = CoAPType.ACK ->
  msg_id = app_describe_msg_id s ->
  msg_id = system_describe_msg_id s ->
  msg_id <> subscriptions_msg_id s ->
  exists completion rest,
    is_completion completion = true
    /\ new_events s (final_state (handle_received_message D C W message s))
       = [EvMillis; EvPingerMessageReceived; completion]
         ++ [EvCommand Channel.SAVE_SESSION;
             EvAppStateSelectorInfo SparkAppStateSelector.DESCRIBE_APP
                                    SparkAppStateUpdate.COMPUTE_AND_PERSIST 0;
             EvCommand Channel.LOAD_SESSION;
             EvCommand Channel.SAVE_SESSION;
             EvAppStateSelectorInfo SparkAppStateSelector.DESCRIBE_SYSTEM
                                    SparkAppStateUpdate.COMPUTE_AND_PERSIST 0;
             EvCommand Channel.LOAD_SESSION]
         ++ rest
    /\ Forall (fun e => from_dispatch e = true) rest.
Proof.
  intros queue msg_id Hsel Htype Happ Hsys Hsubs.
  apply (received_reply message s (fun _ => _)).
  - fold queue. rewrite Htype. reflexivity.
  - intros s1 I1. fold queue msg_id. rewrite Htype.
    unfold pending_ids in I1. injection I1 as A1 S1 U1.
    unfold update_checksums, persist_describe_crc, when, channel_command,
      selector_info.
    rewrite Hsel. simpl CoAPType.eqb. cbv iota.
    step. unfold get at 1. rewrite A1, <- Happ, Z.eqb_refl.
    repeat checksum_step. rewrite S1, <- Hsys, Z.eqb_refl.
    repeat checksum_step. rewrite U1.
    destruct (Z.eqb_spec msg_id (subscriptions_msg_id s)) as [e | _];
      [contradiction |].
    eexists. split; [reflexivity |]. simpl. rewrite <- !app_assoc. reflexivity.
Qed.

(** X10: The ACK of the pending subscriptions message computes
    the subscriptions checksum first and then persists that value between
    SAVE_SESSION and LOAD_SESSION, right after the completion call (lines 104
    to 108 and 301 to 310). *)
Theorem subscriptions_acknowledged (message : Message) (s : Protocol) f :
  let queue := m_buf message in
  let msg_id := CoAP_message_id C queue in
  app_state_selector_info W = Some f ->
  CoAP_type C queue = CoAPType.ACK ->
  msg_id = subscriptions_msg_id s ->
  msg_id <> app_describe_msg_id s ->
  msg_id <> system_describe_msg_id s ->
  exists completion rest,
    let h := trace s ++ [EvMillis; EvPingerMessageReceived; completion] in
    is_completion completion = true
    /\ new_events s (final_state (handle_received_message D C W message s))
       = [EvMillis; EvPingerMessageReceived; completion]
         ++ [EvComputeSubscriptionsChecksum;
             EvCommand Channel.SAVE_SESSION;
             EvAppStateSelectorInfo SparkAppStateSelector.SUBSCRIPTIONS
                                    SparkAppStateUpdate.PERSIST
                                    (compute_subscriptions_checksum W h);
             EvCommand Channel.LOAD_SESSION]
         ++ rest
    /\ Forall (fun e => from_dispatch e = true) rest.
Proof.
  intros queue msg_id Hsel Htype Hsubs Happ Hsys.
  apply (received_reply message s
           (fun h => [EvComputeSubscriptionsChecksum;
                      EvCommand Channel.SAVE_SESSION;
                      EvAppStateSelectorInfo SparkAppStateSelector.SUBSCRIPTIONS
                        SparkAppStateUpdate.PERSIST
                        (compute_subscriptions_checksum W h);
                      EvCommand Channel.LOAD_SESSION])).
  - fold queue. rewrite Htype. reflexivity.
  - intros s1 I1. fold queue msg_id. rewrite Htype.
    unfold pending_ids in I1. injection I1 as A1 S1 U1.
    unfold update_checksums, update_subscription_crc, when, channel_command,
      selector_info.
    rewrite Hsel. simpl CoAPType.eqb. cbv iota.
    step. unfold get at 1. rewrite A1.
    destruct (Z.eqb_spec msg_id (app_describe_msg_id s)) as [e | _];
      [contradiction |].
    repeat checksum_step. rewrite S1.
    destruct (Z.eqb_spec msg_id (system_describe_msg_id s)) as [e | _];
      [contradiction |].
    repeat checksum_step. rewrite U1, <- Hsubs, Z.eqb_refl.
    repeat checksum_step.
    eexists. split; [reflexivity |]. simpl. rewrite <- !app_assoc. reflexivity.
Qed.

End Reply_phase.

(** * The acknowledgement of the system description *)

Section System_describe_ack.
Variable D : Defs.
Variable C : Codec.
Variable W : World.

(** A reply that persists nothing: the completion is its only call. *)
Lemma handle_reply_quiet (type : CoAPType.Enum) (code msg_id : Z) (s : Protocol) :
  type = CoAPType.RESET \/ app_state_selector_info W = None ->
  exists completion s',
    handle_reply D W type code msg_id s = Ret tt s'
    /\ trace s' = trace s ++ [completion]
    /\ is_completion completion = true.
Proof.
  intros H. unfold handle_reply. peel.
  match goal with |- context [bind _ _ ?st] =>
    destruct (reply_code_returns D type code st) as (s2 & E2 & T2 & _)
  end.
  simpl in T2. rewrite (bind_ret _ _ _ _ _ E2).
  match goal with |- context [notify_message_complete ?i ?c] =>
    destruct (notify_message_complete_fires i c s2) as (completion & E3 & facts)
  end.
  rewrite (bind_ret _ _ _ _ _ E3).
  match goal with |- context [update_checksums _ _ _ _ ?st] =>
    destruct (update_checksums_quiet D W type msg_id st H) as (s' & E & T)
  end.
  exists completion, s'. split; [exact E |]. split.
  - rewrite T, app_nil_r. simpl. rewrite T2. reflexivity.
  - destruct facts as (F2 & F4 & F5 & Fo).
    match type of F2 with ?x = 2 -> _ =>
      destruct (Z.eq_dec x 2) as [e2 | n2];
        [rewrite (F2 e2); reflexivity |];
      destruct (Z.eq_dec x 4) as [e4 | n4];
        [rewrite (F4 e4); reflexivity |];
      destruct (Z.eq_dec x 5) as [e5 | n5];
        [rewrite (F5 e5); reflexivity |];
      rewrite (Fo n2 n4 n5); reflexivity
    end.
Qed.

Lemma from_dispatch_not_persisting (evs : list Event) :
  Forall (fun e => from_dispatch e = true) evs ->
  count (is_command Channel.SAVE_SESSION) evs = 0%nat
  /\ count (is_command Channel.LOAD_SESSION) evs = 0%nat
  /\ count is_selector_call evs = 0%nat.
Proof.
  intros F. repeat split; apply count_none; (eapply Forall_impl; [| exact F]);
    intros e He; destruct e; try discriminate; try reflexivity;
    match goal with c : Channel.Command |- _ => destruct c end;
    try discriminate; reflexivity.
Qed.

(** C2, as amended: a received ACK whose id is the pending
    [system_describe_msg_id] clears that id to INVALID_MESSAGE_HANDLE, whether
    or not the descriptor has an [app_state_selector_info] callback; with the
    callback it commands SAVE_SESSION, calls the callback with DESCRIBE_SYSTEM
    and COMPUTE_AND_PERSIST, and commands LOAD_SESSION, in that order; without
    it the whole run commands neither SAVE_SESSION nor LOAD_SESSION and calls
    no selector; the message is then dispatched, and unless it is dispatched
    as a DESCRIBE request the id is still cleared at the end. *)
Theorem system_describe_acknowledged (message : Message) (s : Protocol) :
  let queue := m_buf message in
  let message_type := decodeType C queue (m_length message) in
  let len := fst (CoAP_token C queue) in
  let token_len :=
    if ((0 <? len)%nat && negb (len =? sizeof_token_t)%nat)%bool
    then 0%nat else len in
  let done := final_state (handle_received_message D C W message s) in
  CoAP_type C queue = CoAPType.ACK ->
  CoAP_message_id C queue = system_describe_msg_id s ->
  exists cleared pre post more,
    handle_received_message D C W message s
    = (error <- dispatch D C W message message_type (snd (CoAP_token C queue))
                         token_len (CoAP_message_id C queue) ;;
       ret (message_type, error)) cleared
    /\ system_describe_msg_id cleared = INVALID_MESSAGE_HANDLE D
    /\ new_events s cleared = pre ++ system_envelope W ++ post
    /\ new_events s done = pre ++ system_envelope W ++ post ++ more
    /\ (message_type <> CoAPMessageType.DESCRIBE ->
        system_describe_msg_id done = INVALID_MESSAGE_HANDLE D)
    /\ (app_state_selector_info W = None ->
        count (is_command Channel.SAVE_SESSION) (new_events s done) = 0%nat
        /\ count (is_command Channel.LOAD_SESSION) (new_events s done) = 0%nat
        /\ count is_selector_call (new_events s done) = 0%nat).
Proof.
  intros queue message_type len token_len done Htype Hid. subst done.
  rewrite handle_received_message_phases.
  fold queue message_type len token_len.
  set (s1 := after_receipt W s _).
  assert (T1 : trace s1 = trace s ++ [EvMillis; EvPingerMessageReceived])
    by reflexivity.
  assert (I1 : system_describe_msg_id s1 = system_describe_msg_id s)
    by reflexivity.
  clearbody s1.
  rewrite Htype. simpl CoAPType.is_reply. cbv iota.
  match goal with |- context [bind _ ?k _] =>
    assert (Hd : emits (fun e => from_dispatch e = true) (k tt));
    [| assert (Hk : message_type <> CoAPMessageType.DESCRIBE ->
                    keeps_system_id (k tt)) ]
  end.
  { apply emits_bind; [apply dispatch_calls; auto |].
    intros e. apply returns_emits, returns_ret. }
  { intros H. apply keeps_bind; [apply dispatch_keeps_system_id; exact H |].
    intros e s0. reflexivity. }
  unfold system_envelope.
  destruct (app_state_selector_info W) as [f |] eqn:Hsel.
  - destruct (handle_reply_system D W (CoAP_code C queue) (CoAP_message_id C queue)
                s1 f Hsel (eq_trans Hid (eq_sym I1)))
      as (cleared & pre & post & E & T & I).
    rewrite (bind_ret _ _ _ _ _ E).
    destruct (Hd cleared) as (more & T4 & _).
    exists cleared, ([EvMillis; EvPingerMessageReceived] ++ pre), post, more.
    split; [reflexivity |]. split; [exact I |]. split; [| split; [| split]].
    + apply new_events_spec. rewrite T, T1, <- !app_assoc. reflexivity.
    + apply new_events_spec. rewrite T4, T, T1, <- !app_assoc. reflexivity.
    + intros H. rewrite (Hk H cleared). exact I.
    + discriminate.
  - destruct (handle_reply_quiet CoAPType.ACK (CoAP_code C queue)
                (CoAP_message_id C queue) s1 (or_intror Hsel))
      as (completion & cleared & E & T & Hc).
    destruct (handle_reply_ids D W CoAPType.ACK (CoAP_code C queue)
                (CoAP_message_id C queue) s1) as (cleared' & E' & I & _).
    rewrite E in E'. injection E' as <-.
    assert (Hi : system_describe_msg_id cleared = INVALID_MESSAGE_HANDLE D).
    { unfold pending_ids in I. injection I as _ I _. rewrite I.
      unfold after_reply. rewrite Hid, I1, Z.eqb_refl. reflexivity. }
    rewrite (bind_ret _ _ _ _ _ E).
    destruct (Hd cleared) as (more & T4 & F4 & _).
    exists cleared, [EvMillis; EvPingerMessageReceived; completion], [], more.
    split; [reflexivity |]. split; [exact Hi |]. split; [| split; [| split]].
    + apply new_events_spec. rewrite T, T1, <- !app_assoc. reflexivity.
    + apply new_events_spec. rewrite T4, T, T1, <- !app_assoc. reflexivity.
    + intros H. rewrite (Hk H cleared). exact Hi.
    + intros _.
      rewrite (new_events_spec s _ ([EvMillis; EvPingerMessageReceived; completion]
                                    ++ more))
        by (rewrite T4, T, T1, <- !app_assoc; reflexivity).
      destruct (from_dispatch_not_persisting more F4) as (N1 & N2 & N3).
      rewrite !count_app, N1, N2, N3.
      destruct completion; try discriminate; auto.
Qed.

End System_describe_ack.

Lemma system_describe_acknowledged_witness :
  let C := Sample.codec CoAPMessageType.NONE in
  let message := Sample.empty_ack_4660 in
  let s := Sample.awaiting_system_describe 4660 in
  let done := final_state (handle_received_message Sample.defs C Sample.calm message s) in
  exists cleared pre post more,
    handle_received_message Sample.defs C Sample.calm message s
    = (error <- dispatch Sample.defs C Sample.calm message CoAPMessageType.NONE
                         (snd (CoAP_token C (m_buf message))) 0
                         (CoAP_message_id C (m_buf message)) ;;
       ret (CoAPMessageType.NONE, error)) cleared
    /\ system_describe_msg_id cleared = INVALID_MESSAGE_HANDLE Sample.defs
    /\ new_events s cleared = pre ++ envelope_system ++ post
    /\ new_events s done = pre ++ envelope_system ++ post ++ more
    /\ (CoAPMessageType.NONE <> CoAPMessageType.DESCRIBE ->
        system_describe_msg_id done = INVALID_MESSAGE_HANDLE Sample.defs)
    /\ (app_state_selector_info Sample.calm = None ->
        count (is_command Channel.SAVE_SESSION) (new_events s done) = 0%nat
        /\ count (is_command Channel.LOAD_SESSION) (new_events s done) = 0%nat
        /\ count is_selector_call (new_events s done) = 0%nat).
Proof.
  apply (system_describe_acknowledged Sample.defs
           (Sample.codec CoAPMessageType.NONE) Sample.calm Sample.empty_ack_4660
           (Sample.awaiting_system_describe 4660));
    reflexivity.
Defined.

(** Without the callback the id is cleared, and nothing is saved, persisted
    or loaded. *)
Lemma system_describe_ack_without_callback :
  let C := Sample.codec CoAPMessageType.NONE in
  let message := Sample.empty_ack_4660 in
  let s := Sample.awaiting_system_describe 4660 in
  let done :=
    final_state (handle_received_message Sample.defs C Sample.without_selector
                   message s) in
  CoAP_type C (m_buf message) = CoAPType.ACK
  /\ CoAP_message_id C (m_buf message) = system_describe_msg_id s
  /\ new_events s done
     = [EvMillis; EvPingerMessageReceived;
        EvAckHandlersSetError 4660 SYSTEM_ERROR_COAP]
  /\ ~ In (EvCommand Channel.SAVE_SESSION) (new_events s done)
  /\ system_describe_msg_id done = INVALID_MESSAGE_HANDLE Sample.defs.
Proof.
  repeat split; try reflexivity.
  vm_compute. intros [H | [H | [H | []]]]; discriminate.
Qed.

(** * The event loop *)

Lemma from_receipt_not_cancel (evs : list Event) :
  Forall (fun e => from_receipt e = true) evs ->
  count is_cancel evs = 0%nat /\ count is_receive evs = 0%nat.
Proof.
  intros F. split; apply count_none; (eapply Forall_impl; [| exact F]);
    intros e He; destruct e; try discriminate; reflexivity.
Qed.

Section Event_loop.
Variable D : Defs.
Variable C : Codec.
Variable W : World.

Lemma event_loop_run (s : Protocol) :
  let t := millis W (trace s) in
  let done := final_state (event_loop D C W s) in
  exists rest,
    new_events s done
    = [EvMillis; EvAckHandlersUpdate (to_uint32 (t - last_ack_handlers_update s));
       EvReceive] ++ rest
    /\ count is_receive rest = 0%nat
    /\ last_ack_handlers_update done = t
    /\ count is_cancel rest
       = match result_of (event_loop D C W s) with
         | Some (_, error) => if is_error error then 1%nat else 0%nat
         | None => 0%nat
         end
    /\ (count is_cancel rest = 1%nat ->
        exists before, rest = before ++ [EvChunkedTransferCancel]).
Proof.
  intros t done. subst done.
  remember (event_loop D C W s) as o eqn:Ho. revert Ho.
  unfold event_loop, callbacks_millis, notify.
  do 4 step. unfold call at 1. step.
  match goal with |- context [receive W ?h] =>
    destruct (receive W h) as [error message] end.
  destruct (is_error error) eqn:Herror; simpl negb; cbv iota.
  - step. cbv beta iota. rewrite Herror. unfold notify, call. do 2 step.
    intros ->. exists [EvChunkedTransferCancel]. unfold ret; cbn [result_of final_state]. rewrite Herror.
    split; [apply new_events_spec; simpl; rewrite <- !app_assoc; reflexivity |].
    repeat split; auto. intros _. exists []. reflexivity.
  - destruct (m_length message =? 0)%nat; simpl negb; cbv iota.
    + unfold call at 1. do 2 step.
      match goal with |- context [event_loop_idle W ?h] =>
        destruct (event_loop_idle W h) as [] eqn:Hidle end;
        simpl is_error; cbv iota;
        try (unfold notify, call; do 2 step);
        intros ->;
        [ exists [EvEventLoopIdle]
        | exists [EvEventLoopIdle; EvChunkedTransferCancel] .. ];
        unfold ret; cbn [result_of final_state is_error negb ProtocolError_eqb];
        (split; [apply new_events_spec; simpl; rewrite <- !app_assoc; reflexivity |]);
        repeat split; auto; try discriminate;
        intros _; exists [EvEventLoopIdle]; reflexivity.
    + match goal with |- context [bind _ _ ?st] =>
        set (s2 := st);
        assert (T2 : trace s2
                     = trace s ++ [EvMillis;
                                   EvAckHandlersUpdate
                                     (to_uint32 (t - last_ack_handlers_update s));
                                   EvReceive])
          by (simpl; rewrite <- !app_assoc; reflexivity);
        assert (A2 : last_ack_handlers_update s2 = t) by reflexivity;
        clearbody s2
      end.
      destruct (handle_received_message_receipt D C W
                  (fun e => from_receipt e = true) message (fun e H => H) s2)
        as (evs & T & F & _).
      pose proof (handle_received_message_keeps_ack_clock D C W message s2) as K.
      destruct (from_receipt_not_cancel evs F) as [Nc Nr].
      rewrite !bind_bind.
      destruct (handle_received_message D C W message s2)
        as [[message_type e] s3 | why s3] eqn:E; simpl in T, K.
      * rewrite (bind_ret _ _ _ _ _ E). do 2 step. cbv beta iota.
        destruct (is_error e) eqn:He.
        -- unfold notify, call. do 2 step. intros ->.
           exists (evs ++ [EvChunkedTransferCancel]). unfold ret; cbn [result_of final_state]. rewrite He.
           split; [apply new_events_spec; simpl;
                   rewrite T, T2, <- !app_assoc; reflexivity |].
           cbn [last_ack_handlers_update add_event add_log final_state].
           rewrite !count_app, Nc, Nr, K, A2. repeat split; auto.
           intros _. exists evs. reflexivity.
        -- intros ->. exists evs. unfold ret; cbn [result_of final_state]. rewrite He.
           split; [apply new_events_spec; simpl;
                   rewrite T, T2, <- !app_assoc; reflexivity |].
           cbn [last_ack_handlers_update add_event add_log final_state].
           rewrite Nc, Nr, K, A2. repeat split; auto. discriminate.
      * unfold bind at 1. rewrite E. intros ->. exists evs. simpl.
        split; [apply new_events_spec; rewrite T, T2, <- !app_assoc; reflexivity |].
        rewrite Nc, Nr, K, A2. repeat split; auto. discriminate.
Qed.


(** X11: One round of [event_loop] (lines 480 to 511) reads the
    clock, reports the time since the last round to the ack handlers, stores
    the reading in [last_ack_handlers_update] and receives exactly once; the
    chunked transfer is cancelled exactly when the round returns an error, and
    the cancellation is then the last call. *)
Theorem event_loop_round (s : Protocol) :
  let t := millis W (trace s) in
  let done := final_state (event_loop D C W s) in
  exists rest,
    new_events s done
    = [EvMillis; EvAckHandlersUpdate (to_uint32 (t - last_ack_handlers_update s));
       EvReceive] ++ rest
    /\ count is_receive rest = 0%nat
    /\ last_ack_handlers_update done = t
    /\ count is_cancel rest
       = match result_of (event_loop D C W s) with
         | Some (_, error) => if is_error error then 1%nat else 0%nat
         | None => 0%nat
         end
    /\ (count is_cancel rest = 1%nat ->
        exists before, rest = before ++ [EvChunkedTransferCancel]).
Proof.
  exact (event_loop_run s).
Qed.

(** X12: When [receive] fails, or delivers a message of
    length 0, the round handles no message (lines 489 to 510): the type is
    NONE, the error is the one of [receive], or else the one of
    [event_loop_idle], which runs only when [receive] succeeded; when
    [receive] failed the pending ids and [last_message_millis] are as
    before. *)
Theorem event_loop_without_message (s : Protocol) :
  let t := millis W (trace s) in
  let update := EvAckHandlersUpdate (to_uint32 (t - last_ack_handlers_update s)) in
  let received := receive W (trace s ++ [EvMillis; update]) in
  let error :=
    if is_error (fst received) then fst received
    else event_loop_idle W (trace s ++ [EvMillis; update; EvReceive]) in
  is_error (fst received) = true \/ m_length (snd received) = 0%nat ->
  exists s',
    event_loop D C W s = Ret (CoAPMessageType.NONE, error) s'
    /\ new_events s s'
       = [EvMillis; update; EvReceive]
         ++ (if is_error (fst received) then [] else [EvEventLoopIdle])
         ++ (if is_error error then [EvChunkedTransferCancel] else [])
    /\ (is_error (fst received) = true ->
        pending_ids s' = pending_ids s
        /\ last_message_millis s' = last_message_millis s).
Proof.
  intros t update received error H. subst error.
  unfold event_loop, callbacks_millis, notify.
  do 4 step. unfold call at 1. step.
  replace (trace _) with (trace s ++ [EvMillis; update])
    by (simpl; rewrite <- !app_assoc; reflexivity).
  fold received. destruct received as [error message]. simpl fst in *. simpl snd in *.
  destruct (is_error error) eqn:Herror; simpl negb; cbv iota.
  - step. cbv beta iota. rewrite Herror. unfold notify, call. do 2 step.
    eexists. split; [reflexivity |].
    split; [apply new_events_spec; simpl; rewrite <- !app_assoc; reflexivity |].
    intros _. split; reflexivity.
  - destruct H as [H | H]; [discriminate |]. rewrite H. simpl negb. cbv iota.
    unfold call at 1. do 2 step.
    replace (trace _) with (trace s ++ [EvMillis; update; EvReceive])
      by (simpl; rewrite <- !app_assoc; reflexivity).
    destruct (is_error (event_loop_idle W _)) eqn:Hidle.
    + unfold notify, call. do 2 step.
      eexists. split; [reflexivity |].
      split; [apply new_events_spec; simpl; rewrite <- !app_assoc; reflexivity |].
      discriminate.
    + eexists. split; [reflexivity |].
      split; [apply new_events_spec; simpl; rewrite <- !app_assoc; reflexivity |].
      discriminate.
Qed.


Lemma CoAPMessageType_eqb_eq (a b : CoAPMessageType.Enum) :
  CoAPMessageType.eqb a b = true -> a = b.
Proof.
  destruct a, b; simpl; intros H; first [reflexivity | discriminate].
Qed.

(** A round that returns has received once. *)
Lemma event_loop_returned (s s' : Protocol) r :
  event_loop D C W s = Ret r s' ->
  exists evs, trace s' = trace s ++ evs /\ count is_receive evs = 1%nat.
Proof.
  intros E. destruct (event_loop_run s) as (rest & N & R & _).
  rewrite E in N. simpl in N. unfold new_events in N.
  destruct (event_loop_enveloped D C W s) as (evs & T & _).
  rewrite E in T. simpl in T. rewrite T in N.
  assert (Hs : skipn (List.length (trace s)) (trace s ++ evs) = evs).
  { clear. induction (trace s); simpl; auto. }
  rewrite Hs in N. exists evs. split; [exact T |]. rewrite N.
  unfold count in *. simpl. rewrite R. reflexivity.
Qed.

Lemma event_loop_rounds_outcome (fuel : nat) (message_type : CoAPMessageType.Enum)
    (timeout start : Z) (s s' : Protocol) (r : ProtocolError) :
  event_loop_rounds D C W fuel message_type timeout start s = Ret r s' ->
  (exists evs, trace s' = trace s ++ evs /\ (1 <= count is_receive evs)%nat)
  /\ (r = NO_ERROR ->
      exists s0, event_loop D C W s0 = Ret (message_type, NO_ERROR) s').
Proof.
  revert s. induction fuel as [| fuel IH]; intros s; simpl; [discriminate |].
  unfold bind at 1.
  destruct (event_loop D C W s) as [[msgtype error] s1 | why s1] eqn:E;
    [| discriminate].
  destruct (event_loop_returned s s1 _ E) as (evs & T & N).
  destruct (is_error error) eqn:Herror.
  - do 1 step. intros H. injection H as <- <-. split.
    + exists evs. split; [exact T |]. rewrite N. auto.
    + intros ->. discriminate.
  - destruct (CoAPMessageType.eqb msgtype message_type) eqn:Hmt.
    + intros H. injection H as <- <-. split.
      * exists evs. split; [exact T |]. rewrite N. auto.
      * intros _. exists s. rewrite E.
        apply CoAPMessageType_eqb_eq in Hmt. subst msgtype.
        destruct error; try discriminate. reflexivity.
    + unfold callbacks_millis, call at 1. step.
      destruct (to_uint32 _ <? timeout).
      * intros H. destruct (IH _ H) as ((evs' & T' & N') & R). split; [| exact R].
        exists (evs ++ EvMillis :: evs'). split.
        -- rewrite T'. simpl. rewrite T, <- !app_assoc. reflexivity.
        -- rewrite count_app, N. lia.
      * intros H. injection H as <- <-. split; [| discriminate].
        exists (evs ++ [EvMillis]). split.
        -- simpl. rewrite T, <- app_assoc. reflexivity.
        -- rewrite count_app, N. lia.
Qed.

(** X13: When the wait for a message type returns (lines 455 to
    474), it has received at least once, and it returns NO_ERROR only from a
    round that handled a message of the awaited type without error. *)
Theorem event_loop_wait_outcome (fuel : nat) (message_type : CoAPMessageType.Enum)
    (timeout : Z) (s s' : Protocol) (r : ProtocolError) :
  event_loop_wait D C W fuel message_type timeout s = Ret r s' ->
  (1 <= count is_receive (new_events s s'))%nat
  /\ (r = NO_ERROR ->
      exists s0, event_loop D C W s0 = Ret (message_type, NO_ERROR) s').
Proof.
  unfold event_loop_wait, callbacks_millis, call. do 2 step. intros H.
  destruct (event_loop_rounds_outcome _ _ _ _ _ _ _ H) as ((evs & T & N) & R).
  split; [| exact R].
  rewrite (new_events_spec s s' (EvMillis :: evs)).
  - unfold count in *. simpl. exact N.
  - rewrite T. simpl. rewrite <- app_assoc. reflexivity.
Qed.

(** X14: With a timeout of 0 the body of the do-while still runs
    once (lines 460 to 473): there is exactly one receive, and the result is
    the error of the round, NO_ERROR when the round handled the awaited type,
    and MESSAGE_TIMEOUT otherwise. *)
Theorem event_loop_wait_once (fuel : nat) (message_type : CoAPMessageType.Enum)
    (s : Protocol) :
  let waiting :=
    add_log (Build_LogEntry LOG_INFO "waiting %d seconds for message type=%d"
               [ArgInt 0; ArgMessageType message_type])
            (add_event EvMillis s) in
  let done := event_loop_wait D C W (S fuel) message_type 0 s in
  count is_receive (new_events s (final_state done)) = 1%nat
  /\ result_of done
     = match result_of (event_loop D C W waiting) with
       | Some (msgtype, error) =>
           Some (if is_error error then error
                 else if CoAPMessageType.eqb msgtype message_type then NO_ERROR
                 else MESSAGE_TIMEOUT)
       | None => None
       end.
Proof.
  intros waiting done. subst done.
  remember (event_loop_wait D C W (S fuel) message_type 0 s) as o eqn:Ho.
  revert Ho.
  unfold event_loop_wait, callbacks_millis, call. do 2 step.
  change (0 / 1000) with 0. fold waiting.
  assert (Tw : trace waiting = trace s ++ [EvMillis]) by reflexivity.
  clearbody waiting. cbn [event_loop_rounds].
  destruct (event_loop_run waiting) as (rest & N & R & _).
  destruct (event_loop_enveloped D C W waiting) as (evs & T & _).
  assert (Hs : new_events waiting (final_state (event_loop D C W waiting)) = evs)
    by (apply new_events_spec; exact T).
  rewrite Hs in N.
  assert (N1 : count is_receive evs = 1%nat)
    by (rewrite N; unfold count in *; simpl; rewrite R; reflexivity).
  clear N R Hs rest. unfold bind at 1.
  destruct (event_loop D C W waiting) as [[msgtype error] s1 | why s1];
    simpl in T; cbn [result_of].
  - destruct (is_error error).
    + do 1 step. intros ->. unfold ret. cbn [result_of final_state].
      split; [| reflexivity].
      rewrite (new_events_spec s _ (EvMillis :: evs)); [exact N1 |].
      simpl. rewrite T, Tw, <- app_assoc. reflexivity.
    + destruct (CoAPMessageType.eqb msgtype message_type).
      * intros ->. unfold ret. cbn [result_of final_state]. split; [| reflexivity].
        rewrite (new_events_spec s _ (EvMillis :: evs)); [exact N1 |].
        rewrite T, Tw, <- app_assoc. reflexivity.
      * unfold callbacks_millis, call at 1. do 1 step.
        assert (Hlt : forall z, (to_uint32 z <? 0) = false).
        { intros z. apply Z.ltb_ge. unfold to_uint32.
          apply Z.mod_pos_bound. reflexivity. }
        rewrite Hlt. intros ->. unfold ret. cbn [result_of final_state].
        split; [| reflexivity].
        rewrite (new_events_spec s _ (EvMillis :: evs ++ [EvMillis])).
        -- unfold count in *. simpl. rewrite filter_app, length_app. simpl.
           rewrite N1. reflexivity.
        -- simpl. rewrite T, Tw, <- !app_assoc. reflexivity.
  - intros ->. cbn [final_state result_of]. split; [| reflexivity].
    rewrite (new_events_spec s _ (EvMillis :: evs)); [exact N1 |].
    rewrite T, Tw, <- app_assoc. reflexivity.
Qed.

End Event_loop.

(** * More on the handshake *)

Lemma small_bits (flags i : Z) :
  0 <= flags < 64 -> 6 <= i -> Z.testbit flags i = false.
Proof.
  intros Hf Hi. destruct (Z.eq_dec flags 0) as [-> | Hn].
  - apply Z.testbit_0_l.
  - apply Z.bits_above_log2; [lia |].
    assert (Z.log2 flags < 6) by (apply Z.log2_lt_pow2; lia). lia.
Qed.

Section Handshake_more.
Variable D : Defs.
Variable C : Codec.
Variable W : World.

Lemma hello_run (ota : bool) (s : Protocol) :
  exists hello_flags s',
    let created := snd (create W (trace s)) in
    let built := build_hello C created hello_flags in
    let message := set_confirm_received (set_length (fst built) (snd built)) true in
    hello D C W ota s = Ret (fst (send W (trace s ++ [EvCreate; EvMillis]) message)) s'
    /\ trace s' = trace s ++ [EvCreate; EvMillis; EvSend message]
    /\ last_message_millis s' = millis W (trace s ++ [EvCreate])
    /\ protocol_flags s' = protocol_flags s
    /\ pending_ids s' = pending_ids s
    /\ last_ack_handlers_update s' = last_ack_handlers_update s
    /\ Z.testbit hello_flags 0 = ota
    /\ Z.testbit hello_flags 1 = true
    /\ Z.testbit hello_flags 2 = true
    /\ Z.testbit hello_flags 5
       = has_flag (protocol_flags s) (DEVICE_INITIATED_DESCRIBE D)
    /\ (forall i, i <> 0 -> i <> 1 -> i <> 2 -> i <> 5 ->
        Z.testbit hello_flags i = false).
Proof.
  unfold hello, channel_create, callbacks_millis, channel_send.
  unfold call at 1. step.
  destruct (create W (trace s)) as [created_error created]. cbv beta iota.
  unfold get at 1. step. cbn [protocol_flags add_event]. simpl snd.
  match goal with |- context [build_hello C created ?f] => set (hello_flags := f) end.
  exists hello_flags.
  destruct (build_hello C created hello_flags) as [message len] eqn:Eb.
  cbv beta iota. unfold call at 1. do 2 step. unfold call at 1. step.
  simpl fst. simpl snd.
  replace (trace _) with (trace s ++ [EvCreate; EvMillis])
    by (simpl; rewrite <- !app_assoc; reflexivity).
  destruct (send W _ _) as [error sent] eqn:Es.
  eexists. split; [reflexivity |].
  split; [simpl; rewrite <- !app_assoc; reflexivity |].
  split; [reflexivity |]. split; [reflexivity |]. split; [reflexivity |].
  split; [reflexivity |].
  assert (Hb : forall i, i <> 0 -> i <> 1 -> i <> 2 -> i <> 5 ->
                 forall f, 0 <= f < 64 ->
                   Z.testbit f 3 = false -> Z.testbit f 4 = false ->
                   Z.testbit f i = false).
  { intros i H0 H1 H2 H5 f Hf H3 H4.
    destruct (Z_lt_le_dec i 0) as [Hneg | Hpos]; [apply Z.testbit_neg_r; exact Hneg |].
    destruct (Z_lt_le_dec i 6) as [Hlt | Hge]; [| apply small_bits; assumption].
    assert (Hi : i = 3 \/ i = 4) by lia. destruct Hi as [-> | ->]; assumption. }
  subst hello_flags.
  destruct ota; destruct (has_flag (protocol_flags s) (DEVICE_INITIATED_DESCRIBE D));
    (split; [reflexivity |]); (split; [reflexivity |]); (split; [reflexivity |]);
    (split; [reflexivity |]);
    intros i H0 H1 H2 H5; apply Hb; auto; vm_compute; intuition discriminate.
Qed.

(** X15: [hello] (lines 417 to 434) sends one message, built by
    [build_hello] on the created message with [confirm_received] set, whether
    or not [create] reported an error; in the flags byte the bits for
    diagnostics (1) and immediate updates (2) are always set, bit 0 is the OTA
    argument, bit 5 is set exactly when the protocol flags have
    DEVICE_INITIATED_DESCRIBE, and no other bit is set; [last_message_millis]
    is the clock read before the send. *)
Theorem hello_announces (ota : bool) (s : Protocol) :
  exists hello_flags s',
    let created := snd (create W (trace s)) in
    let built := build_hello C created hello_flags in
    let message := set_confirm_received (set_length (fst built) (snd built)) true in
    hello D C W ota s = Ret (fst (send W (trace s ++ [EvCreate; EvMillis]) message)) s'
    /\ new_events s s' = [EvCreate; EvMillis; EvSend message]
    /\ last_message_millis s' = millis W (trace s ++ [EvCreate])
    /\ Z.testbit hello_flags 0 = ota
    /\ Z.testbit hello_flags 1 = true
    /\ Z.testbit hello_flags 2 = true
    /\ Z.testbit hello_flags 5
       = has_flag (protocol_flags s) (DEVICE_INITIATED_DESCRIBE D)
    /\ (forall i, i <> 0 -> i <> 1 -> i <> 2 -> i <> 5 ->
        Z.testbit hello_flags i = false).
Proof.
  destruct (hello_run ota s)
    as (hello_flags & s' & E & T & L & _ & _ & _ & B).
  exists hello_flags, s'. cbv zeta in *.
  split; [exact E |]. split; [apply new_events_spec; exact T |].
  split; [exact L | exact B].
Qed.


(** X16: When [establish] answers an error other than
    SESSION_RESUMED, [begin] returns that error right away (lines 340 to 357):
    the only calls are the four resets, the clock and [establish], and the
    three pending ids are INVALID_MESSAGE_HANDLE. *)
Theorem begin_establish_fails (fuel : nat) (s : Protocol) :
  let reset := [EvChunkedTransferReset; EvPingerReset; EvTimesyncReset;
                EvAckHandlersClear] in
  let error := establish W (trace s ++ reset ++ [EvMillis]) in
  error <> NO_ERROR -> error <> SESSION_RESUMED ->
  exists s',
    begin D C W fuel s = Ret error s'
    /\ new_events s s' = establish_calls
    /\ pending_ids s'
       = (INVALID_MESSAGE_HANDLE D, INVALID_MESSAGE_HANDLE D, INVALID_MESSAGE_HANDLE D)
    /\ last_ack_handlers_update s' = millis W (trace s ++ reset).
Proof.
  intros reset error Hne Hnr.
  unfold begin. unfold notify, callbacks_millis.
  do 11 walk. rewrite <- !app_assoc. change (establish W _) with error.
  assert (H : (is_error error && negb (ProtocolError_eqb error SESSION_RESUMED))%bool
              = true).
  { clearbody error. destruct error; try reflexivity; congruence. }
  rewrite H. cbv iota. step. eexists. split; [reflexivity |].
  split; [apply new_events_spec; simpl; rewrite <- ?app_assoc; reflexivity |].
  split; reflexivity.
Qed.


(** [begin] on a new session, up to the call of [hello]. *)
Ltac to_hello Hest s :=
  unfold begin; unfold notify, callbacks_millis;
  do 11 walk; rewrite <- !app_assoc; cbn [app]; rewrite Hest;
  change (is_error NO_ERROR) with false;
  change (ProtocolError_eqb NO_ERROR SESSION_RESUMED) with false;
  change (false && negb false)%bool with false; cbv iota;
  step; cbv beta iota; step; unfold call at 1; step;
  match goal with |- context [bind (hello _ _ _ _) _ ?st] =>
    replace st with (hello_point D W s)
      by (unfold hello_point, establish_calls, add_log, add_event; simpl;
          rewrite <- !app_assoc; reflexivity)
  end;
  match goal with |- context [was_ota_upgrade_successful W ?h] =>
    replace h with (trace s ++ establish_calls)
      by (unfold establish_calls; simpl; rewrite <- ?app_assoc; reflexivity)
  end.

(** X17: On a new session, when the HELLO cannot be sent [begin]
    returns the error of [hello] and makes no call after it (lines 385 to
    391): the session is not announced as established. *)
Theorem begin_hello_fails (fuel : nat) (s s2 : Protocol) (error : ProtocolError) :
  establish W (trace s ++ [EvChunkedTransferReset; EvPingerReset; EvTimesyncReset;
                           EvAckHandlersClear; EvMillis]) = NO_ERROR ->
  hello D C W (was_ota_upgrade_successful W (trace s ++ establish_calls))
        (hello_point D W s) = Ret error s2 ->
  is_error error = true ->
  exists s',
    begin D C W fuel s = Ret error s'
    /\ trace s' = trace s2
    /\ pending_ids s'
       = (INVALID_MESSAGE_HANDLE D, INVALID_MESSAGE_HANDLE D, INVALID_MESSAGE_HANDLE D).
Proof.
  intros Hest Hhello Herror.
  destruct (hello_run (was_ota_upgrade_successful W (trace s ++ establish_calls))
              (hello_point D W s))
    as (hello_flags & s2' & E & _ & _ & _ & I & _).
  cbv zeta in E. rewrite Hhello in E. injection E as _ <-.
  to_hello Hest s.
  rewrite (bind_ret _ _ _ _ _ Hhello), Herror. step.
  eexists. split; [reflexivity |]. split; [reflexivity |]. exact I.
Qed.


Lemma update_protocol_flags_run (s : Protocol) :
  exists s',
    update_protocol_flags W s = Ret tt s'
    /\ trace s' = trace s ++ protocol_flags_calls W (protocol_flags s)
    /\ protocol_flags s' = protocol_flags s
    /\ pending_ids s' = pending_ids s.
Proof.
  unfold update_protocol_flags, protocol_flags_calls, channel_command, selector_info.
  destruct (app_state_selector_info W) as [f |].
  - unfold call at 1. step. unfold get at 1. step. unfold call. do 2 step.
    eexists. split; [reflexivity |]. simpl. rewrite <- !app_assoc. auto.
  - eexists. split; [reflexivity |]. rewrite app_nil_r. auto.
Qed.

(** X18: On a new session whose HELLO was sent, when no HELLO
    response is required [begin] announces the session as established and
    persists the protocol flags (lines 401 to 403); with
    DEVICE_INITIATED_DESCRIBE it then is the forced post of the system
    description, and without it it returns NO_ERROR. *)
Theorem begin_completes (fuel : nat) (s s2 : Protocol) (error : ProtocolError) :
  establish W (trace s ++ [EvChunkedTransferReset; EvPingerReset; EvTimesyncReset;
                           EvAckHandlersClear; EvMillis]) = NO_ERROR ->
  hello D C W (was_ota_upgrade_successful W (trace s ++ establish_calls))
        (hello_point D W s) = Ret error s2 ->
  is_error error = false ->
  has_flag (protocol_flags s) (REQUIRE_HELLO_RESPONSE D) = false ->
  exists s3,
    trace s3 = trace s2 ++ EvNotifyEstablished
                           :: protocol_flags_calls W (protocol_flags s)
    /\ begin D C W fuel s
       = if has_flag (protocol_flags s) (DEVICE_INITIATED_DESCRIBE D)
         then post_description D C W (DESCRIBE_SYSTEM D) true s3
         else Ret NO_ERROR s3.
Proof.
  intros Hest Hhello Herror Hreq.
  destruct (hello_run (was_ota_upgrade_successful W (trace s ++ establish_calls))
              (hello_point D W s))
    as (hello_flags & s2' & E & _ & _ & P & _).
  cbv zeta in E. rewrite Hhello in E. injection E as _ <-.
  change (protocol_flags (hello_point D W s)) with (protocol_flags s) in P.
  assert (error = NO_ERROR) as -> by (destruct error; try discriminate; reflexivity).
  to_hello Hest s.
  rewrite (bind_ret _ _ _ _ _ Hhello), Herror. unfold get at 1. step.
  rewrite P, Hreq. step. change (is_error NO_ERROR) with false. cbv beta iota.
  step. unfold call at 1. step.
  match goal with |- context [bind (update_protocol_flags W) _ ?st] =>
    destruct (update_protocol_flags_run st) as (s3 & E3 & T3 & P3 & _)
  end.
  rewrite (bind_ret _ _ _ _ _ E3). unfold get at 1. step.
  simpl in T3, P3. rewrite P in T3, P3. rewrite P3.
  exists s3. split.
  - rewrite T3, <- app_assoc. reflexivity.
  - destruct (has_flag (protocol_flags s) (DEVICE_INITIATED_DESCRIBE D)); reflexivity.
Qed.

(** X19: When a HELLO response is required and the wait
    for it fails, [begin] returns that error and makes no call after the wait
    (lines 393 to 399). *)
Theorem begin_without_hello_response (fuel : nat) (s s2 s3 : Protocol)
    (error failure : ProtocolError) :
  establish W (trace s ++ [EvChunkedTransferReset; EvPingerReset; EvTimesyncReset;
                           EvAckHandlersClear; EvMillis]) = NO_ERROR ->
  hello D C W (was_ota_upgrade_successful W (trace s ++ establish_calls))
        (hello_point D W s) = Ret error s2 ->
  is_error error = false ->
  has_flag (protocol_flags s) (REQUIRE_HELLO_RESPONSE D) = true ->
  event_loop_wait D C W fuel CoAPMessageType.HELLO 4000
    (add_log (Build_LogEntry LOG_INFO "Receiving HELLO response" []) s2)
  = Ret failure s3 ->
  is_error failure = true ->
  exists s',
    begin D C W fuel s = Ret failure s'
    /\ trace s' = trace s3.
Proof.
  intros Hest Hhello Herror Hreq Hwait Hfailure.
  destruct (hello_run (was_ota_upgrade_successful W (trace s ++ establish_calls))
              (hello_point D W s))
    as (hello_flags & s2' & E & _ & _ & P & _).
  cbv zeta in E. rewrite Hhello in E. injection E as _ <-.
  change (protocol_flags (hello_point D W s)) with (protocol_flags s) in P.
  to_hello Hest s.
  rewrite (bind_ret _ _ _ _ _ Hhello), Herror. unfold get at 1. step.
  rewrite P, Hreq. unfold hello_response. step.
  rewrite !bind_bind, (bind_ret _ _ _ _ _ Hwait). rewrite Hfailure.
  unfold when. do 2 step. rewrite Hfailure.
  eexists. split; reflexivity.
Qed.

End Handshake_more.

(** * The describe document *)

Lemma append_nil (a : Appender.t) : Appender.append a [] = a.
Proof.
  destruct a as [data room overflow]. unfold Appender.append. simpl.
  rewrite firstn_nil, app_nil_r, Nat.add_0_r. reflexivity.
Qed.

Lemma append_app (a : Appender.t) (x y : list byte) :
  Appender.append (Appender.append a x) y = Appender.append a (x ++ y).
Proof.
  destruct a as [data room overflow]. unfold Appender.append. simpl.
  rewrite firstn_app, <- app_assoc, !length_app, length_firstn.
  f_equal.
  - f_equal. f_equal. f_equal. lia.
  - lia.
Qed.

Section Document.
Variable D : Defs.
Variable W : World.

Lemma append_function_key_bytes (a : Appender.t) (i : Z) :
  append_function_key D W a i = Appender.append a (function_key_bytes D W i).
Proof.
  unfold append_function_key, function_key_bytes.
  replace (if (MAX_FUNCTION_KEY_LENGTH D
               <? List.length (get_function_key (describe_data W) i))%nat
           then MAX_FUNCTION_KEY_LENGTH D
           else List.length (get_function_key (describe_data W) i))
    with (Nat.min (MAX_FUNCTION_KEY_LENGTH D)
                  (List.length (get_function_key (describe_data W) i)))
    by (destruct (Nat.ltb_spec (MAX_FUNCTION_KEY_LENGTH D)
                    (List.length (get_function_key (describe_data W) i))); lia).
  destruct (i =? 0); rewrite !append_app; reflexivity.
Qed.

Lemma append_variable_key_bytes (a : Appender.t) (i : Z) :
  append_variable_key D W a i = Appender.append a (variable_key_bytes D W i).
Proof.
  unfold append_variable_key, variable_key_bytes.
  replace (if (MAX_VARIABLE_KEY_LENGTH D
               <? List.length (get_variable_key (describe_data W) i))%nat
           then MAX_VARIABLE_KEY_LENGTH D
           else List.length (get_variable_key (describe_data W) i))
    with (Nat.min (MAX_VARIABLE_KEY_LENGTH D)
                  (List.length (get_variable_key (describe_data W) i)))
    by (destruct (Nat.ltb_spec (MAX_VARIABLE_KEY_LENGTH D)
                    (List.length (get_variable_key (describe_data W) i))); lia).
  destruct (i =? 0); rewrite !append_app, <- ?app_assoc; reflexivity.
Qed.

Lemma fold_append (f : Appender.t -> Z -> Appender.t) (g : Z -> list byte)
    (l : list Z) (a : Appender.t) :
  (forall a i, f a i = Appender.append a (g i)) ->
  fold_left f l a = Appender.append a (List.concat (map g l)).
Proof.
  intros H. revert a. induction l as [| i l IH]; intros a; simpl.
  - symmetry. apply append_nil.
  - rewrite IH, H, append_app. reflexivity.
Qed.

Lemma build_describe_message_document (a : Appender.t) (desc_flags : Z) :
  build_describe_message D W a desc_flags
  = Appender.append a (describe_document D W desc_flags).
Proof.
  unfold build_describe_message, describe_document, application_bytes.
  destruct (append_metrics (describe_data W)) as [metrics |];
    destruct (desc_flags =? DESCRIBE_METRICS D);
    try (rewrite !append_app; reflexivity);
    destruct (has_flag desc_flags (DESCRIBE_APPLICATION D));
    destruct (append_system_info (describe_data W)) as [info |];
    try destruct (has_flag desc_flags (DESCRIBE_SYSTEM D));
    rewrite ?(fold_append _ _ _ _ append_function_key_bytes),
            ?(fold_append _ _ _ _ append_variable_key_bytes);
    rewrite !append_app, <- ?app_assoc; reflexivity.
Qed.

(** X20: The appends of [build_describe_message] (lines 513 to
    589) amount to one append of the describe document; unless it is the
    binary metrics document, the document opens with a brace and closes with a
    brace. *)
Theorem describe_document_written (a : Appender.t) (desc_flags : Z) :
  build_describe_message D W a desc_flags
  = Appender.append a (describe_document D W desc_flags)
  /\ (is_metrics_document D W desc_flags = false ->
      exists body, describe_document D W desc_flags = "{"%byte :: body ++ ["}"%byte]).
Proof.
  split; [apply build_describe_message_document |].
  unfold is_metrics_document, describe_document.
  destruct (append_metrics (describe_data W)) as [metrics |];
    [destruct (desc_flags =? DESCRIBE_METRICS D); [discriminate |] |];
    intros _; eexists; simpl; rewrite ?app_assoc; reflexivity.
Qed.

End Document.

Section Describe_more.
Variable D : Defs.
Variable C : Codec.
Variable W : World.

Lemma document_in_room (size : nat) (desc_flags : Z) :
  let written := build_describe_message D W (Appender.make size) desc_flags in
  Appender.data written = firstn size (describe_document D W desc_flags)
  /\ Appender.overflowed written
     = (List.length (describe_document D W desc_flags) - size)%nat.
Proof.
  simpl. rewrite build_describe_message_document.
  unfold Appender.append, Appender.make, Appender.overflowed. simpl.
  rewrite Nat.sub_0_r. auto.
Qed.

(** X21: [get_describe_data] (lines 708 to 715) reports a
    maximum size of 768 and, as the current size, the length of the describe
    document; a buffer of [size] bytes overflows by the current size less
    [size]. *)
Theorem get_describe_data_size (flags : Z) :
  let current_size := snd (get_describe_data D W flags) in
  fst (get_describe_data D W flags) = 768%nat
  /\ current_size = List.length (describe_document D W flags)
  /\ forall size,
       Appender.overflowed (build_describe_message D W (Appender.make size) flags)
       = (current_size - size)%nat.
Proof.
  simpl. unfold get_describe_data, dataSize. simpl snd.
  destruct (document_in_room 0 flags) as [Hd Ho]. cbv zeta in Hd, Ho.
  unfold Appender.overflowed in Ho. rewrite Hd, Ho. simpl firstn.
  split; [reflexivity |]. split; [simpl; lia |].
  intros size. destruct (document_in_room size flags) as [_ Ho'].
  cbv zeta in Ho'. rewrite Ho'. simpl. lia.
Qed.

(** X22: When the describe document is longer than the room
    after the header, [generate_and_send_description] panics (lines 601 to
    610): nothing is sent and the pending ids are as before. *)
Theorem describe_overflow_panics (message : Message) (header_size : nat)
    (desc_flags : Z) (s : Protocol) :
  (header_size <= capacity message)%nat ->
  (capacity message - header_size
   < List.length (describe_document D W desc_flags))%nat ->
  exists s',
    generate_and_send_description D W message header_size desc_flags s
    = Halt PANIC s'
    /\ trace s' = trace s
    /\ pending_ids s' = pending_ids s.
Proof.
  intros Hh Hlong. unfold generate_and_send_description.
  destruct (Nat.ltb_spec (capacity message) header_size) as [Hlt | _]; [lia |].
  destruct (document_in_room (capacity message - header_size) desc_flags)
    as [_ Ho].
  cbv zeta in Ho. rewrite Ho.
  destruct (Nat.ltb_spec 0 (List.length (describe_document D W desc_flags)
                            - (capacity message - header_size))) as [_ | Hz];
    [| lia].
  eexists. split; [reflexivity |]. split; reflexivity.
Qed.

Lemma generate_and_send_description_fits (message : Message) (header_size : nat)
    (desc_flags : Z) (s : Protocol) :
  let document := describe_document D W desc_flags in
  let posted :=
    set_length (set_buf message (write_at (m_buf message) header_size document))
               (header_size + List.length document) in
  let answer := send W (trace s) posted in
  let msg_id := m_id (snd answer) in
  (header_size + List.length document <= capacity message)%nat ->
  exists s',
    generate_and_send_description D W message header_size desc_flags s
    = Ret (fst answer) s'
    /\ trace s' = trace s ++ [EvSend posted]
    /\ next_token s' = next_token s
    /\ app_describe_msg_id s'
       = (if ProtocolError_eqb (fst answer) NO_ERROR
             && has_flag desc_flags (DESCRIBE_APPLICATION D)
          then msg_id else app_describe_msg_id s)
    /\ system_describe_msg_id s'
       = (if ProtocolError_eqb (fst answer) NO_ERROR
             && has_flag desc_flags (DESCRIBE_SYSTEM D)
          then msg_id else system_describe_msg_id s)
    /\ subscriptions_msg_id s' = subscriptions_msg_id s.
Proof.
  intros document posted answer msg_id Hfits.
  unfold generate_and_send_description.
  destruct (Nat.ltb_spec (capacity message) header_size) as [Hlt | _]; [lia |].
  destruct (document_in_room (capacity message - header_size) desc_flags)
    as [Hd Ho].
  cbv zeta in Hd, Ho. fold document in Hd, Ho. rewrite Ho, Hd.
  rewrite firstn_all2 by lia. fold posted.
  destruct (Nat.ltb_spec 0 (List.length document - (capacity message - header_size)))
    as [Hz | _]; [lia |].
  do 2 step. unfold channel_send, call at 1. step.
  cbn [trace add_log]. fold answer. subst msg_id.
  destruct answer as [error sent]. simpl fst. simpl snd. cbv beta iota.
  destruct (ProtocolError_eqb error NO_ERROR); unfold when;
    destruct (has_flag desc_flags (DESCRIBE_APPLICATION D));
    destruct (has_flag desc_flags (DESCRIBE_SYSTEM D));
    repeat step; eexists; (split; [reflexivity |]);
    (split; [reflexivity |]); auto.
Qed.


(** X23: When the describe document fits,
    [generate_and_send_description] sends exactly one message, the document
    written after the header, and returns what [send] answers (lines 596 to
    628); when that is NO_ERROR the id given by the channel becomes the
    pending id of each flavour in the flags, otherwise the pending ids are as
    before. *)
Theorem describe_is_sent (message : Message) (header_size : nat)
    (desc_flags : Z) (s : Protocol) :
  let document := describe_document D W desc_flags in
  let posted :=
    set_length (set_buf message (write_at (m_buf message) header_size document))
               (header_size + List.length document) in
  let answer := send W (trace s) posted in
  let msg_id := m_id (snd answer) in
  (header_size + List.length document <= capacity message)%nat ->
  exists s',
    generate_and_send_description D W message header_size desc_flags s
    = Ret (fst answer) s'
    /\ new_events s s' = [EvSend posted]
    /\ app_describe_msg_id s'
       = (if ProtocolError_eqb (fst answer) NO_ERROR
             && has_flag desc_flags (DESCRIBE_APPLICATION D)
          then msg_id else app_describe_msg_id s)
    /\ system_describe_msg_id s'
       = (if ProtocolError_eqb (fst answer) NO_ERROR
             && has_flag desc_flags (DESCRIBE_SYSTEM D)
          then msg_id else system_describe_msg_id s)
    /\ subscriptions_msg_id s' = subscriptions_msg_id s.
Proof.
  intros document posted answer msg_id Hfits.
  destruct (generate_and_send_description_fits message header_size desc_flags s Hfits)
    as (s' & E & T & _ & I).
  exists s'. split; [exact E |]. split; [apply new_events_spec; exact T | exact I].
Qed.

(** [generate_and_send_description] sends at most once, and makes no other
    call. *)
Lemma generate_and_send_description_sends (message : Message) (header_size : nat)
    (desc_flags : Z) (s : Protocol) :
  exists evs,
    trace (final_state
             (generate_and_send_description D W message header_size desc_flags s))
    = trace s ++ evs
    /\ count is_create evs = 0%nat /\ (count is_send evs <= 1)%nat.
Proof.
  unfold generate_and_send_description.
  destruct (capacity message <? header_size)%nat;
    [exists []; simpl; rewrite app_nil_r; auto |].
  destruct (0 <? Appender.overflowed _)%nat.
  - exists []. simpl. rewrite app_nil_r. auto.
  - do 2 step. unfold channel_send, call at 1. step.
    match goal with |- context [send W ?h ?m] =>
      exists [EvSend m]; destruct (send W h m) as [error sent] end.
    cbv beta iota.
    destruct (ProtocolError_eqb error NO_ERROR); unfold when;
      destruct (has_flag desc_flags (DESCRIBE_APPLICATION D));
      destruct (has_flag desc_flags (DESCRIBE_SYSTEM D));
      repeat step; simpl; auto.
Qed.

(** X24: [send_description_response] (lines 661 to 681)
    acknowledges the request before it creates the response: when the first
    [create] fails nothing is sent, when the acknowledgement cannot be sent no
    response is created, and otherwise one more message is created and at most
    one more is sent. *)
Theorem describe_request_acknowledged (token msg_id desc_flags : Z) (s : Protocol) :
  let created := create W (trace s) in
  let built := empty_ack C (m_buf (snd created)) 0 0 in
  let ack :=
    set_id (set_length (set_buf (snd created) (fst built)) (snd built)) msg_id in
  let acked := send W (trace s ++ [EvCreate]) ack in
  let done := send_description_response D C W token msg_id desc_flags s in
  (fst created <> NO_ERROR ->
   result_of done = Some (fst created)
   /\ new_events s (final_state done) = [EvCreate])
  /\ (fst created = NO_ERROR -> fst acked <> NO_ERROR ->
      result_of done = Some (fst acked)
      /\ new_events s (final_state done) = [EvCreate; EvSend ack])
  /\ (fst created = NO_ERROR -> fst acked = NO_ERROR ->
      exists rest,
        new_events s (final_state done) = [EvCreate; EvSend ack; EvCreate] ++ rest
        /\ count is_create rest = 0%nat /\ (count is_send rest <= 1)%nat).
Proof.
  intros created built ack acked done. subst done.
  assert (Heq : forall e, ProtocolError_eqb e NO_ERROR = true -> e = NO_ERROR)
    by (intros e; destruct e; try discriminate; reflexivity).
  assert (Hneq : forall e, ProtocolError_eqb e NO_ERROR = false -> e <> NO_ERROR)
    by (intros e He ->; discriminate).
  remember (send_description_response D C W token msg_id desc_flags s) as o eqn:Ho.
  revert Ho.
  unfold send_description_response, channel_create, call at 1. step.
  fold created. destruct created as [error msg] eqn:Ec. simpl fst. simpl snd in *.
  cbv beta iota.
  destruct (ProtocolError_eqb error NO_ERROR) eqn:Hc; cbn [negb]; cbv iota.
  - apply Heq in Hc. subst error.
    unfold send_empty_ack. fold built. destruct built as [buf n].
    simpl fst in *. simpl snd in *. fold ack.
    unfold channel_send, call at 1. rewrite !bind_bind. step.
    cbn [trace add_event]. fold acked. destruct acked as [error sent].
    simpl fst in *. step.
    destruct (ProtocolError_eqb error NO_ERROR) eqn:Ha; cbn [negb]; cbv iota.
    + apply Heq in Ha. subst error. unfold call at 1. step.
      match goal with |- context [create W ?h] =>
        destruct (create W h) as [error2 msg2] end.
      cbv beta iota.
      assert (Hrest : forall o' : Outcome ProtocolError,
                (exists evs, trace (final_state o')
                             = (trace s ++ [EvCreate; EvSend ack; EvCreate]) ++ evs
                             /\ count is_create evs = 0%nat
                             /\ (count is_send evs <= 1)%nat) ->
                o = o' ->
                (NO_ERROR <> NO_ERROR ->
                 result_of o = Some NO_ERROR
                 /\ new_events s (final_state o) = [EvCreate])
                /\ (NO_ERROR = NO_ERROR -> NO_ERROR <> NO_ERROR ->
                    result_of o = Some NO_ERROR
                    /\ new_events s (final_state o) = [EvCreate; EvSend ack])
                /\ (NO_ERROR = NO_ERROR -> NO_ERROR = NO_ERROR ->
                    exists rest,
                      new_events s (final_state o)
                      = [EvCreate; EvSend ack; EvCreate] ++ rest
                      /\ count is_create rest = 0%nat
                      /\ (count is_send rest <= 1)%nat)).
      { intros o' (evs & T & Nc & Ns) ->.
        split; [intros H; contradiction |]. split; [intros _ H; contradiction |].
        intros _ _. exists evs. split; [| auto].
        apply new_events_spec. rewrite T, <- app_assoc. reflexivity. }
      apply Hrest.
      destruct (negb (ProtocolError_eqb error2 NO_ERROR)).
      * exists []. unfold ret. cbn [final_state]. simpl.
        rewrite <- !app_assoc, app_nil_r. auto.
      * destruct (description_response C (m_buf msg2) 0 token) as [buf2 size].
        match goal with |- context [generate_and_send_description D W ?m ?h ?f ?st] =>
          destruct (generate_and_send_description_sends m h f st)
            as (evs & T & Nc & Ns)
        end.
        exists evs. split; [| auto].
        rewrite T. simpl. rewrite <- !app_assoc. reflexivity.
    + apply Hneq in Ha. intros ->. unfold ret. cbn [result_of final_state].
      split; [intros H; contradiction |]. split; [| intros _ H; contradiction].
      intros _ _. split; [reflexivity |].
      apply new_events_spec. simpl. rewrite <- app_assoc. reflexivity.
  - apply Hneq in Hc. intros ->. unfold ret. cbn [result_of final_state].
    split; [| split; intros H; contradiction].
    intros _. split; [reflexivity |]. apply new_events_spec. reflexivity.
Qed.

(** X25: A forced [post_description] with flags other than 0
    (lines 647 to 658), when [create] succeeds and the document fits, sends
    the describe message whose header carries the current [next_token],
    advances [next_token] by one (modulo 2^32), and on NO_ERROR records the id
    given by the channel for each flavour in the flags. *)
Theorem forced_post_is_sent (desc_flags : Z) (s : Protocol) :
  let created := create W (trace s) in
  let header :=
    describe_post_header C (m_buf (snd created)) (capacity (snd created)) 0
                         (next_token s) desc_flags in
  let document := describe_document D W desc_flags in
  let posted :=
    set_length (set_buf (snd created)
                        (write_at (fst header) (snd header) document))
               (snd header + List.length document) in
  let answer := send W (trace s ++ [EvCreate]) posted in
  desc_flags <> 0 ->
  fst created = NO_ERROR ->
  (snd header + List.length document <= List.length (fst header))%nat ->
  exists s',
    post_description D C W desc_flags true s = Ret (fst answer) s'
    /\ new_events s s' = [EvCreate; EvSend posted]
    /\ next_token s' = to_uint32 (next_token s + 1)
    /\ (fst answer = NO_ERROR ->
        has_flag desc_flags (DESCRIBE_SYSTEM D) = true ->
        system_describe_msg_id s' = m_id (snd answer))
    /\ (fst answer = NO_ERROR ->
        has_flag desc_flags (DESCRIBE_APPLICATION D) = true ->
        app_describe_msg_id s' = m_id (snd answer)).
Proof.
  intros created header document posted answer Hflags Hcreated Hfits.
  unfold post_description. simpl negb. cbv iota. step.
  destruct (Z.eqb_spec desc_flags 0) as [e | _]; [contradiction |].
  unfold channel_create, call at 1. step. fold created.
  destruct created as [error message] eqn:Ec. simpl fst in *. simpl snd in *.
  subst error. cbv beta iota.
  change (negb (ProtocolError_eqb NO_ERROR NO_ERROR)) with false. cbv iota.
  unfold get_next_token, get at 1. rewrite !bind_bind. do 3 step.
  cbn [next_token add_event]. fold header.
  destruct header as [buf header_size] eqn:Eh. simpl fst in *. simpl snd in *.
  match goal with |- context [generate_and_send_description D W ?m ?h ?f ?st] =>
    destruct (generate_and_send_description_fits m h f st)
      as (s' & E & T & N & A & S & _)
  end.
  { exact Hfits. }
  change (send W _ _) with answer in E, A, S.
  change (trace s' = (trace s ++ [EvCreate])
                     ++ [EvSend posted]) in T.
  exists s'. split; [exact E |].
  split; [apply new_events_spec; rewrite T, <- app_assoc; reflexivity |].
  split; [exact N |]. split.
  - intros Ha Hs. rewrite S, Ha, Hs. reflexivity.
  - intros Ha Hs. rewrite A, Ha, Hs. reflexivity.
Qed.

End Describe_more.

(** * More on the key change *)

Section Key_change_more.
Variable C : Codec.
Variable W : World.

(** Lines 229 to 236: the acknowledgement of a confirmable message. *)
Lemma key_change_acknowledged (message : Message) (s : Protocol)
    (k : ProtocolError -> M ProtocolError) :
  let result :=
    if CoAPType.eqb (CoAP_type C (m_buf message)) CoAPType.CON
    then fst (send W (trace s ++ [EvResponse message 5])
                   (key_change_ack C W (trace s) message))
    else NO_ERROR in
  exists s1,
    trace s1 = trace s ++ key_change_ack_calls C W (trace s) message
    /\ bind (if CoAPType.eqb (CoAP_type C (m_buf message)) CoAPType.CON
             then
               response <- call (EvResponse message 5)
                                (fun h => response W h message 5%nat) ;;
               let '(rbuf, sz) := empty_ack C (m_buf response) 0 0 in
               let response := set_length (set_buf response rbuf) sz in
               '(error, _) <- channel_send W response ;;
               ret error
             else ret NO_ERROR) k s
       = k result s1.
Proof.
  unfold key_change_ack_calls, key_change_ack.
  destruct (CoAPType.eqb (CoAP_type C (m_buf message)) CoAPType.CON).
  - unfold call at 1. rewrite !bind_bind. step.
    destruct (empty_ack C _ 0 0) as [rbuf sz]. unfold channel_send, call at 1.
    rewrite !bind_bind. step. cbn [trace add_event].
    destruct (send W _ _) as [error sent]. step. simpl fst.
    eexists. split; [| reflexivity]. simpl. rewrite <- app_assoc. reflexivity.
  - step. exists s. split; [rewrite app_nil_r |]; reflexivity.
Qed.

(** X26: A key change of at most 7 bytes (line 240)
    never discards the session: the only calls are those of the
    acknowledgement of a confirmable message, and the result is what its send
    answers, or NO_ERROR. *)
Theorem short_key_change_keeps_session (message : Message) (s : Protocol) :
  (m_length message <= 7)%nat ->
  exists s',
    handle_key_change C W message s
    = Ret (if CoAPType.eqb (CoAP_type C (m_buf message)) CoAPType.CON
           then fst (send W (trace s ++ [EvResponse message 5])
                          (key_change_ack C W (trace s) message))
           else NO_ERROR) s'
    /\ new_events s s' = key_change_ack_calls C W (trace s) message.
Proof.
  intros Hlen. unfold handle_key_change.
  destruct (key_change_acknowledged message s
              (fun result =>
                 if (7 <? m_length message)%nat
                 then
                   b0 <- read (m_buf message) 0 ;;
                   b <- read (m_buf message)
                             (Z.to_nat ((7 + Z.land (u8 b0) 15) mod 256)) ;;
                   if u8 b =? 1
                   then channel_command W Channel.DISCARD_SESSION
                   else ret result
                 else ret result)) as (s1 & T & E).
  cbv zeta in E. rewrite E.
  destruct (Nat.ltb_spec 7 (m_length message)) as [H | _]; [lia |].
  exists s1. split; [reflexivity | apply new_events_spec; exact T].
Qed.

(** X27: For a key change of more than 7 bytes whose option byte
    is in the buffer (lines 240 to 249): when that byte is 1 the session is
    discarded after the acknowledgement and the result is the answer of the
    DISCARD_SESSION command, also when the acknowledgement could not be sent;
    otherwise the result is that of the acknowledgement. *)
Theorem key_change_outcome (message : Message) (s : Protocol) (b0 b : byte) :
  let acknowledged := trace s ++ key_change_ack_calls C W (trace s) message in
  nth_error (m_buf message) 0 = Some b0 ->
  (7 < m_length message)%nat ->
  nth_error (m_buf message) (key_change_option_index b0) = Some b ->
  exists s',
    handle_key_change C W message s
    = Ret (if u8 b =? 1 then command W acknowledged Channel.DISCARD_SESSION
           else if CoAPType.eqb (CoAP_type C (m_buf message)) CoAPType.CON
           then fst (send W (trace s ++ [EvResponse message 5])
                          (key_change_ack C W (trace s) message))
           else NO_ERROR) s'
    /\ new_events s s'
       = key_change_ack_calls C W (trace s) message
         ++ (if u8 b =? 1 then [EvCommand Channel.DISCARD_SESSION] else []).
Proof.
  intros acknowledged H0 Hlen Hb. unfold handle_key_change.
  destruct (key_change_acknowledged message s
              (fun result =>
                 if (7 <? m_length message)%nat
                 then
                   b0 <- read (m_buf message) 0 ;;
                   b <- read (m_buf message)
                             (Z.to_nat ((7 + Z.land (u8 b0) 15) mod 256)) ;;
                   if u8 b =? 1
                   then channel_command W Channel.DISCARD_SESSION
                   else ret result
                 else ret result)) as (s1 & T & E).
  cbv zeta in E. rewrite E.
  destruct (Nat.ltb_spec 7 (m_length message)) as [_ | H]; [| lia].
  unfold read at 1. rewrite H0. step.
  rewrite option_index_small, Nat2Z.id. unfold read. rewrite Hb. step.
  destruct (u8 b =? 1).
  - unfold channel_command, call. rewrite T. fold acknowledged.
    eexists. split; [reflexivity |].
    apply new_events_spec. simpl. rewrite T, <- app_assoc. reflexivity.
  - exists s1. split; [reflexivity |].
    apply new_events_spec. rewrite T, app_nil_r. reflexivity.
Qed.

End Key_change_more.

(** * Initialisation *)

(** X28: [copy_and_init] (lines 274 to 279) leaves the target as
    long as it was, with the first [source_size] bytes those of the source,
    the bytes from there up to [target_size] zero, and the bytes beyond
    [target_size] as they were. *)
Theorem copy_and_init_bytes (target source result : list byte)
    (target_size source_size : nat) :
  copy_and_init target target_size source source_size = Some result ->
  List.length result = List.length target
  /\ (forall i, (i < source_size)%nat -> nth_error result i = nth_error source i)
  /\ (forall i, (source_size <= i < target_size)%nat ->
                nth_error result i = Some x00)
  /\ (forall i, (target_size <= i)%nat -> nth_error result i = nth_error target i).
Proof.
  unfold copy_and_init.
  destruct (Nat.leb_spec source_size target_size) as [H1 | _]; [| discriminate].
  destruct (Nat.leb_spec target_size (List.length target)) as [H2 | _];
    [| discriminate].
  destruct (Nat.leb_spec source_size (List.length source)) as [H3 | _];
    [| discriminate].
  simpl. intros E. injection E as <-.
  assert (Lf : List.length (firstn source_size source) = source_size)
    by (rewrite length_firstn; lia).
  assert (Lr : List.length (repeat x00 (target_size - source_size))
               = (target_size - source_size)%nat) by apply repeat_length.
  split; [| split; [| split]].
  - rewrite !length_app, Lf, Lr, length_skipn. lia.
  - intros i Hi. rewrite nth_error_app1 by lia. rewrite nth_error_firstn.
    destruct (Nat.ltb_spec i source_size); [reflexivity | lia].
  - intros i Hi. rewrite nth_error_app2 by lia. rewrite Lf.
    rewrite nth_error_app1 by lia. apply nth_error_repeat. lia.
  - intros i Hi. rewrite nth_error_app2 by lia. rewrite Lf.
    rewrite nth_error_app2 by lia. rewrite Lr, nth_error_skipn.
    f_equal. lia.
Qed.

(** * More concrete runs *)

Lemma ping_is_acknowledged_witness :
  exists s' before,
    handle_received_message Sample.defs (Sample.codec CoAPMessageType.PING)
      Sample.calm Sample.ping_with_short_token Sample.fresh
    = Ret (CoAPMessageType.PING, NO_ERROR) s'
    /\ new_events Sample.fresh s'
       = before ++ [EvSend (Sample.received [x60; x00; x12; x34; xaa; xbb] 4)]
    /\ count is_send before = 0%nat.
Proof.
  apply (ping_is_acknowledged Sample.defs (Sample.codec CoAPMessageType.PING)
           Sample.calm Sample.ping_with_short_token Sample.fresh x12 x34);
    reflexivity.
Defined.

Lemma signal_is_acknowledged_witness :
  exists s' before,
    handle_received_message Sample.defs (Sample.codec CoAPMessageType.SIGNAL_START)
      Sample.calm Sample.ping_with_short_token Sample.fresh
    = Ret (CoAPMessageType.SIGNAL_START, NO_ERROR) s'
    /\ new_events Sample.fresh s'
       = before ++ [EvSignal true;
                    EvSend (Sample.received [x42; x00; x12; x34; xaa; xbb] 0)]
    /\ count is_send before = 0%nat.
Proof.
  apply (signal_is_acknowledged Sample.defs
           (Sample.codec CoAPMessageType.SIGNAL_START) Sample.calm
           Sample.ping_with_short_token Sample.fresh true x12 x34);
    reflexivity.
Defined.

Lemma hello_is_noted_witness :
  exists s' before,
    handle_received_message Sample.defs (Sample.codec CoAPMessageType.HELLO)
      Sample.calm Sample.function_call_without_token Sample.fresh
    = Ret (CoAPMessageType.HELLO, NO_ERROR) s'
    /\ new_events Sample.fresh s'
       = before
         ++ [EvSend (set_id (Sample.received [x60; x00; x00; x00; xb1; x66] 4) 4660)]
         ++ [EvOtaUpgradeStatusSent]
    /\ count is_send before = 0%nat.
Proof.
  apply (hello_is_noted Sample.defs (Sample.codec CoAPMessageType.HELLO)
           Sample.calm Sample.function_call_without_token Sample.fresh).
  reflexivity.
Defined.

Lemma unhandled_types_are_dropped_witness :
  exists s' evs,
    handle_received_message Sample.defs (Sample.codec CoAPMessageType.NONE)
      Sample.calm Sample.function_call_without_token Sample.fresh
    = Ret (CoAPMessageType.NONE, NO_ERROR) s'
    /\ new_events Sample.fresh s' = [EvMillis; EvPingerMessageReceived] ++ evs
    /\ Forall (fun e => from_reply e = true) evs
    /\ (false = false -> evs = [] /\ pending_ids s' = pending_ids Sample.fresh).
Proof.
  apply (unhandled_types_are_dropped Sample.defs
           (Sample.codec CoAPMessageType.NONE) Sample.calm
           Sample.function_call_without_token Sample.fresh).
  right. reflexivity.
Defined.

Lemma pending_ids_after_receipt_witness :
  pending_ids
    (final_state
       (handle_received_message Sample.defs (Sample.codec CoAPMessageType.NONE)
          Sample.calm Sample.empty_ack_4660 (Scenario.pending 4660 11 4660 0)))
  = (-1, 11, -1).
Proof.
  apply (pending_ids_after_receipt Sample.defs (Sample.codec CoAPMessageType.NONE)
           Sample.calm Sample.empty_ack_4660 (Scenario.pending 4660 11 4660 0)).
  discriminate.
Defined.

Lemma reply_without_persisting_witness :
  exists completion rest,
    is_completion completion = true
    /\ new_events (Sample.awaiting_system_describe 4660)
         (final_state
            (handle_received_message Sample.defs (Sample.codec CoAPMessageType.NONE)
               Sample.without_selector Sample.empty_ack_4660
               (Sample.awaiting_system_describe 4660)))
       = [EvMillis; EvPingerMessageReceived; completion] ++ rest
    /\ Forall (fun e => from_dispatch e = true) rest.
Proof.
  apply (reply_without_persisting Sample.defs (Sample.codec CoAPMessageType.NONE)
           Sample.without_selector Sample.empty_ack_4660
           (Sample.awaiting_system_describe 4660)).
  right. split; reflexivity.
Defined.

Lemma default_describe_acknowledged_witness :
  exists completion rest,
    is_completion completion = true
    /\ new_events (Scenario.pending 4660 4660 (-1) 0)
         (final_state
            (handle_received_message Sample.defs (Sample.codec CoAPMessageType.NONE)
               Sample.calm Sample.empty_ack_4660 (Scenario.pending 4660 4660 (-1) 0)))
       = [EvMillis; EvPingerMessageReceived; completion]
         ++ [EvCommand Channel.SAVE_SESSION;
             EvAppStateSelectorInfo SparkAppStateSelector.DESCRIBE_APP
                                    SparkAppStateUpdate.COMPUTE_AND_PERSIST 0;
             EvCommand Channel.LOAD_SESSION;
             EvCommand Channel.SAVE_SESSION;
             EvAppStateSelectorInfo SparkAppStateSelector.DESCRIBE_SYSTEM
                                    SparkAppStateUpdate.COMPUTE_AND_PERSIST 0;
             EvCommand Channel.LOAD_SESSION]
         ++ rest
    /\ Forall (fun e => from_dispatch e = true) rest.
Proof.
  apply (default_describe_acknowledged Sample.defs
           (Sample.codec CoAPMessageType.NONE) Sample.calm Sample.empty_ack_4660
           (Scenario.pending 4660 4660 (-1) 0) (fun _ _ _ _ => 7));
    first [reflexivity | discriminate].
Defined.

Lemma subscriptions_acknowledged_witness :
  exists completion rest,
    is_completion completion = true
    /\ new_events (Scenario.pending (-1) (-1) 4660 0)
         (final_state
            (handle_received_message Sample.defs (Sample.codec CoAPMessageType.NONE)
               Sample.calm Sample.empty_ack_4660 (Scenario.pending (-1) (-1) 4660 0)))
       = [EvMillis; EvPingerMessageReceived; completion]
         ++ [EvComputeSubscriptionsChecksum;
             EvCommand Channel.SAVE_SESSION;
             EvAppStateSelectorInfo SparkAppStateSelector.SUBSCRIPTIONS
                                    SparkAppStateUpdate.PERSIST 7;
             EvCommand Channel.LOAD_SESSION]
         ++ rest
    /\ Forall (fun e => from_dispatch e = true) rest.
Proof.
  apply (subscriptions_acknowledged Sample.defs
           (Sample.codec CoAPMessageType.NONE) Sample.calm Sample.empty_ack_4660
           (Scenario.pending (-1) (-1) 4660 0) (fun _ _ _ _ => 7));
    first [reflexivity | discriminate].
Defined.

Lemma event_loop_without_message_witness :
  exists s',
    event_loop Sample.defs (Sample.codec CoAPMessageType.NONE) Scenario.deaf
      Sample.fresh
    = Ret (CoAPMessageType.NONE, CHANNEL_ERROR 2) s'
    /\ new_events Sample.fresh s'
       = [EvMillis; EvAckHandlersUpdate 0; EvReceive] ++ []
         ++ [EvChunkedTransferCancel]
    /\ (true = true ->
        pending_ids s' = pending_ids Sample.fresh
        /\ last_message_millis s' = last_message_millis Sample.fresh).
Proof.
  apply (event_loop_without_message Sample.defs (Sample.codec CoAPMessageType.NONE)
           Scenario.deaf Sample.fresh).
  left. reflexivity.
Defined.

Lemma event_loop_wait_outcome_witness :
  (1 <= count is_receive
          (new_events Sample.fresh
             (final_state
                (event_loop_wait Sample.defs (Sample.codec CoAPMessageType.NONE)
                   Sample.calm 1 CoAPMessageType.NONE 4000 Sample.fresh))))%nat
  /\ (NO_ERROR = NO_ERROR ->
      exists s0,
        event_loop Sample.defs (Sample.codec CoAPMessageType.NONE) Sample.calm s0
        = Ret (CoAPMessageType.NONE, NO_ERROR)
              (final_state
                 (event_loop_wait Sample.defs (Sample.codec CoAPMessageType.NONE)
                    Sample.calm 1 CoAPMessageType.NONE 4000 Sample.fresh))).
Proof.
  apply (event_loop_wait_outcome Sample.defs (Sample.codec CoAPMessageType.NONE)
           Sample.calm 1 CoAPMessageType.NONE 4000 Sample.fresh).
  vm_compute. reflexivity.
Defined.

Lemma begin_establish_fails_witness :
  exists s',
    begin Sample.defs (Sample.codec CoAPMessageType.NONE) Scenario.unreachable 0
          Sample.fresh
    = Ret (CHANNEL_ERROR 3) s'
    /\ new_events Sample.fresh s' = establish_calls
    /\ pending_ids s' = (-1, -1, -1)
    /\ last_ack_handlers_update s' = 4.
Proof.
  apply (begin_establish_fails Sample.defs (Sample.codec CoAPMessageType.NONE)
           Scenario.unreachable 0 Sample.fresh); discriminate.
Defined.

Lemma begin_hello_fails_witness :
  exists s',
    begin Sample.defs (Sample.codec CoAPMessageType.NONE) Scenario.mute 0 Sample.fresh
    = Ret (CHANNEL_ERROR 1) s'
    /\ trace s'
       = establish_calls
         ++ [EvWasOtaUpgradeSuccessful; EvCreate; EvMillis;
             EvSend (set_confirm_received (Sample.blank 64) true)]
    /\ pending_ids s' = (-1, -1, -1).
Proof.
  apply (begin_hello_fails Sample.defs (Sample.codec CoAPMessageType.NONE)
           Scenario.mute 0 Sample.fresh
           (final_state
              (hello Sample.defs (Sample.codec CoAPMessageType.NONE) Scenario.mute
                     false (hello_point Sample.defs Scenario.mute Sample.fresh))));
    reflexivity.
Defined.

Lemma begin_completes_witness :
  exists s3,
    trace s3
    = (establish_calls
       ++ [EvWasOtaUpgradeSuccessful; EvCreate; EvMillis;
           EvSend (set_confirm_received (Sample.blank 64) true)])
      ++ EvNotifyEstablished
         :: [EvCommand Channel.SAVE_SESSION;
             EvAppStateSelectorInfo SparkAppStateSelector.PROTOCOL_FLAGS
                                    SparkAppStateUpdate.PERSIST 0;
             EvCommand Channel.LOAD_SESSION]
    /\ begin Sample.defs (Sample.codec CoAPMessageType.NONE) Sample.calm 0 Sample.fresh
       = Ret NO_ERROR s3.
Proof.
  apply (begin_completes Sample.defs (Sample.codec CoAPMessageType.NONE)
           Sample.calm 0 Sample.fresh
           (final_state
              (hello Sample.defs (Sample.codec CoAPMessageType.NONE) Sample.calm
                     false (hello_point Sample.defs Sample.calm Sample.fresh)))
           NO_ERROR);
    reflexivity.
Defined.

Lemma begin_without_hello_response_witness :
  exists s',
    begin Sample.defs (Sample.codec CoAPMessageType.NONE) Scenario.deaf 1
          (Scenario.pending (-1) (-1) (-1) 1)
    = Ret (CHANNEL_ERROR 2) s'
    /\ trace s'
       = establish_calls
         ++ [EvWasOtaUpgradeSuccessful; EvCreate; EvMillis;
             EvSend (set_confirm_received (Sample.blank 64) true)]
         ++ [EvMillis; EvMillis; EvAckHandlersUpdate 7; EvReceive;
             EvChunkedTransferCancel].
Proof.
  apply (begin_without_hello_response Sample.defs
           (Sample.codec CoAPMessageType.NONE) Scenario.deaf 1
           (Scenario.pending (-1) (-1) (-1) 1)
           (final_state
              (hello Sample.defs (Sample.codec CoAPMessageType.NONE) Scenario.deaf
                     false
                     (hello_point Sample.defs Scenario.deaf
                                  (Scenario.pending (-1) (-1) (-1) 1))))
           (final_state
              (event_loop_wait Sample.defs (Sample.codec CoAPMessageType.NONE)
                 Scenario.deaf 1 CoAPMessageType.HELLO 4000
                 (add_log (Build_LogEntry LOG_INFO "Receiving HELLO response" [])
                    (final_state
                       (hello Sample.defs (Sample.codec CoAPMessageType.NONE)
                              Scenario.deaf false
                              (hello_point Sample.defs Scenario.deaf
                                 (Scenario.pending (-1) (-1) (-1) 1)))))))
           NO_ERROR (CHANNEL_ERROR 2));
    reflexivity.
Defined.

Lemma describe_overflow_panics_witness :
  exists s',
    generate_and_send_description Sample.defs Sample.calm (Sample.blank 1) 0 3
      Sample.fresh
    = Halt PANIC s'
    /\ trace s' = trace Sample.fresh
    /\ pending_ids s' = pending_ids Sample.fresh.
Proof.
  apply (describe_overflow_panics Sample.defs Sample.calm (Sample.blank 1) 0%nat 3
           Sample.fresh); vm_compute; lia.
Defined.

Lemma describe_is_sent_witness :
  exists s',
    generate_and_send_description Sample.defs Sample.calm (Sample.blank 16) 1 3
      Sample.fresh
    = Ret NO_ERROR s'
    /\ new_events Sample.fresh s'
       = [EvSend (Sample.received
                    (x00 :: describe_document Sample.defs Sample.calm 3) 16)]
    /\ app_describe_msg_id s' = 0
    /\ system_describe_msg_id s' = 0
    /\ subscriptions_msg_id s' = -1.
Proof.
  apply (describe_is_sent Sample.defs Sample.calm (Sample.blank 16) 1%nat 3
           Sample.fresh).
  vm_compute. lia.
Defined.

Lemma forced_post_is_sent_witness :
  exists s',
    post_description Sample.defs (Sample.codec CoAPMessageType.NONE) Sample.calm
      1 true Sample.fresh
    = Ret NO_ERROR s'
    /\ new_events Sample.fresh s'
       = [EvCreate;
          EvSend (Sample.received ([x7b; x7d] ++ repeat x00 62) 2)]
    /\ next_token s' = 1
    /\ (NO_ERROR = NO_ERROR -> true = true -> system_describe_msg_id s' = 1)
    /\ (NO_ERROR = NO_ERROR -> false = true -> app_describe_msg_id s' = 1).
Proof.
  apply (forced_post_is_sent Sample.defs (Sample.codec CoAPMessageType.NONE)
           Sample.calm 1 Sample.fresh);
    first [discriminate | reflexivity | vm_compute; lia].
Defined.

Lemma short_key_change_keeps_session_witness :
  exists s',
    handle_key_change (Sample.codec CoAPMessageType.KEY_CHANGE) Sample.calm
      Sample.function_call_without_token Sample.fresh
    = Ret NO_ERROR s'
    /\ new_events Sample.fresh s'
       = [EvResponse Sample.function_call_without_token 5;
          EvSend (Sample.received ([x60] ++ repeat x00 15) 4)].
Proof.
  apply (short_key_change_keeps_session (Sample.codec CoAPMessageType.KEY_CHANGE)
           Sample.calm Sample.function_call_without_token Sample.fresh).
  vm_compute. lia.
Defined.

Lemma key_change_outcome_witness :
  exists s',
    handle_key_change (Sample.codec CoAPMessageType.KEY_CHANGE) Sample.calm
      Sample.stale_key_change Sample.fresh
    = Ret NO_ERROR s'
    /\ new_events Sample.fresh s'
       = [EvResponse Sample.stale_key_change 5;
          EvSend (Sample.received ([x60] ++ repeat x00 15) 4)]
         ++ [EvCommand Channel.DISCARD_SESSION].
Proof.
  apply (key_change_outcome (Sample.codec CoAPMessageType.KEY_CHANGE) Sample.calm
           Sample.stale_key_change Sample.fresh x44 x01);
    first [reflexivity | vm_compute; lia].
Defined.

Lemma copy_and_init_bytes_witness :
  List.length [xaa; xbb; x00; x00; x05] = List.length [x01; x02; x03; x04; x05]
  /\ (forall i, (i < 2)%nat ->
                nth_error [xaa; xbb; x00; x00; x05] i = nth_error [xaa; xbb; xcc] i)
  /\ (forall i, (2 <= i < 4)%nat -> nth_error [xaa; xbb; x00; x00; x05] i = Some x00)
  /\ (forall i, (4 <= i)%nat ->
                nth_error [xaa; xbb; x00; x00; x05] i
                = nth_error [x01; x02; x03; x04; x05] i).
Proof.
  apply (copy_and_init_bytes [x01; x02; x03; x04; x05] [xaa; xbb; xcc]
           [xaa; xbb; x00; x00; x05] 4 2).
  reflexivity.
Defined.

(** * A resumed session that changed, and the flags of a DESCRIBE request *)

Section Resumed_changed.
Variable D : Defs.
Variable C : Codec.
Variable W : World.

(** X29: On a resumed session whose cached descriptor differs
    from the current one under the mask, [begin] goes on to the HELLO (lines
    359 to 410): when the HELLO is sent and no response is required, the
    session is announced as established and the protocol flags are persisted;
    [begin] then returns NO_ERROR, not SESSION_RESUMED, or with
    DEVICE_INITIATED_DESCRIBE is the forced post of the system description. *)
Theorem begin_resumed_changed (fuel : nat) (s s1 s2 : Protocol)
    (currentState cachedState : AppStateDescriptor.t) (error : ProtocolError) :
  establish W (trace s ++ [EvChunkedTransferReset; EvPingerReset; EvTimesyncReset;
                           EvAckHandlersClear; EvMillis]) = SESSION_RESUMED ->
  read_app_states W (resume_point D W s) = Ret (currentState, cachedState) s1 ->
  AppStateDescriptor.equalsTo cachedState currentState
    (resume_mask D (protocol_flags s)) = false ->
  hello D C W (was_ota_upgrade_successful W (trace s1))
        (add_event EvWasOtaUpgradeSuccessful
           (add_log (Build_LogEntry LOG_INFO "Sending HELLO message" []) s1))
  = Ret error s2 ->
  is_error error = false ->
  has_flag (protocol_flags s) (REQUIRE_HELLO_RESPONSE D) = false ->
  exists s3,
    trace s3 = trace s2 ++ EvNotifyEstablished
                           :: protocol_flags_calls W (protocol_flags s)
    /\ begin D C W fuel s
       = if has_flag (protocol_flags s) (DEVICE_INITIATED_DESCRIBE D)
         then post_description D C W (DESCRIBE_SYSTEM D) true s3
         else Ret NO_ERROR s3.
Proof.
  intros Hest Hstates Hneq Hhello Herror Hreq.
  destruct (read_app_states_calls _ _ _ _ Hstates) as (Hflags & _).
  change (protocol_flags (resume_point D W s)) with (protocol_flags s) in Hflags.
  destruct (hello_run D C W (was_ota_upgrade_successful W (trace s1))
              (add_event EvWasOtaUpgradeSuccessful
                 (add_log (Build_LogEntry LOG_INFO "Sending HELLO message" []) s1)))
    as (hello_flags & s2' & E & _ & _ & P & _).
  cbv zeta in E. rewrite Hhello in E. injection E as _ <-.
  change (protocol_flags (add_event _ (add_log _ s1))) with (protocol_flags s1) in P.
  rewrite Hflags in P.
  assert (error = NO_ERROR) as -> by (destruct error; try discriminate; reflexivity).
  unfold begin. unfold notify, callbacks_millis, channel_command.
  do 11 walk. rewrite <- !app_assoc. simpl. rewrite Hest.
  change (is_error SESSION_RESUMED) with true.
  change (ProtocolError_eqb SESSION_RESUMED SESSION_RESUMED) with true.
  change (true && negb true)%bool with false. cbv iota.
  rewrite !bind_bind. walk.
  match goal with |- context [bind _ _ ?st] =>
    replace st with (resume_point D W s)
      by (unfold resume_point, establish_calls; simpl; rewrite <- !app_assoc;
          reflexivity)
  end.
  unfold read_app_states in Hstates.
  destruct (bind_pair _ _ _ _ _ _ Hstates) as (s0 & E0 & E1).
  rewrite !bind_bind, (bind_ret _ _ _ _ _ E0).
  rewrite !bind_bind, (bind_ret _ _ _ _ _ E1).
  rewrite !bind_bind. peel. rewrite Hflags. fold (resume_mask D (protocol_flags s)).
  rewrite Hneq. peel. cbv beta iota. step. unfold call at 1. step.
  rewrite (bind_ret _ _ _ _ _ Hhello), Herror. unfold get at 1. step.
  rewrite P, Hreq. step. change (is_error NO_ERROR) with false. cbv beta iota.
  step. unfold call at 1. step.
  match goal with |- context [bind (update_protocol_flags W) _ ?st] =>
    destruct (update_protocol_flags_run W st) as (s3 & E3 & T3 & P3 & _)
  end.
  rewrite (bind_ret _ _ _ _ _ E3). unfold get at 1. step.
  simpl in T3, P3. rewrite P in T3, P3. rewrite P3.
  exists s3. split.
  - rewrite T3, <- app_assoc. reflexivity.
  - destruct (has_flag (protocol_flags s) (DEVICE_INITIATED_DESCRIBE D)); reflexivity.
Qed.

(** X30: A DESCRIBE request is answered by
    [send_description_response] with the decoded token, the message id and,
    as flags, byte 8 of the message when the message is longer than 8 bytes
    and that byte is at most DESCRIBE_MAX, and DESCRIBE_DEFAULT otherwise
    (lines 117 to 129). *)
Theorem describe_request_flags (message : Message) (s : Protocol) (q8 : byte) :
  let queue := m_buf message in
  let flags :=
    if ((8 <? m_length message)%nat && (u8 q8 <=? DESCRIBE_MAX D))%bool
    then u8 q8 else DESCRIBE_DEFAULT D in
  decodeType C queue (m_length message) = CoAPMessageType.DESCRIBE ->
  ((8 < m_length message)%nat -> nth_error queue 8 = Some q8) ->
  exists s3 evs,
    handle_received_message D C W message s
    = (error <- send_description_response D C W (snd (CoAP_token C queue))
                  (CoAP_message_id C queue) flags ;;
       ret (CoAPMessageType.DESCRIBE, error)) s3
    /\ trace s3 = trace s ++ [EvMillis; EvPingerMessageReceived] ++ evs
    /\ Forall (fun e => from_reply e = true) evs.
Proof.
  intros queue flags Hmt H8.
  destruct (handle_received_message_switch D C W message s)
    as (s3 & evs & E & T & F & _).
  rewrite E. fold queue. rewrite Hmt. unfold dispatch. fold queue. subst flags.
  destruct (Nat.ltb_spec 8 (m_length message)) as [Hlen | _].
  - unfold read. rewrite (H8 Hlen). step. simpl andb.
    destruct (u8 q8 <=? DESCRIBE_MAX D).
    + step. exists s3, evs. auto.
    + do 2 step. eexists. exists evs. split; [reflexivity |]. auto.
  - simpl andb. cbv iota. step. exists s3, evs. auto.
Qed.

End Resumed_changed.

Lemma begin_resumed_changed_witness :
  exists s3,
    begin Sample.defs (Sample.codec CoAPMessageType.NONE) Scenario.changed 0
          Sample.fresh
    = Ret NO_ERROR s3
    /\ count is_send (trace s3) = 1%nat
    /\ In EvNotifyEstablished (trace s3).
Proof.
  destruct (begin_resumed_changed Sample.defs (Sample.codec CoAPMessageType.NONE)
              Scenario.changed 0 Sample.fresh
              (final_state (read_app_states Scenario.changed
                              (resume_point Sample.defs Scenario.changed Sample.fresh)))
              (final_state
                 (hello Sample.defs (Sample.codec CoAPMessageType.NONE)
                    Scenario.changed false
                    (add_event EvWasOtaUpgradeSuccessful
                       (add_log (Build_LogEntry LOG_INFO "Sending HELLO message" [])
                          (final_state
                             (read_app_states Scenario.changed
                                (resume_point Sample.defs Scenario.changed
                                              Sample.fresh)))))))
              Sample.sevens AppStateDescriptor.empty NO_ERROR)
    as (s3 & T & E); try reflexivity.
  exists s3. split; [exact E |]. rewrite T. split; [reflexivity |].
  vm_compute. tauto.
Defined.

Lemma describe_request_flags_witness :
  exists s3 evs,
    handle_received_message Sample.defs (Sample.codec CoAPMessageType.DESCRIBE)
      Sample.calm Sample.function_call_without_token Sample.fresh
    = (error <- send_description_response Sample.defs
                  (Sample.codec CoAPMessageType.DESCRIBE) Sample.calm
                  (snd (Sample.wire_token (m_buf Sample.function_call_without_token)))
                  4660 3 ;;
       ret (CoAPMessageType.DESCRIBE, error)) s3
    /\ trace s3 = trace Sample.fresh ++ [EvMillis; EvPingerMessageReceived] ++ evs
    /\ Forall (fun e => from_reply e = true) evs.
Proof.
  apply (describe_request_flags Sample.defs (Sample.codec CoAPMessageType.DESCRIBE)
           Sample.calm Sample.function_call_without_token Sample.fresh x00).
  - reflexivity.
  - vm_compute. lia.
Defined.
